(** * Driving-school back end: sessions, enrollments and accounts

    A shallow embedding of the request handlers of the Express/Mongoose
    back end (controllers, role middleware and the routers that wire them),
    followed by theorems on session capacity, enrollment bookkeeping,
    token issuance and registration.

    Conventions of the embedding.
    - A Mongoose collection is a [list] of documents in insertion order;
      [findOne] returns the first match, [findOneAndUpdate] and
      [findOneAndDelete] touch the first match only.
    - A handler is a function from the store to a response and a new store.
      The response keeps the HTTP status, the [success] flag, the message
      and the returned document, as [res.status(..).json(..)] builds them.
    - What a handler draws from its surroundings (the clock, [uuidv4()], a
      new ObjectId, bcrypt, the process environment) is an explicit [Env].
    - A field that a request body may omit is an [option]; [None] is the
      JavaScript [undefined].  Strings and integers are the only body
      values modelled, the ones the handlers expect.
    - Storage failures (the [catch] branches answering 500) are modelled
      only where the handler code itself raises them. *)

From Stdlib Require Import String Ascii ZArith List Bool Lia.
From Stdlib Require Import DecimalString DecimalPos.
Import ListNotations.
Open Scope string_scope.
Open Scope Z_scope.

(** ** JavaScript values as the handlers use them *)

Module Js.

(** [!s] on a string that may be undefined: true for [undefined] and for
    the empty string. *)
Definition falsy_str (s : option string) : bool :=
  match s with
  | None => true
  | Some v => String.eqb v EmptyString
  end.

(** The double-quote character, for messages that quote a value. *)
Definition dquote : string := String (ascii_of_nat 34) EmptyString.

(** [!n] on an integer that may be undefined: true for [undefined] and [0]. *)
Definition falsy_num (n : option Z) : bool :=
  match n with
  | None => true
  | Some v => Z.eqb v 0
  end.

(** [!b] on a flag that may be undefined. *)
Definition truthy_flag (b : option bool) : bool :=
  match b with
  | Some true => true
  | _ => false
  end.

(** [x === undefined]. *)
Definition is_undefined {A : Type} (x : option A) : bool :=
  match x with
  | None => true
  | Some _ => false
  end.

(** [String(n)] on an integer: decimal digits, a leading [-] when negative. *)
Definition String_of (n : Z) : string :=
  NilZero.string_of_int (Z.to_int n).

Fixpoint repeat_char (c : ascii) (n : nat) : string :=
  match n with
  | O => EmptyString
  | S k => String c (repeat_char c k)
  end.

(** [s.padStart(targetLength, c)] for a one-character pad string. *)
Definition padStart (targetLength : nat) (c : ascii) (s : string) : string :=
  repeat_char c (targetLength - String.length s) ++ s.

(** The integer a string of decimal digits denotes, leading zeros
    allowed; [None] when a character is not a digit. *)
Definition Number_of (s : string) : option Z :=
  option_map Z.of_uint (NilEmpty.uint_of_string s).

(** [list.includes(s)] on a list of strings. *)
Definition includes (l : list string) (s : string) : bool :=
  existsb (String.eqb s) l.

(** A JavaScript object used as a map from keys to values, in insertion
    order: [o[k] = v] and [o[k]]. *)
Fixpoint obj_set {V : Type} (k : string) (v : V) (o : list (string * V))
  : list (string * V) :=
  match o with
  | [] => [(k, v)]
  | (k', v') :: r =>
      if String.eqb k' k then (k', v) :: r else (k', v') :: obj_set k v r
  end.

Fixpoint obj_get {V : Type} (k : string) (o : list (string * V)) : option V :=
  match o with
  | [] => None
  | (k', v') :: r => if String.eqb k' k then Some v' else obj_get k r
  end.

End Js.

(** ** Documents of the collections

    The Mongoose schemas (models/User.js, Instructor.js, Vehicle.js,
    PhysicalTraining.js, EnrollPTS.js, Counter.js) are not among the
    sources.  Each record below has the fields the controllers read and
    write, typed as the data model of the specification describes them. *)

Module User.
(** Modelled from the spec: the schema models/User.js is missing; a user has
    an id, name fields, an email, a hashed password and the student flag
    that [register] stores. *)
Record t := mk {
  userID : string;
  firstName : option string;
  lastName : option string;
  username : option string;
  password : string;
  email : string;
  phoneNumber : option string;
  address : option string;
  gender : option string;
  isStudent : bool
}.
End User.

Module Instructor.
(** Modelled from the spec: the schema models/Instructor.js is missing; an
    instructor has an id, a name, an email, a hashed password, a location,
    years of experience and the instructor flag. *)
Record t := mk {
  InstructorID : string;
  InstructorName : string;
  email : string;
  InstructorLocation : string;
  InstructorExperience : Z;
  password : string;
  isInstructor : bool
}.
End Instructor.

Module Vehicle.
(** Modelled from the spec: the schema models/Vehicle.js is missing; a
    vehicle has an id, a plate number, type, transmission, fuel, an
    availability flag and the count of assigned students. *)
Record t := mk {
  vehicleID : string;
  vehicleNO : string;
  vehicleType : string;
  transmissionType : string;
  fuelType : string;
  availability : bool;
  studentCnt : Z
}.
End Vehicle.

Module PhysicalTraining.
(** Modelled from the spec: the schema models/PhysicalTraining.js is
    missing; a session has the fields [createPhysicalTraining] gives it,
    the two counters being integers and the status a string. *)
Record t := mk {
  sessionID : string;
  date : string;
  time : string;
  location : string;
  vehicleID : string;
  instructorID : string;
  maxCount : Z;
  currentCount : Z;
  status : string;
  instructorQualification : option string
}.

(** [{ $inc: { currentCount: d } }]. *)
Definition inc_currentCount (d : Z) (s : t) : t :=
  mk (sessionID s) (date s) (time s) (location s) (vehicleID s)
     (instructorID s) (maxCount s) (currentCount s + d) (status s)
     (instructorQualification s).

(** [{ status }]. *)
Definition set_status (v : string) (s : t) : t :=
  mk (sessionID s) (date s) (time s) (location s) (vehicleID s)
     (instructorID s) (maxCount s) (currentCount s) v
     (instructorQualification s).
End PhysicalTraining.

Module EnrollPTS.
(** Modelled from the spec: the schema models/EnrollPTS.js is missing; a row
    has the fields [enrollStudent] gives it and the identifier Mongoose
    assigns, an ObjectId, here a natural number. *)
Record t := mk {
  _id : nat;
  userID : string;
  sessionID : string;
  status : string;
  date : Z
}.

Definition set_status (v : string) (e : t) : t :=
  mk (_id e) (userID e) (sessionID e) v (date e).
End EnrollPTS.

Module Counter.
(** Modelled from the spec: the schema models/Counter.js is missing; a
    counter is a name and an integer value. *)
Record t := mk {
  name : string;
  value : Z
}.
End Counter.

(** ** The document store *)

Module Db.

Section Collection.
Context {A : Type}.

(** [Model.findOne(filter)]: the first document the filter accepts. *)
Definition findOne (p : A -> bool) (c : list A) : option A := find p c.

(** [Model.findOneAndUpdate(filter, update)]: rewrites the first match. *)
Fixpoint findOneAndUpdate (p : A -> bool) (f : A -> A) (c : list A) : list A :=
  match c with
  | [] => []
  | x :: r => if p x then f x :: r else x :: findOneAndUpdate p f r
  end.

(** [Model.findOneAndDelete(filter)]: removes the first match. *)
Fixpoint findOneAndDelete (p : A -> bool) (c : list A) : list A :=
  match c with
  | [] => []
  | x :: r => if p x then r else x :: findOneAndDelete p r
  end.

(** [doc.save()] of a new document: it is appended as built.  Uniqueness is
    left to the checks the handlers make before they save. *)
Definition save (x : A) (c : list A) : list A := c ++ [x].
End Collection.

Record Store := mkStore {
  users : list User.t;
  instructors : list Instructor.t;
  vehicles : list Vehicle.t;
  physicalTrainings : list PhysicalTraining.t;
  enrollments : list EnrollPTS.t;
  counters : list Counter.t
}.

Definition with_users (v : list User.t) (st : Store) : Store :=
  mkStore v (instructors st) (vehicles st) (physicalTrainings st)
          (enrollments st) (counters st).

Definition with_physicalTrainings (v : list PhysicalTraining.t) (st : Store) : Store :=
  mkStore (users st) (instructors st) (vehicles st) v
          (enrollments st) (counters st).

Definition with_enrollments (v : list EnrollPTS.t) (st : Store) : Store :=
  mkStore (users st) (instructors st) (vehicles st) (physicalTrainings st)
          v (counters st).

Definition with_counters (v : list Counter.t) (st : Store) : Store :=
  mkStore (users st) (instructors st) (vehicles st) (physicalTrainings st)
          (enrollments st) v.

(** The filters the handlers write. *)
Definition by_userID (k : string) (u : User.t) : bool :=
  String.eqb (User.userID u) k.
Definition by_email (k : string) (u : User.t) : bool :=
  String.eqb (User.email u) k.
Definition by_instructor_email (k : string) (i : Instructor.t) : bool :=
  String.eqb (Instructor.email i) k.
Definition by_InstructorID (k : string) (i : Instructor.t) : bool :=
  String.eqb (Instructor.InstructorID i) k.
Definition by_vehicleID (k : string) (v : Vehicle.t) : bool :=
  String.eqb (Vehicle.vehicleID v) k.
Definition by_sessionID (k : string) (s : PhysicalTraining.t) : bool :=
  String.eqb (PhysicalTraining.sessionID s) k.
Definition by_user_session (u k : string) (e : EnrollPTS.t) : bool :=
  String.eqb (EnrollPTS.userID e) u && String.eqb (EnrollPTS.sessionID e) k.
Definition by_id (k : nat) (e : EnrollPTS.t) : bool :=
  Nat.eqb (EnrollPTS._id e) k.
Definition by_name (k : string) (c : Counter.t) : bool :=
  String.eqb (Counter.name c) k.

(** [Model.find(filter)]: every document the filter accepts, in order. *)
Definition find_all {A : Type} (p : A -> bool) (c : list A) : list A :=
  filter p c.

Definition with_instructors (v : list Instructor.t) (st : Store) : Store :=
  mkStore (users st) v (vehicles st) (physicalTrainings st)
          (enrollments st) (counters st).

Definition with_vehicles (v : list Vehicle.t) (st : Store) : Store :=
  mkStore (users st) (instructors st) v (physicalTrainings st)
          (enrollments st) (counters st).

Definition by_vehicleNO (k : string) (v : Vehicle.t) : bool :=
  String.eqb (Vehicle.vehicleNO v) k.
Definition by_vehicleType (k : string) (v : Vehicle.t) : bool :=
  String.eqb (Vehicle.vehicleType v) k.
Definition by_username (k : string) (u : User.t) : bool :=
  match User.username u with
  | Some v => String.eqb v k
  | None => false
  end.
Definition by_row_userID (k : string) (e : EnrollPTS.t) : bool :=
  String.eqb (EnrollPTS.userID e) k.
Definition by_row_sessionID (k : string) (e : EnrollPTS.t) : bool :=
  String.eqb (EnrollPTS.sessionID e) k.
Definition by_instructorID (k : string) (s : PhysicalTraining.t) : bool :=
  String.eqb (PhysicalTraining.instructorID s) k.

End Db.

(** ** Responses *)

Module Res.
Record t (A : Type) := mk {
  status : Z;
  success : bool;
  message : string;
  data : option A
}.
Arguments mk {A} _ _ _ _.
Arguments status {A} _.
Arguments success {A} _.
Arguments message {A} _.
Arguments data {A} _.

(** [res.status(code).json({ success: false, message })]. *)
Definition fail {A : Type} (code : Z) (msg : string) : t A :=
  mk code false msg None.

(** [res.status(code).json({ success: true, message, ...doc })]. *)
Definition ok {A : Type} (code : Z) (msg : string) (doc : option A) : t A :=
  mk code true msg doc.
End Res.

(** What a handler reads from outside the store. *)
Record Env := mkEnv {
  now_ms : Z;
  uuidv4 : string;
  newObjectId : nat;
  bcrypt_genSalt : Z -> string;
  bcrypt_hash : string -> string -> string;
  bcrypt_compare : string -> string -> bool;
  env_JWT_SECRET : option string
}.

Definition Handler (A : Type) : Type := Db.Store -> Res.t A * Db.Store.

(** The answers of the handlers that only read: a message is present on
    failure only, a count on listings only. *)
Module Reply.
Record t (A : Type) := mk {
  status : Z;
  success : bool;
  message : option string;
  count : option nat;
  data : option A
}.
Arguments mk {A} _ _ _ _ _.
Arguments status {A} _.
Arguments success {A} _.
Arguments message {A} _.
Arguments count {A} _.
Arguments data {A} _.

(** [res.status(code).json({ success: false, message })]. *)
Definition fail {A : Type} (code : Z) (msg : string) : t A :=
  mk code false (Some msg) None None.

(** [res.status(200).json({ success: true, doc })]. *)
Definition one {A : Type} (doc : A) : t A :=
  mk 200 true None None (Some doc).

(** [res.status(200).json({ success: true, count: docs.length, docs })]. *)
Definition many {A : Type} (docs : list A) : t (list A) :=
  mk 200 true None (Some (List.length docs)) (Some docs).
End Reply.

(** A handler that reads the store and writes nothing. *)
Definition Query (A : Type) : Type := Db.Store -> Reply.t A.

(** ** Tokens (the jsonwebtoken calls of the controllers and of the
    authentication middleware) *)

Module Jwt.

(** The object given to [jwt.sign] and read back from [jwt.verify].  A
    key the code does not write into the object is [None]. *)
Record Payload := mkPayload {
  id : string;
  email : string;
  username : option string;
  name : option string;
  isStudent : option bool;
  isInstructor : option bool;
  isAdmin : option bool
}.

(** A signed token: its claims, the issue and expiry times in seconds,
    and the secret it was signed with. *)
Record Token := mkToken {
  claims : Payload;
  iat : Z;
  exp : Z;
  key : string
}.

Definition is_digit (c : ascii) : bool :=
  (Nat.leb 48 (nat_of_ascii c) && Nat.leb (nat_of_ascii c) 57)%bool.

Fixpoint digits_prefix (s : string) : string * string :=
  match s with
  | EmptyString => (EmptyString, EmptyString)
  | String c r =>
      if is_digit c
      then let (d, u) := digits_prefix r in (String c d, u)
      else (EmptyString, s)
  end.

Definition unit_seconds (u : string) : option Z :=
  if String.eqb u "s" then Some 1
  else if String.eqb u "m" then Some 60
  else if String.eqb u "h" then Some 3600
  else if String.eqb u "d" then Some 86400
  else None.

(** The [expiresIn] option given as a string: a decimal count and a unit. *)
Definition timespan (s : string) : option Z :=
  let (d, u) := digits_prefix s in
  match NilZero.uint_of_string d, unit_seconds u with
  | Some n, Some k => Some (Z.of_uint n * k)
  | _, _ => None
  end.

(** [jwt.sign(payload, secret, { expiresIn })]; [None] when it throws. *)
Definition sign (p : Payload) (secret : string) (expiresIn : string)
           (now : Z) : option Token :=
  match timespan expiresIn with
  | Some span => Some (mkToken p (now / 1000) (now / 1000 + span) secret)
  | None => None
  end.

(** [jwt.verify(token, secret)]; [None] when it throws (wrong signature
    or expired). *)
Definition verify (t : Token) (secret : string) (now : Z) : option Payload :=
  if (String.eqb (key t) secret && (now / 1000 <? exp t))%bool
  then Some (claims t)
  else None.

(** [process.env.JWT_SECRET || 'your_super_secret_jwt_key']. *)
Definition JWT_SECRET (env : Env) : string :=
  if Js.falsy_str (env_JWT_SECRET env)
  then "your_super_secret_jwt_key"
  else match env_JWT_SECRET env with
       | Some s => s
       | None => "your_super_secret_jwt_key"
       end.

Definition JWT_EXPIRES_IN : string := "24h".

End Jwt.

(** ** Middleware: authentication and the role gates *)

Module Middleware.

(** [authenticate]: the token is the cookie's or the bearer header's. *)
Definition authenticate {A : Type} (env : Env) (token : option Jwt.Token)
           (next : Jwt.Payload -> Handler A) : Handler A :=
  fun st =>
    match token with
    | None => (Res.fail 401 "Authentication required. Please login.", st)
    | Some t =>
        match Jwt.verify t (Jwt.JWT_SECRET env) (now_ms env) with
        | Some decoded => next decoded st
        | None =>
            (Res.fail 403 "Invalid or expired token. Please login again.", st)
        end
    end.

Definition isInstructor {A : Type} (user : option Jwt.Payload)
           (next : Handler A) : Handler A :=
  fun st =>
    match user with
    | Some u =>
        if Js.truthy_flag (Jwt.isInstructor u) then next st
        else (Res.fail 403 "Access denied. Instructor role required.", st)
    | None => (Res.fail 403 "Access denied. Instructor role required.", st)
    end.

Definition isStudent {A : Type} (user : option Jwt.Payload)
           (next : Handler A) : Handler A :=
  fun st =>
    match user with
    | Some u =>
        if Js.truthy_flag (Jwt.isStudent u) then next st
        else (Res.fail 403 "Access denied. Student role required.", st)
    | None => (Res.fail 403 "Access denied. Student role required.", st)
    end.

Definition isAdmin {A : Type} (user : option Jwt.Payload)
           (next : Handler A) : Handler A :=
  fun st =>
    match user with
    | Some u =>
        if Js.truthy_flag (Jwt.isAdmin u) then next st
        else (Res.fail 403 "Access denied. Administrator role required.", st)
    | None => (Res.fail 403 "Access denied. Administrator role required.", st)
    end.

(** [isInstructorOrAdmin]: the instructor the route parameter names, or an
    admin. *)
Definition isInstructorOrAdmin {A : Type} (user : option Jwt.Payload)
           (params_id : string) (next : Handler A) : Handler A :=
  fun st =>
    match user with
    | Some u =>
        if ((Js.truthy_flag (Jwt.isInstructor u)
             && String.eqb (Jwt.id u) params_id)
            || Js.truthy_flag (Jwt.isAdmin u))%bool
        then next st
        else (Res.fail 403
                "Access denied. You do not have permission to perform this action.",
              st)
    | None =>
        (Res.fail 403
           "Access denied. You do not have permission to perform this action.",
         st)
    end.

End Middleware.

(** ** authController *)

Module AuthController.

Record RegisterBody := mkRegisterBody {
  firstName : option string;
  lastName : option string;
  username : option string;
  password : option string;
  email : string;
  phoneNumber : option string;
  address : option string;
  gender : option string;
  isStudent : option bool
}.

Record LoginBody := mkLoginBody {
  l_email : option string;
  l_password : option string
}.

(** [{ ...user.toObject() }] after [delete userResponse.password]. *)
Record UserResponse := mkUserResponse {
  r_userID : string;
  r_firstName : option string;
  r_lastName : option string;
  r_username : option string;
  r_email : string;
  r_phoneNumber : option string;
  r_address : option string;
  r_gender : option string;
  r_isStudent : bool
}.

Definition userResponse (u : User.t) : UserResponse :=
  mkUserResponse (User.userID u) (User.firstName u) (User.lastName u)
    (User.username u) (User.email u) (User.phoneNumber u) (User.address u)
    (User.gender u) (User.isStudent u).

Record AuthData := mkAuthData {
  user : UserResponse;
  token : Jwt.Token
}.

(** The object both [register] and [login] sign. *)
Definition token_payload (u : User.t) : Jwt.Payload :=
  Jwt.mkPayload (User.userID u) (User.email u) (User.username u)
                None None None None.

(** The document [register] builds from the body. *)
Definition newUser (env : Env) (b : RegisterBody) (hashedPassword : string)
  : User.t :=
  User.mk (uuidv4 env) (firstName b) (lastName b) (username b)
          hashedPassword (email b) (phoneNumber b) (address b) (gender b)
          (match isStudent b with
           | Some v => v
           | None => true
           end).

Definition register (env : Env) (b : RegisterBody) : Handler AuthData :=
  fun st =>
    match Db.findOne (Db.by_email (email b)) (Db.users st) with
    | Some _ =>
        (Res.fail 400 "User with this email or username already exists", st)
    | None =>
        match password b with
        | None => (Res.fail 500 "Registration failed", st)
        | Some pw =>
            let salt := bcrypt_genSalt env 10 in
            let hashedPassword := bcrypt_hash env pw salt in
            let u := newUser env b hashedPassword in
            let st' := Db.with_users (Db.save u (Db.users st)) st in
            match Jwt.sign (token_payload u) (Jwt.JWT_SECRET env)
                           Jwt.JWT_EXPIRES_IN (now_ms env) with
            | Some tk =>
                (Res.ok 201 "User registered successfully"
                        (Some (mkAuthData (userResponse u) tk)), st')
            | None => (Res.fail 500 "Registration failed", st')
            end
        end
    end.

Definition login (env : Env) (b : LoginBody) : Handler AuthData :=
  fun st =>
    match l_email b, l_password b with
    | Some em, Some pw =>
        if (Js.falsy_str (Some em) || Js.falsy_str (Some pw))%bool
        then (Res.fail 400 "Email and password are required", st)
        else
          match Db.findOne (Db.by_email em) (Db.users st) with
          | None => (Res.fail 401 "Invalid credentials", st)
          | Some u =>
              if bcrypt_compare env pw (User.password u)
              then
                match Jwt.sign (token_payload u) (Jwt.JWT_SECRET env)
                               Jwt.JWT_EXPIRES_IN (now_ms env) with
                | Some tk =>
                    (Res.ok 200 "Login successful"
                            (Some (mkAuthData (userResponse u) tk)), st)
                | None => (Res.fail 500 "Login failed", st)
                end
              else (Res.fail 401 "Invalid credentials", st)
          end
    | _, _ => (Res.fail 400 "Email and password are required", st)
    end.

(** [getCurrentUser]: the user the token names, without the password. *)
Definition getCurrentUser (caller : Jwt.Payload) : Query UserResponse :=
  fun st =>
    match Db.findOne (Db.by_userID (Jwt.id caller)) (Db.users st) with
    | None => Reply.fail 404 "User not found"
    | Some u => Reply.one (userResponse u)
    end.

Record UpdateBody := mkUpdateBody {
  u_firstName : option string;
  u_lastName : option string;
  u_username : option string;
  u_email : option string;
  u_phoneNumber : option string;
  u_address : option string;
  u_gender : option string
}.

(** [...(field && { field })] on a field of the document that may be
    absent. *)
Definition spread (o : option string) (old : option string) : option string :=
  if Js.falsy_str o then old else o.

(** The same on a field that every document has. *)
Definition spread_req (o : option string) (old : string) : string :=
  match o with
  | Some v => if Js.falsy_str (Some v) then old else v
  | None => old
  end.

(** The filter of the uniqueness check: another user ([userID] differs)
    that has the new username or the new email; each alternative is part of
    the filter only when the body carries the field. *)
Definition taken_by_other (userId : string) (b : UpdateBody) (u : User.t)
  : bool :=
  (negb (String.eqb (User.userID u) userId)
   && ((match u_username b with
        | Some v => negb (Js.falsy_str (Some v)) && Db.by_username v u
        | None => false
        end)
       || (match u_email b with
           | Some v => negb (Js.falsy_str (Some v)) && Db.by_email v u
           | None => false
           end)))%bool.

Definition updateData (b : UpdateBody) (u : User.t) : User.t :=
  User.mk (User.userID u)
          (spread (u_firstName b) (User.firstName u))
          (spread (u_lastName b) (User.lastName u))
          (spread (u_username b) (User.username u))
          (User.password u)
          (spread_req (u_email b) (User.email u))
          (spread (u_phoneNumber b) (User.phoneNumber u))
          (spread (u_address b) (User.address u))
          (spread (u_gender b) (User.gender u))
          (User.isStudent u).

Definition updateUser (caller : Jwt.Payload) (b : UpdateBody)
  : Handler UserResponse :=
  fun st =>
    let userId := Jwt.id caller in
    if (Js.falsy_str (u_firstName b) && Js.falsy_str (u_lastName b)
        && Js.falsy_str (u_username b) && Js.falsy_str (u_email b)
        && Js.falsy_str (u_phoneNumber b) && Js.falsy_str (u_address b)
        && Js.falsy_str (u_gender b))%bool
    then (Res.fail 400 "At least one field is required to update", st)
    else
      if (negb (Js.falsy_str (u_username b) && Js.falsy_str (u_email b))
          && negb (Js.is_undefined
                     (Db.findOne (taken_by_other userId b) (Db.users st))))%bool
      then (Res.fail 400 "Username or email already exists", st)
      else
        match Db.findOne (Db.by_userID userId) (Db.users st) with
        | None => (Res.fail 404 "User not found", st)
        | Some u =>
            (Res.ok 200 "User updated successfully"
                    (Some (userResponse (updateData b u))),
             Db.with_users
               (Db.findOneAndUpdate (Db.by_userID userId) (updateData b)
                  (Db.users st)) st)
        end.

End AuthController.

(** ** instructorController: the login handler *)

Module InstructorController.

Record InstructorResponse := mkInstructorResponse {
  r_InstructorID : string;
  r_InstructorName : string;
  r_email : string;
  r_InstructorLocation : string;
  r_InstructorExperience : Z;
  r_isInstructor : bool
}.

Definition instructorResponse (i : Instructor.t) : InstructorResponse :=
  mkInstructorResponse (Instructor.InstructorID i)
    (Instructor.InstructorName i) (Instructor.email i)
    (Instructor.InstructorLocation i) (Instructor.InstructorExperience i)
    (Instructor.isInstructor i).

Record AuthData := mkAuthData {
  instructor : InstructorResponse;
  token : Jwt.Token
}.

Definition token_payload (i : Instructor.t) : Jwt.Payload :=
  Jwt.mkPayload (Instructor.InstructorID i) (Instructor.email i) None
                (Some (Instructor.InstructorName i)) None (Some true) None.

Definition instructorLogin (env : Env) (b : AuthController.LoginBody)
  : Handler AuthData :=
  fun st =>
    match AuthController.l_email b, AuthController.l_password b with
    | Some em, Some pw =>
        if (Js.falsy_str (Some em) || Js.falsy_str (Some pw))%bool
        then (Res.fail 400 "Email and password are required", st)
        else
          match Db.findOne (Db.by_instructor_email em) (Db.instructors st) with
          | None => (Res.fail 401 "Invalid credentials", st)
          | Some i =>
              if bcrypt_compare env pw (Instructor.password i)
              then
                match Jwt.sign (token_payload i) (Jwt.JWT_SECRET env)
                               "24h" (now_ms env) with
                | Some tk =>
                    (Res.ok 200 "Login successful"
                            (Some (mkAuthData (instructorResponse i) tk)), st)
                | None => (Res.fail 500 "Login failed", st)
                end
              else (Res.fail 401 "Invalid credentials", st)
          end
    | _, _ => (Res.fail 400 "Email and password are required", st)
    end.

Record CreateBody := mkCreateBody {
  InstructorName : option string;
  email : option string;
  InstructorLocation : option string;
  InstructorExperience : option Z;
  password : option string
}.

Definition createInstructor (env : Env) (b : CreateBody)
  : Handler InstructorResponse :=
  fun st =>
    match InstructorName b, email b, InstructorLocation b,
          InstructorExperience b, password b with
    | Some n, Some em, Some l, Some x, Some pw =>
        if (Js.falsy_str (Some n) || Js.falsy_str (Some em)
            || Js.falsy_str (Some l) || Js.falsy_num (Some x)
            || Js.falsy_str (Some pw))%bool
        then (Res.fail 400 "All fields are required", st)
        else
          match Db.findOne (Db.by_instructor_email em) (Db.instructors st) with
          | Some _ =>
              (Res.fail 400 "Instructor with this email already exists", st)
          | None =>
              let salt := bcrypt_genSalt env 10 in
              let hashedPassword := bcrypt_hash env pw salt in
              let newInstructor :=
                Instructor.mk (uuidv4 env) n em l x hashedPassword true in
              (Res.ok 201 "Instructor created successfully"
                      (Some (instructorResponse newInstructor)),
               Db.with_instructors
                 (Db.save newInstructor (Db.instructors st)) st)
          end
    | _, _, _, _, _ => (Res.fail 400 "All fields are required", st)
    end.

(** [Instructor.find().select('-password')]. *)
Definition getAllInstructors : Query (list InstructorResponse) :=
  fun st => Reply.many (map instructorResponse (Db.instructors st)).

Definition getInstructorById (instructorID : string)
  : Query InstructorResponse :=
  fun st =>
    match Db.findOne (Db.by_InstructorID instructorID) (Db.instructors st) with
    | None => Reply.fail 404 "Instructor not found"
    | Some i => Reply.one (instructorResponse i)
    end.

(** The update object of [updateInstructor] applied to a document. *)
Definition updateData (env : Env) (b : CreateBody) (i : Instructor.t)
  : Instructor.t :=
  Instructor.mk
    (Instructor.InstructorID i)
    (match InstructorName b with
     | Some v => if Js.falsy_str (Some v) then Instructor.InstructorName i else v
     | None => Instructor.InstructorName i
     end)
    (match email b with
     | Some v => if Js.falsy_str (Some v) then Instructor.email i else v
     | None => Instructor.email i
     end)
    (match InstructorLocation b with
     | Some v =>
         if Js.falsy_str (Some v) then Instructor.InstructorLocation i else v
     | None => Instructor.InstructorLocation i
     end)
    (match InstructorExperience b with
     | Some v => v
     | None => Instructor.InstructorExperience i
     end)
    (match password b with
     | Some v =>
         if Js.falsy_str (Some v) then Instructor.password i
         else bcrypt_hash env v (bcrypt_genSalt env 10)
     | None => Instructor.password i
     end)
    (Instructor.isInstructor i).

(** [email && email !== existingInstructor.email], then the lookup. *)
Definition email_in_use (b : CreateBody) (existing : Instructor.t)
           (st : Db.Store) : bool :=
  match email b with
  | Some v =>
      (negb (Js.falsy_str (Some v))
       && negb (String.eqb v (Instructor.email existing))
       && negb (Js.is_undefined
                  (Db.findOne (Db.by_instructor_email v) (Db.instructors st))))%bool
  | None => false
  end.

Definition updateInstructor (env : Env) (instructorID : string)
           (b : CreateBody) : Handler InstructorResponse :=
  fun st =>
    if (Js.falsy_str (InstructorName b) && Js.falsy_str (email b)
        && Js.falsy_str (InstructorLocation b)
        && Js.is_undefined (InstructorExperience b)
        && Js.falsy_str (password b))%bool
    then (Res.fail 400 "At least one field is required to update", st)
    else
      match Db.findOne (Db.by_InstructorID instructorID) (Db.instructors st) with
      | None => (Res.fail 404 "Instructor not found", st)
      | Some existingInstructor =>
          if email_in_use b existingInstructor st
          then (Res.fail 400 "Email already in use by another instructor", st)
          else
            (Res.ok 200 "Instructor updated successfully"
                    (Some (instructorResponse
                             (updateData env b existingInstructor))),
             Db.with_instructors
               (Db.findOneAndUpdate (Db.by_InstructorID instructorID)
                  (updateData env b) (Db.instructors st)) st)
      end.

Definition deleteInstructor (instructorID : string)
  : Handler InstructorResponse :=
  fun st =>
    match Db.findOne (Db.by_InstructorID instructorID) (Db.instructors st) with
    | None => (Res.fail 404 "Instructor not found", st)
    | Some _ =>
        (Res.ok 200 "Instructor deleted successfully" None,
         Db.with_instructors
           (Db.findOneAndDelete (Db.by_InstructorID instructorID)
              (Db.instructors st)) st)
    end.

End InstructorController.

(** ** vehicleController *)

Module VehicleController.

Record Body := mkBody {
  vehicleNO : option string;
  vehicleType : option string;
  transmissionType : option string;
  fuelType : option string;
  availability : option bool;
  studentCnt : option Z
}.

Definition createVehicle (env : Env) (b : Body) : Handler Vehicle.t :=
  fun st =>
    match vehicleNO b, vehicleType b, transmissionType b, fuelType b,
          availability b, studentCnt b with
    | Some no, Some ty, Some tr, Some fu, Some av, Some cnt =>
        if (Js.falsy_str (Some no) || Js.falsy_str (Some ty)
            || Js.falsy_str (Some tr) || Js.falsy_str (Some fu))%bool
        then (Res.fail 400 "All fields are required", st)
        else
          match Db.findOne (Db.by_vehicleNO no) (Db.vehicles st) with
          | Some _ => (Res.fail 400 "Vehicle with this number already exists", st)
          | None =>
              let newVehicle := Vehicle.mk (uuidv4 env) no ty tr fu av cnt in
              (Res.ok 201 "Vehicle created successfully" (Some newVehicle),
               Db.with_vehicles (Db.save newVehicle (Db.vehicles st)) st)
          end
    | _, _, _, _, _, _ => (Res.fail 400 "All fields are required", st)
    end.

Definition getAllVehicles : Query (list Vehicle.t) :=
  fun st => Reply.many (Db.vehicles st).

Definition getVehicleById (vehicleID : string) : Query Vehicle.t :=
  fun st =>
    match Db.findOne (Db.by_vehicleID vehicleID) (Db.vehicles st) with
    | None => Reply.fail 404 "Vehicle not found"
    | Some v => Reply.one v
    end.

(** The update object of [updateVehicle] applied to a document. *)
Definition updateData (b : Body) (v : Vehicle.t) : Vehicle.t :=
  Vehicle.mk
    (Vehicle.vehicleID v)
    (match vehicleNO b with
     | Some x => if Js.falsy_str (Some x) then Vehicle.vehicleNO v else x
     | None => Vehicle.vehicleNO v
     end)
    (match vehicleType b with
     | Some x => if Js.falsy_str (Some x) then Vehicle.vehicleType v else x
     | None => Vehicle.vehicleType v
     end)
    (match transmissionType b with
     | Some x => if Js.falsy_str (Some x) then Vehicle.transmissionType v else x
     | None => Vehicle.transmissionType v
     end)
    (match fuelType b with
     | Some x => if Js.falsy_str (Some x) then Vehicle.fuelType v else x
     | None => Vehicle.fuelType v
     end)
    (match availability b with
     | Some x => x
     | None => Vehicle.availability v
     end)
    (match studentCnt b with
     | Some x => x
     | None => Vehicle.studentCnt v
     end).

(** [vehicleNO && vehicleNO !== existingVehicle.vehicleNO], then the lookup. *)
Definition number_in_use (b : Body) (existing : Vehicle.t) (st : Db.Store)
  : bool :=
  match vehicleNO b with
  | Some x =>
      (negb (Js.falsy_str (Some x))
       && negb (String.eqb x (Vehicle.vehicleNO existing))
       && negb (Js.is_undefined
                  (Db.findOne (Db.by_vehicleNO x) (Db.vehicles st))))%bool
  | None => false
  end.

Definition updateVehicle (vehicleID : string) (b : Body) : Handler Vehicle.t :=
  fun st =>
    if (Js.falsy_str (vehicleNO b) && Js.falsy_str (vehicleType b)
        && Js.falsy_str (transmissionType b) && Js.falsy_str (fuelType b)
        && Js.is_undefined (availability b)
        && Js.is_undefined (studentCnt b))%bool
    then (Res.fail 400 "At least one field is required to update", st)
    else
      match Db.findOne (Db.by_vehicleID vehicleID) (Db.vehicles st) with
      | None => (Res.fail 404 "Vehicle not found", st)
      | Some existingVehicle =>
          if number_in_use b existingVehicle st
          then (Res.fail 400 "Vehicle with this number already exists", st)
          else
            (Res.ok 200 "Vehicle updated successfully"
                    (Some (updateData b existingVehicle)),
             Db.with_vehicles
               (Db.findOneAndUpdate (Db.by_vehicleID vehicleID)
                  (updateData b) (Db.vehicles st)) st)
      end.

Definition deleteVehicle (vehicleID : string) : Handler Vehicle.t :=
  fun st =>
    match Db.findOne (Db.by_vehicleID vehicleID) (Db.vehicles st) with
    | None => (Res.fail 404 "Vehicle not found", st)
    | Some _ =>
        (Res.ok 200 "Vehicle deleted successfully" None,
         Db.with_vehicles
           (Db.findOneAndDelete (Db.by_vehicleID vehicleID)
              (Db.vehicles st)) st)
    end.

Definition getVehiclesByType (vehicleType : string) : Query (list Vehicle.t) :=
  fun st => Reply.many (Db.find_all (Db.by_vehicleType vehicleType)
                                    (Db.vehicles st)).

Definition getAvailableVehicles : Query (list Vehicle.t) :=
  fun st => Reply.many (Db.find_all Vehicle.availability (Db.vehicles st)).

End VehicleController.

(** ** physicalTrainingController *)

Module PhysicalTrainingController.

(** [Counter.findOneAndUpdate({ name }, { $inc: { value: 1 } },
    { new: true, upsert: true })]: the counter after the increment, and the
    collection; a counter that does not exist is inserted with value 1. *)
Definition inc_counter (sequenceName : string) (cs : list Counter.t)
  : Counter.t * list Counter.t :=
  match Db.findOne (Db.by_name sequenceName) cs with
  | Some c =>
      (Counter.mk (Counter.name c) (Counter.value c + 1),
       Db.findOneAndUpdate (Db.by_name sequenceName)
         (fun k => Counter.mk (Counter.name k) (Counter.value k + 1)) cs)
  | None =>
      (Counter.mk sequenceName 1, Db.save (Counter.mk sequenceName 1) cs)
  end.

Definition getNextSequenceValue (sequenceName : string) (st : Db.Store)
  : string * Db.Store :=
  let (counter, cs) := inc_counter sequenceName (Db.counters st) in
  ("PT" ++ Js.padStart 4 "0" (Js.String_of (Counter.value counter)),
   Db.with_counters cs st).

Record CreateBody := mkCreateBody {
  date : option string;
  time : option string;
  location : option string;
  vehicleID : option string;
  instructorID : option string;
  maxCount : option Z;
  instructorQualification : option string
}.

Definition createPhysicalTraining (b : CreateBody)
  : Handler PhysicalTraining.t :=
  fun st =>
    match date b, time b, location b, vehicleID b, instructorID b,
          maxCount b with
    | Some d, Some t, Some l, Some v, Some i, Some m =>
        if (Js.falsy_str (Some d) || Js.falsy_str (Some t)
            || Js.falsy_str (Some l) || Js.falsy_str (Some v)
            || Js.falsy_str (Some i) || Js.falsy_num (Some m))%bool
        then (Res.fail 400 "All required fields must be provided", st)
        else
          match Db.findOne (Db.by_vehicleID v) (Db.vehicles st) with
          | None => (Res.fail 404 "Vehicle not found", st)
          | Some _ =>
              match Db.findOne (Db.by_InstructorID i) (Db.instructors st) with
              | None => (Res.fail 404 "Instructor not found", st)
              | Some _ =>
                  let (sessionID, st1) :=
                    getNextSequenceValue "sessionID" st in
                  let newSession :=
                    PhysicalTraining.mk sessionID d t l v i m 0 "pending"
                      (instructorQualification b) in
                  (Res.ok 201 "Physical training session created successfully"
                          (Some newSession),
                   Db.with_physicalTrainings
                     (Db.save newSession (Db.physicalTrainings st1)) st1)
              end
          end
    | _, _, _, _, _, _ =>
        (Res.fail 400 "All required fields must be provided", st)
    end.

Record UpdateBody := mkUpdateBody {
  u_date : option string;
  u_time : option string;
  u_location : option string;
  u_vehicleID : option string;
  u_instructorID : option string;
  u_maxCount : option Z;
  u_status : option string;
  u_currentCount : option Z;
  u_instructorQualification : option string
}.

(** [if (field) updateData.field = field] for a string field. *)
Definition pick_str (o : option string) (old : string) : string :=
  match o with
  | Some v => if Js.falsy_str (Some v) then old else v
  | None => old
  end.

(** [if (field !== undefined) updateData.field = field]. *)
Definition pick_num (o : option Z) (old : Z) : Z :=
  match o with
  | Some v => v
  | None => old
  end.

(** The session after [findOneAndUpdate({ sessionID }, updateData)]. *)
Definition updateData (b : UpdateBody) (s : PhysicalTraining.t)
  : PhysicalTraining.t :=
  PhysicalTraining.mk
    (PhysicalTraining.sessionID s)
    (pick_str (u_date b) (PhysicalTraining.date s))
    (pick_str (u_time b) (PhysicalTraining.time s))
    (pick_str (u_location b) (PhysicalTraining.location s))
    (pick_str (u_vehicleID b) (PhysicalTraining.vehicleID s))
    (pick_str (u_instructorID b) (PhysicalTraining.instructorID s))
    (pick_num (u_maxCount b) (PhysicalTraining.maxCount s))
    (pick_num (u_currentCount b) (PhysicalTraining.currentCount s))
    (pick_str (u_status b) (PhysicalTraining.status s))
    (if Js.falsy_str (u_instructorQualification b)
     then PhysicalTraining.instructorQualification s
     else u_instructorQualification b).

(** [if (vehicleID) { ... findOne ... if (!vehicle) 404 }]. *)
Definition vehicle_missing (o : option string) (st : Db.Store) : bool :=
  match o with
  | Some v =>
      if Js.falsy_str (Some v) then false
      else Js.is_undefined (Db.findOne (Db.by_vehicleID v) (Db.vehicles st))
  | None => false
  end.

Definition instructor_missing (o : option string) (st : Db.Store) : bool :=
  match o with
  | Some i =>
      if Js.falsy_str (Some i) then false
      else Js.is_undefined
             (Db.findOne (Db.by_InstructorID i) (Db.instructors st))
  | None => false
  end.

(** [status && !['pending', 'completed'].includes(status)]. *)
Definition status_invalid (o : option string) : bool :=
  match o with
  | Some v =>
      (negb (Js.falsy_str (Some v))
       && negb (Js.includes ["pending"; "completed"] v))%bool
  | None => false
  end.

(** [currentCount !== undefined] and [currentCount > newMaxCount]. *)
Definition count_exceeds (b : UpdateBody) (existing : PhysicalTraining.t)
  : bool :=
  match u_currentCount b with
  | Some c =>
      let newMaxCount :=
        match u_maxCount b with
        | Some m => m
        | None => PhysicalTraining.maxCount existing
        end in
      newMaxCount <? c
  | None => false
  end.

Definition updatePhysicalTraining (sessionID : string) (b : UpdateBody)
  : Handler PhysicalTraining.t :=
  fun st =>
    if (Js.falsy_str (u_date b) && Js.falsy_str (u_time b)
        && Js.falsy_str (u_location b) && Js.falsy_str (u_vehicleID b)
        && Js.falsy_str (u_instructorID b) && Js.is_undefined (u_maxCount b)
        && Js.falsy_str (u_status b) && Js.is_undefined (u_currentCount b)
        && Js.falsy_str (u_instructorQualification b))%bool
    then (Res.fail 400 "At least one field is required to update", st)
    else
      match Db.findOne (Db.by_sessionID sessionID) (Db.physicalTrainings st) with
      | None => (Res.fail 404 "Physical training session not found", st)
      | Some existingSession =>
          if vehicle_missing (u_vehicleID b) st
          then (Res.fail 404 "Vehicle not found", st)
          else if instructor_missing (u_instructorID b) st
          then (Res.fail 404 "Instructor not found", st)
          else if status_invalid (u_status b)
          then (Res.fail 400
                  ("Status must be either " ++ Js.dquote ++ "pending"
                   ++ Js.dquote ++ " or " ++ Js.dquote ++ "completed"
                   ++ Js.dquote), st)
          else if count_exceeds b existingSession
          then (Res.fail 400 "Current count cannot exceed max count", st)
          else
            (Res.ok 200 "Physical training session updated successfully"
                    (Some (updateData b existingSession)),
             Db.with_physicalTrainings
               (Db.findOneAndUpdate (Db.by_sessionID sessionID)
                  (updateData b) (Db.physicalTrainings st)) st)
      end.

Definition deletePhysicalTraining (sessionID : string)
  : Handler PhysicalTraining.t :=
  fun st =>
    match Db.findOne (Db.by_sessionID sessionID) (Db.physicalTrainings st) with
    | None => (Res.fail 404 "Physical training session not found", st)
    | Some session =>
        if 0 <? PhysicalTraining.currentCount session
        then (Res.fail 400 "Cannot delete session with enrolled users", st)
        else
          (Res.ok 200 "Physical training session deleted successfully" None,
           Db.with_physicalTrainings
             (Db.findOneAndDelete (Db.by_sessionID sessionID)
                (Db.physicalTrainings st)) st)
    end.

Definition updateSessionStatus (sessionID : string) (status : option string)
  : Handler PhysicalTraining.t :=
  fun st =>
    match status with
    | Some v =>
        if (Js.falsy_str (Some v)
            || negb (Js.includes ["pending"; "completed"] v))%bool
        then (Res.fail 400 "Valid status (pending/completed) is required", st)
        else
          match Db.findOne (Db.by_sessionID sessionID)
                           (Db.physicalTrainings st) with
          | None => (Res.fail 404 "Physical training session not found", st)
          | Some session =>
              (Res.ok 200
                      ("Session status updated to " ++ Js.dquote ++ v
                       ++ Js.dquote)
                      (Some (PhysicalTraining.set_status v session)),
               Db.with_physicalTrainings
                 (Db.findOneAndUpdate (Db.by_sessionID sessionID)
                    (PhysicalTraining.set_status v)
                    (Db.physicalTrainings st)) st)
          end
    | None => (Res.fail 400 "Valid status (pending/completed) is required", st)
    end.

Definition getAllPhysicalTrainings : Query (list PhysicalTraining.t) :=
  fun st => Reply.many (Db.physicalTrainings st).

Definition getPhysicalTrainingById (sessionID : string)
  : Query PhysicalTraining.t :=
  fun st =>
    match Db.findOne (Db.by_sessionID sessionID) (Db.physicalTrainings st) with
    | None => Reply.fail 404 "Physical training session not found"
    | Some session => Reply.one session
    end.

(** The filter [{ status: 'pending',
    $expr: { $lt: ['$currentCount', '$maxCount'] } }]. *)
Definition available (s : PhysicalTraining.t) : bool :=
  (String.eqb (PhysicalTraining.status s) "pending"
   && (PhysicalTraining.currentCount s <? PhysicalTraining.maxCount s))%bool.

Definition getAvailableSessions : Query (list PhysicalTraining.t) :=
  fun st => Reply.many (Db.find_all available (Db.physicalTrainings st)).

Definition getSessionsByInstructor (instructorID : string)
  : Query (list PhysicalTraining.t) :=
  fun st =>
    match Db.findOne (Db.by_InstructorID instructorID) (Db.instructors st) with
    | None => Reply.fail 404 "Instructor not found"
    | Some _ =>
        Reply.many (Db.find_all (Db.by_instructorID instructorID)
                                (Db.physicalTrainings st))
    end.

End PhysicalTrainingController.

(** ** enrollPTSController *)

Module EnrollPTSController.

Definition enrollStudent (env : Env) (user : Jwt.Payload)
           (body_sessionID : option string) : Handler EnrollPTS.t :=
  fun st =>
    let userID := Jwt.id user in
    match body_sessionID with
    | None => (Res.fail 400 "Session ID is required", st)
    | Some sessionID =>
        if Js.falsy_str (Some sessionID)
        then (Res.fail 400 "Session ID is required", st)
        else
          match Db.findOne (Db.by_userID userID) (Db.users st) with
          | None => (Res.fail 404 "User not found", st)
          | Some _ =>
              match Db.findOne (Db.by_sessionID sessionID)
                               (Db.physicalTrainings st) with
              | None =>
                  (Res.fail 404 "Physical training session not found", st)
              | Some session =>
                  if negb (String.eqb (PhysicalTraining.status session)
                                      "pending")
                  then (Res.fail 400 "Cannot enroll in a completed session", st)
                  else if PhysicalTraining.maxCount session
                          <=? PhysicalTraining.currentCount session
                  then (Res.fail 400 "Session is full", st)
                  else
                    match Db.findOne (Db.by_user_session userID sessionID)
                                     (Db.enrollments st) with
                    | Some _ =>
                        (Res.fail 400
                           "You are already enrolled in this session", st)
                    | None =>
                        let enrollment :=
                          EnrollPTS.mk (newObjectId env) userID sessionID
                                       "pending" (now_ms env) in
                        let st1 :=
                          Db.with_enrollments
                            (Db.save enrollment (Db.enrollments st)) st in
                        let st2 :=
                          Db.with_physicalTrainings
                            (Db.findOneAndUpdate (Db.by_sessionID sessionID)
                               (PhysicalTraining.inc_currentCount 1)
                               (Db.physicalTrainings st1)) st1 in
                        (Res.ok 201
                           "Successfully enrolled in physical training session"
                           (Some enrollment), st2)
                    end
              end
          end
    end.

Definition updateEnrollmentStatus (enrollmentId : nat)
           (status : option string) : Handler EnrollPTS.t :=
  fun st =>
    match status with
    | None =>
        (Res.fail 400 "Valid status (pending/completed/absent) is required", st)
    | Some v =>
        if (Js.falsy_str (Some v)
            || negb (Js.includes ["pending"; "completed"; "absent"] v))%bool
        then (Res.fail 400
                "Valid status (pending/completed/absent) is required", st)
        else
          match Db.findOne (Db.by_id enrollmentId) (Db.enrollments st) with
          | None => (Res.fail 404 "Enrollment not found", st)
          | Some enrollment =>
              (Res.ok 200
                 ("Enrollment status updated to " ++ Js.dquote ++ v
                  ++ Js.dquote)
                 (Some (EnrollPTS.set_status v enrollment)),
               Db.with_enrollments
                 (Db.findOneAndUpdate (Db.by_id enrollmentId)
                    (EnrollPTS.set_status v) (Db.enrollments st)) st)
          end
    end.

Definition cancelEnrollment (user : Jwt.Payload) (enrollmentId : nat)
  : Handler EnrollPTS.t :=
  fun st =>
    match Db.findOne (Db.by_id enrollmentId) (Db.enrollments st) with
    | None => (Res.fail 404 "Enrollment not found", st)
    | Some enrollment =>
        if (negb (String.eqb (Jwt.id user) (EnrollPTS.userID enrollment))
            && negb (Js.truthy_flag (Jwt.isAdmin user)))%bool
        then (Res.fail 403 "Access denied", st)
        else
          let session :=
            Db.findOne (Db.by_sessionID (EnrollPTS.sessionID enrollment))
                       (Db.physicalTrainings st) in
          match session with
          | Some s =>
              if String.eqb (PhysicalTraining.status s) "completed"
              then (Res.fail 400
                      "Cannot cancel enrollment for a completed session", st)
              else
                let st1 :=
                  Db.with_enrollments
                    (Db.findOneAndDelete (Db.by_id enrollmentId)
                       (Db.enrollments st)) st in
                (Res.ok 200 "Enrollment canceled successfully" None,
                 Db.with_physicalTrainings
                   (Db.findOneAndUpdate
                      (Db.by_sessionID (EnrollPTS.sessionID enrollment))
                      (PhysicalTraining.inc_currentCount (-1))
                      (Db.physicalTrainings st1)) st1)
          | None =>
              (Res.ok 200 "Enrollment canceled successfully" None,
               Db.with_enrollments
                 (Db.findOneAndDelete (Db.by_id enrollmentId)
                    (Db.enrollments st)) st)
          end
    end.

Definition getAllEnrollments : Query (list EnrollPTS.t) :=
  fun st => Reply.many (Db.enrollments st).

(** [{ ...enrollment.toObject(), sessionDetails: session }]; the session is
    [None] when [findOne] answers null. *)
Record WithSession := mkWithSession {
  enrollment : EnrollPTS.t;
  sessionDetails : option PhysicalTraining.t
}.

(** [{ ...enrollment.toObject(), userDetails: user }], the user without
    the password. *)
Record WithUser := mkWithUser {
  row : EnrollPTS.t;
  userDetails : option AuthController.UserResponse
}.

Definition with_session (st : Db.Store) (e : EnrollPTS.t) : WithSession :=
  mkWithSession e
    (Db.findOne (Db.by_sessionID (EnrollPTS.sessionID e))
                (Db.physicalTrainings st)).

Definition with_user (st : Db.Store) (e : EnrollPTS.t) : WithUser :=
  mkWithUser e
    (option_map AuthController.userResponse
       (Db.findOne (Db.by_userID (EnrollPTS.userID e)) (Db.users st))).

Definition getEnrollmentsByUser (caller : Jwt.Payload) (userId : string)
  : Query (list WithSession) :=
  fun st =>
    if (negb (String.eqb (Jwt.id caller) userId)
        && negb (Js.truthy_flag (Jwt.isAdmin caller)))%bool
    then Reply.fail 403 "Access denied"
    else
      Reply.many
        (map (with_session st)
             (Db.find_all (Db.by_row_userID userId) (Db.enrollments st))).

Definition getEnrollmentsBySession (sessionId : string)
  : Query (list WithUser) :=
  fun st =>
    Reply.many
      (map (with_user st)
           (Db.find_all (Db.by_row_sessionID sessionId) (Db.enrollments st))).

Definition getEnrollmentById (caller : Jwt.Payload) (enrollmentId : nat)
  : Query WithSession :=
  fun st =>
    match Db.findOne (Db.by_id enrollmentId) (Db.enrollments st) with
    | None => Reply.fail 404 "Enrollment not found"
    | Some e =>
        if (negb (String.eqb (Jwt.id caller) (EnrollPTS.userID e))
            && negb (Js.truthy_flag (Jwt.isAdmin caller)))%bool
        then Reply.fail 403 "Access denied"
        else Reply.one (with_session st e)
    end.

(** [EnrollPTS.aggregate([{ $group: { _id: '$status',
    count: { $sum: 1 } } }])]: one entry per status that occurs, with the
    number of rows that have it. *)
Fixpoint group_by_status (rows : list EnrollPTS.t) : list (string * Z) :=
  match rows with
  | [] => []
  | e :: r =>
      let groups := group_by_status r in
      Js.obj_set (EnrollPTS.status e)
        (match Js.obj_get (EnrollPTS.status e) groups with
         | Some n => n + 1
         | None => 1
         end)
        groups
  end.

(** [stats.forEach(stat => { formattedStats[stat._id] = stat.count })]. *)
Definition format_stats (stats : list (string * Z)) : list (string * Z) :=
  fold_left (fun o stat => Js.obj_set (fst stat) (snd stat) o) stats
            [("pending", 0); ("completed", 0); ("absent", 0)].

Definition getEnrollmentStats : Query (list (string * Z)) :=
  fun st => Reply.one (format_stats (group_by_status (Db.enrollments st))).

End EnrollPTSController.

(** ** Routers: each route is its middleware chain ending in the handler *)

Module Routes.

(** enrollPTSRoutes: [router.post('/', authenticate, isStudent, enrollStudent)]. *)
Definition post_enroll_pts (env : Env) (token : option Jwt.Token)
           (body_sessionID : option string) : Handler EnrollPTS.t :=
  Middleware.authenticate env token (fun user =>
    Middleware.isStudent (Some user)
      (EnrollPTSController.enrollStudent env user body_sessionID)).

(** [router.patch('/:id', authenticate, updateEnrollmentStatus)]. *)
Definition patch_enroll_pts (env : Env) (token : option Jwt.Token)
           (id : nat) (status : option string) : Handler EnrollPTS.t :=
  Middleware.authenticate env token (fun _ =>
    EnrollPTSController.updateEnrollmentStatus id status).

(** [router.delete('/:id', authenticate, cancelEnrollment)]. *)
Definition delete_enroll_pts (env : Env) (token : option Jwt.Token)
           (id : nat) : Handler EnrollPTS.t :=
  Middleware.authenticate env token (fun user =>
    EnrollPTSController.cancelEnrollment user id).

(** physicalTrainingRoutes. *)
Definition post_physical_training (env : Env) (token : option Jwt.Token)
           (b : PhysicalTrainingController.CreateBody)
  : Handler PhysicalTraining.t :=
  Middleware.authenticate env token (fun _ =>
    PhysicalTrainingController.createPhysicalTraining b).

Definition put_physical_training (env : Env) (token : option Jwt.Token)
           (id : string) (b : PhysicalTrainingController.UpdateBody)
  : Handler PhysicalTraining.t :=
  Middleware.authenticate env token (fun _ =>
    PhysicalTrainingController.updatePhysicalTraining id b).

Definition delete_physical_training (env : Env) (token : option Jwt.Token)
           (id : string) : Handler PhysicalTraining.t :=
  Middleware.authenticate env token (fun user =>
    Middleware.isAdmin (Some user)
      (PhysicalTrainingController.deletePhysicalTraining id)).

Definition patch_physical_training_status (env : Env)
           (token : option Jwt.Token) (id : string) (status : option string)
  : Handler PhysicalTraining.t :=
  Middleware.authenticate env token (fun user =>
    Middleware.isInstructor (Some user)
      (PhysicalTrainingController.updateSessionStatus id status)).

End Routes.

(** ** Sequences of requests *)

Module Trace.

(** The requests that create or change sessions and enrollments. *)
Inductive op : Type :=
| SessionCreate (b : PhysicalTrainingController.CreateBody)
| SessionUpdate (id : string) (b : PhysicalTrainingController.UpdateBody)
| SessionUpdateStatus (id : string) (status : option string)
| Enroll (env : Env) (user : Jwt.Payload) (sessionID : option string)
| Cancel (user : Jwt.Payload) (id : nat).

Definition step (o : op) (st : Db.Store) : Db.Store :=
  match o with
  | SessionCreate b =>
      snd (PhysicalTrainingController.createPhysicalTraining b st)
  | SessionUpdate id b =>
      snd (PhysicalTrainingController.updatePhysicalTraining id b st)
  | SessionUpdateStatus id s =>
      snd (PhysicalTrainingController.updateSessionStatus id s st)
  | Enroll env user sid =>
      snd (EnrollPTSController.enrollStudent env user sid st)
  | Cancel user id =>
      snd (EnrollPTSController.cancelEnrollment user id st)
  end.

Definition run (ops : list op) (st : Db.Store) : Db.Store :=
  fold_left (fun s o => step o s) ops st.

(** A store is reachable when requests lead to it from a store that has
    no session and no enrollment yet. *)
Inductive reachable : Db.Store -> Prop :=
| reach_init (st : Db.Store) :
    Db.physicalTrainings st = [] -> Db.enrollments st = [] -> reachable st
| reach_step (st : Db.Store) (o : op) :
    reachable st -> reachable (step o st).

(** The capacity bound of one session, and of every session of a store. *)
Definition capacity_ok (s : PhysicalTraining.t) : Prop :=
  0 <= PhysicalTraining.currentCount s <= PhysicalTraining.maxCount s.

Definition capacity_invariant (st : Db.Store) : Prop :=
  Forall capacity_ok (Db.physicalTrainings st).

End Trace.

(** ** Sample data for the worked requests *)

Module Sample.

Definition env0 : Env :=
  mkEnv 1700000000000 "uuid-new" 1
        (fun _ => "salt")
        (fun pw salt => salt ++ pw)
        (fun pw hashed => String.eqb ("salt" ++ pw) hashed)
        None.

Definition env1 : Env :=
  mkEnv 1700000060000 "uuid-next" 2
        (fun _ => "salt")
        (fun pw salt => salt ++ pw)
        (fun pw hashed => String.eqb ("salt" ++ pw) hashed)
        None.

Definition alice : User.t :=
  User.mk "u-alice" (Some "Alice") None (Some "alice") "saltpw-a"
          "alice@example.org" None None None true.

Definition bob : User.t :=
  User.mk "u-bob" (Some "Bob") None (Some "bob") "saltpw-b"
          "bob@example.org" None None None true.

Definition car : Vehicle.t :=
  Vehicle.mk "v-1" "CAB-1234" "car" "manual" "petrol" true 0.

Definition teacher : Instructor.t :=
  Instructor.mk "i-1" "Tara" "tara@example.org" "Kandy" 5 "saltpw-t" true.

(** Accounts, one vehicle and one instructor; no session, no enrollment. *)
Definition store0 : Db.Store :=
  Db.mkStore [alice; bob] [teacher] [car] [] [] [].

Definition alice_token : Jwt.Payload := AuthController.token_payload alice.
Definition bob_token : Jwt.Payload := AuthController.token_payload bob.

Definition create_body (maxCount : Z) : PhysicalTrainingController.CreateBody :=
  PhysicalTrainingController.mkCreateBody
    (Some "2025-06-01") (Some "09:00") (Some "Kandy") (Some "v-1")
    (Some "i-1") (Some maxCount) None.

(** A body that carries [maxCount] only. *)
Definition only_maxCount (m : Z) : PhysicalTrainingController.UpdateBody :=
  PhysicalTrainingController.mkUpdateBody
    None None None None None (Some m) None None None.

(** One session of capacity 1, already taken by alice. *)
Definition full_session : PhysicalTraining.t :=
  PhysicalTraining.mk "PT0001" "2025-06-01" "09:00" "Kandy" "v-1" "i-1"
                      1 1 "pending" None.

Definition alice_row : EnrollPTS.t :=
  EnrollPTS.mk 1 "u-alice" "PT0001" "pending" 1700000000000.

Definition store_full : Db.Store :=
  Db.mkStore [alice; bob] [teacher] [car] [full_session] [alice_row]
             [Counter.mk "sessionID" 1].

(** One session of capacity 2 with alice enrolled and one slot left. *)
Definition open_session : PhysicalTraining.t :=
  PhysicalTraining.mk "PT0001" "2025-06-01" "09:00" "Kandy" "v-1" "i-1"
                      2 1 "pending" None.

Definition store_open : Db.Store :=
  Db.mkStore [alice; bob] [teacher] [car] [open_session] [alice_row]
             [Counter.mk "sessionID" 1].

(** alice's row outlives its session. *)
Definition store_orphan : Db.Store :=
  Db.mkStore [alice; bob] [teacher] [car] [] [alice_row]
             [Counter.mk "sessionID" 1].

(** A session nobody is enrolled in. *)
Definition empty_session : PhysicalTraining.t :=
  PhysicalTraining.mk "PT0001" "2025-06-01" "09:00" "Kandy" "v-1" "i-1"
                      2 0 "pending" None.

Definition store_empty_session : Db.Store :=
  Db.mkStore [alice; bob] [teacher] [car] [empty_session] []
             [Counter.mk "sessionID" 1].

(** A caller whose id names no user document. *)
Definition stranger : Jwt.Payload :=
  Jwt.mkPayload "u-gone" "gone@example.org" (Some "gone")
                None None None None.

Definition register_body : AuthController.RegisterBody :=
  AuthController.mkRegisterBody
    (Some "Carol") None (Some "alice") (Some "pw-c") "carol@example.org"
    None None None None.

(** alice logs in with her password. *)
Definition alice_login : AuthController.LoginBody :=
  AuthController.mkLoginBody (Some "alice@example.org") (Some "pw-a").

(** A second account asks for the email alice already holds. *)
Definition same_email_body : AuthController.RegisterBody :=
  AuthController.mkRegisterBody
    (Some "Alicia") None (Some "alicia") (Some "pw-x") "alice@example.org"
    None None None (Some false).

(** The trace that takes a session above its capacity: create a session
    of capacity 2, enroll two students, then lower [maxCount] to 1. *)
Definition over_capacity_trace : list Trace.op :=
  [ Trace.SessionCreate (create_body 2);
    Trace.Enroll env0 alice_token (Some "PT0001");
    Trace.Enroll env1 bob_token (Some "PT0001");
    Trace.SessionUpdate "PT0001" (only_maxCount 1) ].

End Sample.

(** ** Predicates used in the statements *)

(** The caller may cancel: it is the enrolled user or carries the admin flag. *)
Definition may_cancel (user : Jwt.Payload) (e : EnrollPTS.t) : Prop :=
  Jwt.id user = EnrollPTS.userID e \/ Jwt.isAdmin user = Some true.

(** The value of the named counter once it has been incremented: one more
    than the stored value, or 1 when the counter does not exist yet. *)
Definition next_value (sequenceName : string) (st : Db.Store) : Z :=
  match Db.findOne (Db.by_name sequenceName) (Db.counters st) with
  | Some c => Counter.value c + 1
  | None => 1
  end.

(** ** A claim that the code does not satisfy, as a proposition *)

Module Stated.

(** The response of the duplicate check of [enrollStudent]. *)
Definition Conflict : Res.t EnrollPTS.t :=
  Res.fail 400 "You are already enrolled in this session".

(** Whenever a row for (user, session) exists, for an existing user and
    session, enrolling again answers with the duplicate rejection, adds no
    row and leaves the counters alone. *)
Definition second_enroll_always_conflict : Prop :=
  forall (env : Env) (user : Jwt.Payload) (sid : string) (st : Db.Store)
         (u : User.t) (s : PhysicalTraining.t) (row : EnrollPTS.t),
    Db.findOne (Db.by_userID (Jwt.id user)) (Db.users st) = Some u ->
    Db.findOne (Db.by_sessionID sid) (Db.physicalTrainings st) = Some s ->
    In row (Db.enrollments st) ->
    EnrollPTS.userID row = Jwt.id user ->
    EnrollPTS.sessionID row = sid ->
    fst (EnrollPTSController.enrollStudent env user (Some sid) st) = Conflict
    /\ Db.enrollments
         (snd (EnrollPTSController.enrollStudent env user (Some sid) st))
       = Db.enrollments st
    /\ Db.physicalTrainings
         (snd (EnrollPTSController.enrollStudent env user (Some sid) st))
       = Db.physicalTrainings st.

End Stated.

(** ** All requests that write sessions, enrollments or the counter *)

Module Api.

Inductive request : Type :=
| Ledger (o : Trace.op)
| SessionDelete (id : string)
| EnrollmentStatus (id : nat) (status : option string).

Definition step (r : request) (st : Db.Store) : Db.Store :=
  match r with
  | Ledger o => Trace.step o st
  | SessionDelete id =>
      snd (PhysicalTrainingController.deletePhysicalTraining id st)
  | EnrollmentStatus id s =>
      snd (EnrollPTSController.updateEnrollmentStatus id s st)
  end.

Definition run (rs : list request) (st : Db.Store) : Db.Store :=
  fold_left (fun s r => step r s) rs st.

(** The request is a session update whose body carries [currentCount]. *)
Definition writes_currentCount (r : request) : bool :=
  match r with
  | Ledger (Trace.SessionUpdate _ b) =>
      negb (Js.is_undefined (PhysicalTrainingController.u_currentCount b))
  | _ => false
  end.

(** The request is a session update whose body carries [maxCount], or a
    create whose [maxCount] is negative. *)
Definition writes_maxCount (r : request) : bool :=
  match r with
  | Ledger (Trace.SessionUpdate _ b) =>
      negb (Js.is_undefined (PhysicalTrainingController.u_maxCount b))
  | Ledger (Trace.SessionCreate b) =>
      match PhysicalTrainingController.maxCount b with
      | Some m => m <? 0
      | None => false
      end
  | _ => false
  end.

(** The number of enrollment rows that name a session. *)
Definition rows_of (sid : string) (rows : list EnrollPTS.t) : nat :=
  count_occ string_dec (map EnrollPTS.sessionID rows) sid.

(** The number of rows that have a status. *)
Definition rows_with_status (v : string) (rows : list EnrollPTS.t) : nat :=
  count_occ string_dec (map EnrollPTS.status rows) v.

(** A store before any session was created: no session, no enrollment,
    and the session counter absent or not negative. *)
Definition fresh (st : Db.Store) : Prop :=
  Db.physicalTrainings st = []
  /\ Db.enrollments st = []
  /\ 1 <= next_value "sessionID" st.

(** Every session counts exactly the rows that name it. *)
Definition ledger_consistent (st : Db.Store) : Prop :=
  forall s, In s (Db.physicalTrainings st) ->
    PhysicalTraining.currentCount s
    = Z.of_nat (rows_of (PhysicalTraining.sessionID s) (Db.enrollments st)).

Definition session_status_valid (s : PhysicalTraining.t) : Prop :=
  PhysicalTraining.status s = "pending"
  \/ PhysicalTraining.status s = "completed".

Definition row_status_valid (e : EnrollPTS.t) : Prop :=
  EnrollPTS.status e = "pending" \/ EnrollPTS.status e = "completed"
  \/ EnrollPTS.status e = "absent".

(** The identifier that the counter value [k] gives. *)
Definition session_id (k : Z) : string :=
  ("PT" ++ Js.padStart 4 "0" (Js.String_of k))%string.

(** An identifier minted by one of the first [n] counter values. *)
Definition minted (n : Z) (id : string) : Prop :=
  exists k, 1 <= k <= n /\ id = session_id k.

(** The sessions carry distinct identifiers, each minted by a counter value
    that was already used, and the rows name such identifiers only. *)
Definition ids_wf (st : Db.Store) : Prop :=
  exists n,
    0 <= n
    /\ next_value "sessionID" st = n + 1
    /\ Forall (minted n) (map PhysicalTraining.sessionID (Db.physicalTrainings st))
    /\ Forall (minted n) (map EnrollPTS.sessionID (Db.enrollments st))
    /\ NoDup (map PhysicalTraining.sessionID (Db.physicalTrainings st)).

(** No session counts more enrollments than its capacity. *)
Definition upper_bound (st : Db.Store) : Prop :=
  Forall (fun s => PhysicalTraining.currentCount s
                   <= PhysicalTraining.maxCount s)
         (Db.physicalTrainings st).

(** Every status in the store is one the handlers accept. *)
Definition statuses_valid (st : Db.Store) : Prop :=
  Forall session_status_valid (Db.physicalTrainings st)
  /\ Forall row_status_valid (Db.enrollments st).

End Api.

(** ** Sample runs *)

Module Scenario.

(** A session of capacity 2 is created; alice enrolls and cancels, then bob
    enrolls. *)
Definition one_seat_taken : list Api.request :=
  map Api.Ledger
      [Trace.SessionCreate (Sample.create_body 2);
       Trace.Enroll Sample.env0 Sample.alice_token (Some "PT0001");
       Trace.Cancel Sample.alice_token 1;
       Trace.Enroll Sample.env1 Sample.bob_token (Some "PT0001")].

(** Two sessions are created one after the other. *)
Definition two_sessions : list Api.request :=
  [Api.Ledger (Trace.SessionCreate (Sample.create_body 2));
   Api.Ledger (Trace.SessionCreate (Sample.create_body 3))].

End Scenario.

(** * Properties *)

Open Scope list_scope.

(** ** The store primitives *)

Section CollectionFacts.
Context {A : Type}.
Variable p : A -> bool.

(** The first match splits the collection: nothing before it matches. *)
Lemma findOne_split (c : list A) (x : A) :
  Db.findOne p c = Some x ->
  exists l1 l2,
    c = l1 ++ x :: l2 /\ p x = true /\ forallb (fun y => negb (p y)) l1 = true.
Proof.
  unfold Db.findOne.
  induction c as [|y r IH]; simpl; intros H; [discriminate|].
  destruct (p y) eqn:Hy.
  - injection H as ->. exists [], r. simpl. auto.
  - destruct (IH H) as (l1 & l2 & -> & Hx & Hl).
    exists (y :: l1), l2. simpl. rewrite Hy. auto.
Qed.

Lemma findOne_In (c : list A) (x : A) :
  Db.findOne p c = Some x -> In x c /\ p x = true.
Proof.
  intros H. destruct (findOne_split c x H) as (l1 & l2 & -> & Hx & _).
  split; [apply in_elt | exact Hx].
Qed.

Lemma findOne_None (c : list A) :
  Db.findOne p c = None -> forall x, In x c -> p x = false.
Proof. unfold Db.findOne. intros H x Hx. exact (find_none p c H x Hx). Qed.

Lemma findOne_skip (l1 l2 : list A) (x : A) :
  forallb (fun y => negb (p y)) l1 = true -> p x = true ->
  Db.findOne p (l1 ++ x :: l2) = Some x.
Proof.
  unfold Db.findOne.
  induction l1 as [|y r IH]; simpl; intros Hl Hx.
  - now rewrite Hx.
  - apply andb_prop in Hl as [Hy Hr].
    apply negb_true_iff in Hy. rewrite Hy. auto.
Qed.

Lemma findOneAndUpdate_skip (f : A -> A) (l1 l2 : list A) (x : A) :
  forallb (fun y => negb (p y)) l1 = true -> p x = true ->
  Db.findOneAndUpdate p f (l1 ++ x :: l2) = l1 ++ f x :: l2.
Proof.
  induction l1 as [|y r IH]; simpl; intros Hl Hx.
  - now rewrite Hx.
  - apply andb_prop in Hl as [Hy Hr].
    apply negb_true_iff in Hy. rewrite Hy. f_equal. auto.
Qed.

Lemma findOneAndDelete_skip (l1 l2 : list A) (x : A) :
  forallb (fun y => negb (p y)) l1 = true -> p x = true ->
  Db.findOneAndDelete p (l1 ++ x :: l2) = l1 ++ l2.
Proof.
  induction l1 as [|y r IH]; simpl; intros Hl Hx.
  - now rewrite Hx.
  - apply andb_prop in Hl as [Hy Hr].
    apply negb_true_iff in Hy. rewrite Hy. f_equal. auto.
Qed.

Lemma findOneAndUpdate_none (f : A -> A) (c : list A) :
  Db.findOne p c = None -> Db.findOneAndUpdate p f c = c.
Proof.
  unfold Db.findOne.
  induction c as [|y r IH]; simpl; intros H; [reflexivity|].
  destruct (p y); [discriminate|]. f_equal. auto.
Qed.

Lemma findOneAndUpdate_length (f : A -> A) (c : list A) :
  List.length (Db.findOneAndUpdate p f c) = List.length c.
Proof.
  induction c as [|y r IH]; simpl; [reflexivity|].
  destruct (p y); simpl; congruence.
Qed.

(** A property of all documents survives an update of the first match
    when the rewritten document has it. *)
Lemma findOneAndUpdate_Forall (Q : A -> Prop) (f : A -> A) (c : list A) :
  Forall Q c ->
  (forall x, Db.findOne p c = Some x -> Q (f x)) ->
  Forall Q (Db.findOneAndUpdate p f c).
Proof.
  unfold Db.findOne.
  induction c as [|y r IH]; simpl; intros Hc Hf; [constructor|].
  inversion Hc as [|? ? Hy Hr]; subst.
  destruct (p y) eqn:Ey.
  - constructor; [apply Hf; reflexivity | exact Hr].
  - constructor; [exact Hy | apply IH; assumption].
Qed.

Lemma findOneAndDelete_Forall (Q : A -> Prop) (c : list A) :
  Forall Q c -> Forall Q (Db.findOneAndDelete p c).
Proof.
  induction c as [|y r IH]; simpl; intros Hc; [constructor|].
  inversion Hc as [|? ? Hy Hr]; subst.
  destruct (p y); [exact Hr | constructor; auto].
Qed.

End CollectionFacts.

Lemma timespan_24h : Jwt.timespan "24h" = Some 86400.
Proof. reflexivity. Qed.

Lemma sign_24h (p : Jwt.Payload) (secret : string) (now : Z) :
  Jwt.sign p secret "24h" now
  = Some (Jwt.mkToken p (now / 1000) (now / 1000 + 86400) secret).
Proof. unfold Jwt.sign. rewrite timespan_24h. reflexivity. Qed.

(** ** Capacity bookkeeping *)

(** Enrolling keeps the capacity bound of every session: the counter moves
    only when it is below [maxCount]. *)
Lemma enrollStudent_keeps_capacity (env : Env) (user : Jwt.Payload)
      (sid : option string) (st : Db.Store) :
  Trace.capacity_invariant st ->
  Trace.capacity_invariant
    (snd (EnrollPTSController.enrollStudent env user sid st)).
Proof.
  unfold Trace.capacity_invariant, EnrollPTSController.enrollStudent.
  intros Hinv.
  destruct sid as [sid|]; [|exact Hinv].
  destruct (Js.falsy_str (Some sid)); [exact Hinv|].
  destruct (Db.findOne (Db.by_userID _) _); [|exact Hinv].
  destruct (Db.findOne (Db.by_sessionID sid) _) as [s|] eqn:Hs; [|exact Hinv].
  destruct (negb _); [exact Hinv|].
  destruct (PhysicalTraining.maxCount s <=? PhysicalTraining.currentCount s)
    eqn:Hfull; [exact Hinv|].
  destruct (Db.findOne (Db.by_user_session _ _) _); [exact Hinv|].
  simpl. apply findOneAndUpdate_Forall; [exact Hinv|].
  intros x Hx. rewrite Hs in Hx. injection Hx as <-.
  apply Z.leb_gt in Hfull.
  destruct (findOne_In _ _ _ Hs) as [Hin _].
  rewrite Forall_forall in Hinv. specialize (Hinv s Hin).
  unfold Trace.capacity_ok in *. simpl. lia.
Qed.

(** Changing the status of a session keeps the capacity bound. *)
Lemma updateSessionStatus_keeps_capacity (id : string) (v : option string)
      (st : Db.Store) :
  Trace.capacity_invariant st ->
  Trace.capacity_invariant
    (snd (PhysicalTrainingController.updateSessionStatus id v st)).
Proof.
  unfold Trace.capacity_invariant,
    PhysicalTrainingController.updateSessionStatus.
  intros Hinv.
  destruct v as [v|]; [|exact Hinv].
  destruct (_ || _)%bool; [exact Hinv|].
  destruct (Db.findOne _ _) as [s|] eqn:Hs; [|exact Hinv].
  simpl. apply findOneAndUpdate_Forall; [exact Hinv|].
  intros x Hx. rewrite Hs in Hx. injection Hx as <-.
  destruct (findOne_In _ _ _ Hs) as [Hin _].
  rewrite Forall_forall in Hinv. exact (Hinv s Hin).
Qed.

(** The update handler enforces the upper bound when the body carries
    [currentCount]: the session it answers with respects it. *)
Lemma updatePhysicalTraining_checks_supplied_count (id : string)
      (b : PhysicalTrainingController.UpdateBody) (st : Db.Store) (c : Z)
      (s' : PhysicalTraining.t) :
  PhysicalTrainingController.u_currentCount b = Some c ->
  Res.data (fst (PhysicalTrainingController.updatePhysicalTraining id b st))
    = Some s' ->
  PhysicalTraining.currentCount s' = c
  /\ PhysicalTraining.currentCount s' <= PhysicalTraining.maxCount s'.
Proof.
  intros Hc. unfold PhysicalTrainingController.updatePhysicalTraining.
  destruct (_ && _)%bool; [discriminate|].
  destruct (Db.findOne _ _) as [s|]; [|discriminate].
  destruct (PhysicalTrainingController.vehicle_missing _ _); [discriminate|].
  destruct (PhysicalTrainingController.instructor_missing _ _); [discriminate|].
  destruct (PhysicalTrainingController.status_invalid _); [discriminate|].
  destruct (PhysicalTrainingController.count_exceeds b s) eqn:Hex;
    [discriminate|].
  simpl. intros [= <-]. simpl.
  unfold PhysicalTrainingController.count_exceeds in Hex.
  rewrite Hc in *. simpl. split; [reflexivity|].
  apply Z.ltb_ge in Hex.
  destruct (PhysicalTrainingController.u_maxCount b); simpl; lia.
Qed.

Lemma run_reachable (ops : list Trace.op) (st : Db.Store) :
  Trace.reachable st -> Trace.reachable (Trace.run ops st).
Proof.
  revert st. unfold Trace.run.
  induction ops as [|o r IH]; simpl; intros st H; [exact H|].
  apply IH. now constructor.
Qed.

(** C1 (fails on the code): the store reached by [Sample.over_capacity_trace] from a
    store without sessions holds a session with [currentCount = 2] and
    [maxCount = 1], so the bound [0 <= currentCount <= maxCount] is not an
    invariant of the reachable stores.  The update handler compares the two
    counters only when the body carries [currentCount]. *)
Theorem update_maxCount_breaks_capacity :
  Trace.reachable (Trace.run Sample.over_capacity_trace Sample.store0)
  /\ (exists s,
         Db.physicalTrainings (Trace.run Sample.over_capacity_trace Sample.store0) = [s]
         /\ PhysicalTraining.sessionID s = "PT0001"
         /\ PhysicalTraining.currentCount s = 2
         /\ PhysicalTraining.maxCount s = 1)
  /\ ~ (forall st, Trace.reachable st -> Trace.capacity_invariant st).
Proof.
  assert (Hreach : Trace.reachable (Trace.run Sample.over_capacity_trace Sample.store0)).
  { apply run_reachable. apply Trace.reach_init; reflexivity. }
  split; [exact Hreach|]. split.
  - eexists. split; [vm_compute; reflexivity|]. repeat split.
  - intros Hall. specialize (Hall _ Hreach).
    unfold Trace.capacity_invariant in Hall.
    assert (E : Db.physicalTrainings (Trace.run Sample.over_capacity_trace Sample.store0)
                = [PhysicalTraining.mk "PT0001" "2025-06-01" "09:00" "Kandy"
                     "v-1" "i-1" 1 2 "pending" None])
      by (vm_compute; reflexivity).
    rewrite E in Hall. inversion Hall as [|? ? Hs _]; subst.
    unfold Trace.capacity_ok in Hs. simpl in Hs. lia.
Qed.

(** ** Enrolling *)

Lemma falsy_str_Some (v : string) :
  v <> EmptyString -> Js.falsy_str (Some v) = false.
Proof. intros H. simpl. now apply String.eqb_neq. Qed.

Lemma row_found (u sid : string) (rows : list EnrollPTS.t) (row : EnrollPTS.t) :
  In row rows -> EnrollPTS.userID row = u -> EnrollPTS.sessionID row = sid ->
  exists first, Db.findOne (Db.by_user_session u sid) rows = Some first.
Proof.
  intros Hin Hu Hs.
  destruct (Db.findOne (Db.by_user_session u sid) rows) as [first|] eqn:E.
  - now exists first.
  - pose proof (findOne_None _ _ E row Hin) as Hno.
    unfold Db.by_user_session in Hno.
    rewrite Hu, Hs, !String.eqb_refl in Hno. discriminate.
Qed.

(** A failed enroll request changes nothing: every answer other than the
    201 leaves the store as it was. *)
Lemma enrollStudent_failure_keeps_store (env : Env) (user : Jwt.Payload)
      (sid : option string) (st : Db.Store) :
  Res.success (fst (EnrollPTSController.enrollStudent env user sid st)) = false ->
  snd (EnrollPTSController.enrollStudent env user sid st) = st
  /\ (Res.status (fst (EnrollPTSController.enrollStudent env user sid st)) = 400
      \/ Res.status (fst (EnrollPTSController.enrollStudent env user sid st)) = 404).
Proof.
  unfold EnrollPTSController.enrollStudent.
  destruct sid as [sid|]; [|simpl; auto].
  destruct (Js.falsy_str (Some sid)); [simpl; auto|].
  destruct (Db.findOne (Db.by_userID _) _); [|simpl; auto].
  destruct (Db.findOne (Db.by_sessionID sid) _) as [s|]; [|simpl; auto].
  destruct (negb _); [simpl; auto|].
  destruct (_ <=? _); [simpl; auto|].
  destruct (Db.findOne (Db.by_user_session _ _) _); [simpl; auto|].
  simpl. discriminate.
Qed.

(** A caller whose id names no user document is answered 404 by the user
    check, which comes before the session is looked at; nothing changes. *)
Lemma enroll_unknown_user (env : Env) (user : Jwt.Payload) (sid : string)
      (st : Db.Store) :
  sid <> EmptyString ->
  Db.findOne (Db.by_userID (Jwt.id user)) (Db.users st) = None ->
  EnrollPTSController.enrollStudent env user (Some sid) st
  = (Res.fail 404 "User not found", st).
Proof.
  intros Hne Hu. unfold EnrollPTSController.enrollStudent.
  now rewrite (falsy_str_Some _ Hne), Hu.
Qed.

(** The capacity check also stops a session whose counter is above its
    capacity. *)
Lemma enroll_at_capacity_rejected (env : Env) (user : Jwt.Payload)
      (sid : string) (st : Db.Store) (u : User.t) (s : PhysicalTraining.t) :
  sid <> EmptyString ->
  Db.findOne (Db.by_userID (Jwt.id user)) (Db.users st) = Some u ->
  Db.findOne (Db.by_sessionID sid) (Db.physicalTrainings st) = Some s ->
  PhysicalTraining.status s = "pending" ->
  PhysicalTraining.maxCount s <= PhysicalTraining.currentCount s ->
  EnrollPTSController.enrollStudent env user (Some sid) st
  = (Res.fail 400 "Session is full", st).
Proof.
  intros Hne Hu Hs Hp Hfull. apply Z.leb_le in Hfull.
  unfold EnrollPTSController.enrollStudent.
  now rewrite (falsy_str_Some _ Hne), Hu, Hs, Hp, Hfull.
Qed.

(** C2: an enroll request by a caller whose user document exists, against
    an existing pending session whose [currentCount] equals [maxCount], is
    answered with the client error 400 and is not a success, and it leaves
    the whole store unchanged: no enrollment row is inserted and no session
    field is written.  For a non-empty session id the answer is the one of
    the capacity check, [Session is full]. *)
Theorem enroll_full_session_400 (env : Env) (user : Jwt.Payload)
        (sid : string) (st : Db.Store) (u : User.t) (s : PhysicalTraining.t) :
  Db.findOne (Db.by_userID (Jwt.id user)) (Db.users st) = Some u ->
  Db.findOne (Db.by_sessionID sid) (Db.physicalTrainings st) = Some s ->
  PhysicalTraining.status s = "pending" ->
  PhysicalTraining.currentCount s = PhysicalTraining.maxCount s ->
  Res.status (fst (EnrollPTSController.enrollStudent env user (Some sid) st))
    = 400
  /\ Res.success (fst (EnrollPTSController.enrollStudent env user (Some sid) st))
     = false
  /\ snd (EnrollPTSController.enrollStudent env user (Some sid) st) = st
  /\ Db.enrollments
       (snd (EnrollPTSController.enrollStudent env user (Some sid) st))
     = Db.enrollments st
  /\ Db.physicalTrainings
       (snd (EnrollPTSController.enrollStudent env user (Some sid) st))
     = Db.physicalTrainings st
  /\ (sid <> EmptyString ->
      fst (EnrollPTSController.enrollStudent env user (Some sid) st)
      = Res.fail 400 "Session is full").
Proof.
  intros Hu Hs Hp Heq.
  assert (Hfull : (PhysicalTraining.maxCount s
                   <=? PhysicalTraining.currentCount s) = true)
    by (apply Z.leb_le; lia).
  unfold EnrollPTSController.enrollStudent.
  destruct (Js.falsy_str (Some sid)) eqn:Hsid.
  - simpl. repeat split.
    intros Hne. rewrite (falsy_str_Some _ Hne) in Hsid. discriminate.
  - rewrite Hu, Hs, Hp, Hfull. simpl. repeat split.
Qed.

Lemma enroll_full_session_400_witness :
  Db.findOne (Db.by_userID (Jwt.id Sample.bob_token)) (Db.users Sample.store_full)
    = Some Sample.bob
  /\ Db.findOne (Db.by_sessionID "PT0001")
                (Db.physicalTrainings Sample.store_full)
     = Some Sample.full_session
  /\ PhysicalTraining.currentCount Sample.full_session
     = PhysicalTraining.maxCount Sample.full_session
  /\ EnrollPTSController.enrollStudent Sample.env1 Sample.bob_token
       (Some "PT0001") Sample.store_full
     = (Res.fail 400 "Session is full", Sample.store_full).
Proof.
  destruct (enroll_full_session_400 Sample.env1 Sample.bob_token "PT0001"
              Sample.store_full Sample.bob Sample.full_session
              eq_refl eq_refl eq_refl eq_refl)
    as (_ & _ & Hst & _ & _ & Hmsg).
  split; [reflexivity|]. split; [reflexivity|]. split; [reflexivity|].
  rewrite (surjective_pairing
             (EnrollPTSController.enrollStudent Sample.env1 Sample.bob_token
                (Some "PT0001") Sample.store_full)).
  rewrite Hst, Hmsg by discriminate. reflexivity.
Defined.

(** C3, counterexample: alice holds the only slot of a session of capacity
    1; her second enroll request is stopped by the capacity check, which
    comes first, and is answered [Session is full]. *)
Lemma second_enroll_on_full_session_not_conflict :
  ~ Stated.second_enroll_always_conflict.
Proof.
  intros H.
  destruct (H Sample.env1 Sample.alice_token "PT0001" Sample.store_full
              Sample.alice Sample.full_session Sample.alice_row
              eq_refl eq_refl (or_introl eq_refl) eq_refl eq_refl)
    as [Hc _].
  vm_compute in Hc. discriminate.
Qed.

(** C3, as amended: when a row for (user, session) exists, a further enroll
    request by that user for that session never succeeds (the answer is a
    400 or a 404), inserts no row and changes no session; the answer is the
    duplicate rejection whenever the request reaches the duplicate check,
    that is when the user and the session exist and the session is pending
    and below capacity. *)
Theorem second_enroll_rejected (env : Env) (user : Jwt.Payload) (sid : string)
        (st : Db.Store) (row : EnrollPTS.t) :
  In row (Db.enrollments st) ->
  EnrollPTS.userID row = Jwt.id user ->
  EnrollPTS.sessionID row = sid ->
  Res.success (fst (EnrollPTSController.enrollStudent env user (Some sid) st))
    = false
  /\ (Res.status (fst (EnrollPTSController.enrollStudent env user (Some sid) st))
        = 400
      \/ Res.status (fst (EnrollPTSController.enrollStudent env user (Some sid) st))
        = 404)
  /\ snd (EnrollPTSController.enrollStudent env user (Some sid) st) = st
  /\ (forall u s,
         sid <> EmptyString ->
         Db.findOne (Db.by_userID (Jwt.id user)) (Db.users st) = Some u ->
         Db.findOne (Db.by_sessionID sid) (Db.physicalTrainings st) = Some s ->
         PhysicalTraining.status s = "pending" ->
         PhysicalTraining.currentCount s < PhysicalTraining.maxCount s ->
         fst (EnrollPTSController.enrollStudent env user (Some sid) st)
         = Stated.Conflict).
Proof.
  intros Hin Hu Hs.
  destruct (row_found _ _ _ _ Hin Hu Hs) as [first Hfirst].
  assert (Hfail :
    Res.success (fst (EnrollPTSController.enrollStudent env user (Some sid) st))
    = false).
  { unfold EnrollPTSController.enrollStudent.
    destruct (Js.falsy_str (Some sid)); [reflexivity|].
    destruct (Db.findOne (Db.by_userID _) _); [|reflexivity].
    destruct (Db.findOne (Db.by_sessionID sid) _); [|reflexivity].
    destruct (negb _); [reflexivity|].
    destruct (_ <=? _); [reflexivity|].
    rewrite Hfirst. reflexivity. }
  destruct (enrollStudent_failure_keeps_store env user (Some sid) st Hfail)
    as [Hst Hcode].
  repeat split; auto.
  intros u s Hne Hfu Hfs Hp Hlt.
  unfold EnrollPTSController.enrollStudent.
  rewrite (falsy_str_Some _ Hne), Hfu, Hfs, Hp.
  apply Z.leb_gt in Hlt. rewrite Hlt, Hfirst. reflexivity.
Qed.

Lemma second_enroll_rejected_witness :
  In Sample.alice_row (Db.enrollments Sample.store_open)
  /\ snd (EnrollPTSController.enrollStudent Sample.env1 Sample.alice_token
            (Some "PT0001") Sample.store_open) = Sample.store_open
  /\ fst (EnrollPTSController.enrollStudent Sample.env1 Sample.alice_token
            (Some "PT0001") Sample.store_open) = Stated.Conflict.
Proof.
  destruct (second_enroll_rejected Sample.env1 Sample.alice_token "PT0001"
              Sample.store_open Sample.alice_row (or_introl eq_refl)
              eq_refl eq_refl) as (_ & _ & Hst & Hdup).
  split; [left; reflexivity|]. split; [exact Hst|].
  apply (Hdup Sample.alice Sample.open_session);
    [discriminate | reflexivity | reflexivity | reflexivity | simpl; lia].
Defined.

(** ** Cancelling *)

Lemma may_cancel_check (user : Jwt.Payload) (e : EnrollPTS.t) :
  may_cancel user e ->
  (negb (String.eqb (Jwt.id user) (EnrollPTS.userID e))
   && negb (Js.truthy_flag (Jwt.isAdmin user)))%bool = false.
Proof.
  intros [H|H].
  - rewrite H, String.eqb_refl. reflexivity.
  - rewrite H. simpl. apply andb_false_r.
Qed.

Lemma singleton_split {A : Type} (x e : A) (l1 l2 : list A) :
  [x] = l1 ++ e :: l2 -> l1 = [] /\ l2 = [] /\ e = x.
Proof.
  destruct l1 as [|y l1]; simpl; intros H.
  - injection H as -> <-. auto.
  - injection H as _ H. now destruct l1.
Qed.

(** C4: for an existing enrollment, a cancel succeeds exactly when the
    caller is the enrolled user or an admin and the referenced session, if
    it exists, is not completed.  When the session exists and is not
    completed, the cancel of such a caller is answered 200, the enrollment
    row (the first with that id) is deleted, that session's [currentCount]
    is lowered by exactly 1, and nothing else in the store changes.  When
    the session no longer exists, the cancel of such a caller is still
    answered 200, the row is deleted, and no session is modified. *)
Theorem cancelEnrollment_effect (user : Jwt.Payload) (id : nat)
        (st : Db.Store) (e : EnrollPTS.t) :
  Db.findOne (Db.by_id id) (Db.enrollments st) = Some e ->
  (Res.success (fst (EnrollPTSController.cancelEnrollment user id st)) = true
   <-> may_cancel user e
       /\ forall s,
           Db.findOne (Db.by_sessionID (EnrollPTS.sessionID e))
                      (Db.physicalTrainings st) = Some s ->
           PhysicalTraining.status s <> "completed")
  /\ (may_cancel user e ->
      forall s,
        Db.findOne (Db.by_sessionID (EnrollPTS.sessionID e))
                   (Db.physicalTrainings st) = Some s ->
        PhysicalTraining.status s <> "completed" ->
        fst (EnrollPTSController.cancelEnrollment user id st)
        = Res.ok 200 "Enrollment canceled successfully" None
        /\ exists l1 l2 p1 p2,
            Db.enrollments st = l1 ++ e :: l2
            /\ forallb (fun y => negb (Db.by_id id y)) l1 = true
            /\ Db.physicalTrainings st = p1 ++ s :: p2
            /\ forallb (fun y => negb (Db.by_sessionID
                                         (EnrollPTS.sessionID e) y)) p1
               = true
            /\ snd (EnrollPTSController.cancelEnrollment user id st)
               = Db.with_physicalTrainings
                   (p1 ++ PhysicalTraining.inc_currentCount (-1) s :: p2)
                   (Db.with_enrollments (l1 ++ l2) st)
            /\ PhysicalTraining.currentCount
                 (PhysicalTraining.inc_currentCount (-1) s)
               = PhysicalTraining.currentCount s - 1
            /\ PhysicalTraining.maxCount
                 (PhysicalTraining.inc_currentCount (-1) s)
               = PhysicalTraining.maxCount s
            /\ PhysicalTraining.status
                 (PhysicalTraining.inc_currentCount (-1) s)
               = PhysicalTraining.status s)
  /\ (may_cancel user e ->
      Db.findOne (Db.by_sessionID (EnrollPTS.sessionID e))
                 (Db.physicalTrainings st) = None ->
      fst (EnrollPTSController.cancelEnrollment user id st)
      = Res.ok 200 "Enrollment canceled successfully" None
      /\ Db.physicalTrainings (snd (EnrollPTSController.cancelEnrollment user id st))
         = Db.physicalTrainings st
      /\ exists l1 l2,
          Db.enrollments st = l1 ++ e :: l2
          /\ forallb (fun y => negb (Db.by_id id y)) l1 = true
          /\ snd (EnrollPTSController.cancelEnrollment user id st)
             = Db.with_enrollments (l1 ++ l2) st).
Proof.
  intros He.
  destruct (findOne_split _ _ _ He) as (l1 & l2 & El & Hpe & Hl1).
  split; [|split].
  - unfold EnrollPTSController.cancelEnrollment. rewrite He.
    destruct (_ && _)%bool eqn:Hauth.
    + simpl. split; [discriminate|]. intros [Hmay _].
      rewrite (may_cancel_check _ _ Hmay) in Hauth. discriminate.
    + assert (Hmay : may_cancel user e).
      { apply andb_false_iff in Hauth as [H|H]; apply negb_false_iff in H.
        - left. now apply String.eqb_eq.
        - right. unfold Js.truthy_flag in H.
          destruct (Jwt.isAdmin user) as [[|]|]; [reflexivity | |];
            discriminate. }
      destruct (Db.findOne (Db.by_sessionID _) _) as [s|] eqn:Hs.
      * destruct (String.eqb (PhysicalTraining.status s) "completed") eqn:Hc;
          simpl.
        -- split; [discriminate|]. intros [_ Hnc].
           apply String.eqb_eq in Hc. now contradiction (Hnc s eq_refl).
        -- split; [|reflexivity]. intros _. split; [exact Hmay|].
           intros s' [= <-]. now apply String.eqb_neq.
      * simpl. split; [|reflexivity]. intros _. split; [exact Hmay|].
        discriminate.
  - intros Hmay s Hs Hnc.
    destruct (findOne_split _ _ _ Hs) as (p1 & p2 & Ep & Hps & Hp1).
    unfold EnrollPTSController.cancelEnrollment.
    rewrite He, (may_cancel_check _ _ Hmay), Hs.
    apply String.eqb_neq in Hnc. rewrite Hnc. simpl.
    split; [reflexivity|].
    exists l1, l2, p1, p2. repeat split; try assumption.
    rewrite El, Ep.
    rewrite (findOneAndDelete_skip _ l1 l2 e Hl1 Hpe).
    rewrite (findOneAndUpdate_skip _ _ p1 p2 s Hp1 Hps).
    reflexivity.
  - intros Hmay Hs.
    unfold EnrollPTSController.cancelEnrollment.
    rewrite He, (may_cancel_check _ _ Hmay), Hs. simpl.
    repeat split.
    exists l1, l2. split; [assumption|]. split; [assumption|].
    rewrite El, (findOneAndDelete_skip _ l1 l2 e Hl1 Hpe). reflexivity.
Qed.

Lemma cancelEnrollment_effect_witness :
  (Db.findOne (Db.by_id 1) (Db.enrollments Sample.store_open)
     = Some Sample.alice_row
   /\ Db.physicalTrainings Sample.store_open = [Sample.open_session]
   /\ PhysicalTraining.currentCount Sample.open_session = 1
   /\ fst (EnrollPTSController.cancelEnrollment Sample.alice_token 1
             Sample.store_open)
      = Res.ok 200 "Enrollment canceled successfully" None
   /\ Db.enrollments (snd (EnrollPTSController.cancelEnrollment
                             Sample.alice_token 1 Sample.store_open)) = []
   /\ exists s',
       Db.physicalTrainings (snd (EnrollPTSController.cancelEnrollment
                                    Sample.alice_token 1 Sample.store_open))
       = [s']
       /\ PhysicalTraining.currentCount s' = 0)
  /\ (Db.findOne (Db.by_id 1) (Db.enrollments Sample.store_orphan)
        = Some Sample.alice_row
      /\ fst (EnrollPTSController.cancelEnrollment Sample.alice_token 1
                Sample.store_orphan)
         = Res.ok 200 "Enrollment canceled successfully" None
      /\ Db.enrollments (snd (EnrollPTSController.cancelEnrollment
                                Sample.alice_token 1 Sample.store_orphan)) = []
      /\ Db.physicalTrainings (snd (EnrollPTSController.cancelEnrollment
                                      Sample.alice_token 1 Sample.store_orphan))
         = Db.physicalTrainings Sample.store_orphan).
Proof.
  split.
  - destruct (cancelEnrollment_effect Sample.alice_token 1 Sample.store_open
                Sample.alice_row eq_refl) as (_ & Hlive & _).
    destruct (Hlive (or_introl eq_refl) Sample.open_session eq_refl)
      as (Hres & l1 & l2 & p1 & p2 & El & _ & Ep & _ & Hst & Hcount & _);
      [discriminate|].
    apply singleton_split in El as (-> & -> & _).
    apply singleton_split in Ep as (-> & -> & _).
    split; [reflexivity|]. split; [reflexivity|]. split; [reflexivity|].
    split; [exact Hres|]. split; [now rewrite Hst|].
    exists (PhysicalTraining.inc_currentCount (-1) Sample.open_session).
    split; [now rewrite Hst | exact Hcount].
  - destruct (cancelEnrollment_effect Sample.alice_token 1 Sample.store_orphan
                Sample.alice_row eq_refl) as (_ & _ & Hgone).
    destruct (Hgone (or_introl eq_refl) eq_refl)
      as (Hres & Hpts & l1 & l2 & El & _ & Hst).
    apply singleton_split in El as (-> & -> & _).
    split; [reflexivity|]. split; [exact Hres|].
    split; [now rewrite Hst | exact Hpts].
Defined.

(** ** Deleting a session *)

Lemma findOne_absent {A : Type} (p : A -> bool) (c : list A) :
  (forall x, In x c -> p x = false) -> Db.findOne p c = None.
Proof.
  unfold Db.findOne.
  induction c as [|y r IH]; simpl; intros H; [reflexivity|].
  rewrite (H y (or_introl eq_refl)). apply IH. intros x Hx. apply H. now right.
Qed.



(** ** Session identifiers *)

Lemma length_append (a b : string) :
  String.length (a ++ b)%string = (String.length a + String.length b)%nat.
Proof. induction a as [|c a IH]; simpl; [reflexivity | now rewrite IH]. Qed.

Lemma length_repeat_char (c : ascii) (n : nat) :
  String.length (Js.repeat_char c n) = n.
Proof. induction n as [|n IH]; simpl; [reflexivity | now rewrite IH]. Qed.

(** [padStart] never shortens, and fills up to the target length. *)
Lemma length_padStart (n : nat) (c : ascii) (s : string) :
  String.length (Js.padStart n c s) = Nat.max n (String.length s).
Proof.
  unfold Js.padStart. rewrite length_append, length_repeat_char. lia.
Qed.

(** Zeros in front do not change the number that is read back. *)
Lemma Number_of_zeros (k : nat) (s : string) :
  Js.Number_of (Js.repeat_char "0" k ++ s)%string = Js.Number_of s.
Proof.
  unfold Js.Number_of.
  induction k as [|k IH]; simpl; [reflexivity|].
  destruct (NilEmpty.uint_of_string (Js.repeat_char "0" k ++ s)) as [d|];
    destruct (NilEmpty.uint_of_string s) as [d'|]; simpl in *;
    try discriminate; try reflexivity.
  injection IH as IH. f_equal. unfold Z.of_uint in *. simpl. exact IH.
Qed.

(** [String(n)] reads back as [n] for a non-negative integer. *)
Lemma Number_of_String_of (n : Z) :
  0 <= n -> Js.Number_of (Js.String_of n) = Some n.
Proof.
  intros Hn. unfold Js.Number_of, Js.String_of.
  destruct n as [|p|p]; [reflexivity| |lia].
  simpl. pose proof (Unsigned.of_to p) as Hp.
  destruct (Pos.to_uint p) eqn:E; try discriminate;
    unfold NilZero.string_of_uint; rewrite NilEmpty.usu; simpl;
    unfold Z.of_uint; rewrite Hp; reflexivity.
Qed.

(** Up to 9999 the decimal form has at most four characters. *)
Lemma String_of_short (n : Z) :
  0 <= n <= 9999 -> (String.length (Js.String_of n) <= 4)%nat.
Proof.
  intros Hn.
  assert (Hall :
    forallb (fun k => Nat.leb (String.length (Js.String_of (Z.of_nat k))) 4)
            (seq 0 (Z.to_nat 10000)) = true) by (vm_compute; reflexivity).
  rewrite forallb_forall in Hall.
  specialize (Hall (Z.to_nat n)).
  rewrite Z2Nat.id in Hall by lia.
  apply Nat.leb_le, Hall, in_seq. lia.
Qed.

(** The digits of an identifier: they read back as the counter value, are
    at least four, and exactly four up to 9999. *)
Lemma padded_digits (n : Z) :
  0 <= n ->
  Js.Number_of (Js.padStart 4 "0" (Js.String_of n)) = Some n
  /\ (4 <= String.length (Js.padStart 4 "0" (Js.String_of n)))%nat
  /\ (n <= 9999 -> String.length (Js.padStart 4 "0" (Js.String_of n)) = 4%nat).
Proof.
  intros Hn. split; [|split].
  - unfold Js.padStart. rewrite Number_of_zeros. now apply Number_of_String_of.
  - rewrite length_padStart. lia.
  - intros Hmax. rewrite length_padStart.
    pose proof (String_of_short n (conj Hn Hmax)). lia.
Qed.

Lemma findOne_None_forallb {A : Type} (p : A -> bool) (c : list A) :
  Db.findOne p c = None -> forallb (fun y => negb (p y)) c = true.
Proof.
  intros H. apply forallb_forall. intros x Hx.
  now rewrite (findOne_None p c H x Hx).
Qed.

(** The upsert leaves the named counter at [next_value]. *)
Lemma inc_counter_value (sequenceName : string) (st : Db.Store) :
  Counter.value
    (fst (PhysicalTrainingController.inc_counter sequenceName (Db.counters st)))
  = next_value sequenceName st
  /\ exists c,
      Db.findOne (Db.by_name sequenceName)
        (snd (PhysicalTrainingController.inc_counter sequenceName
                (Db.counters st))) = Some c
      /\ Counter.value c = next_value sequenceName st.
Proof.
  unfold PhysicalTrainingController.inc_counter, next_value.
  destruct (Db.findOne (Db.by_name sequenceName) (Db.counters st))
    as [c|] eqn:Hc; simpl.
  - split; [reflexivity|].
    destruct (findOne_split _ _ _ Hc) as (l1 & l2 & El & Hpc & Hl1).
    rewrite El, (findOneAndUpdate_skip _ _ l1 l2 c Hl1 Hpc).
    eexists. split; [apply findOne_skip; [exact Hl1 | exact Hpc] | reflexivity].
  - split; [reflexivity|].
    exists (Counter.mk sequenceName 1). split; [|reflexivity].
    unfold Db.save.
    apply findOne_skip; [now apply findOne_None_forallb|].
    unfold Db.by_name. simpl. apply String.eqb_refl.
Qed.

(** The checks a create request must pass are enough for it to succeed. *)
Lemma createPhysicalTraining_accepts
      (b : PhysicalTrainingController.CreateBody) (st : Db.Store)
      (d t l v i : string) (m : Z) (veh : Vehicle.t) (ins : Instructor.t) :
  PhysicalTrainingController.date b = Some d -> d <> EmptyString ->
  PhysicalTrainingController.time b = Some t -> t <> EmptyString ->
  PhysicalTrainingController.location b = Some l -> l <> EmptyString ->
  PhysicalTrainingController.vehicleID b = Some v -> v <> EmptyString ->
  PhysicalTrainingController.instructorID b = Some i -> i <> EmptyString ->
  PhysicalTrainingController.maxCount b = Some m -> m <> 0 ->
  Db.findOne (Db.by_vehicleID v) (Db.vehicles st) = Some veh ->
  Db.findOne (Db.by_InstructorID i) (Db.instructors st) = Some ins ->
  Res.success (fst (PhysicalTrainingController.createPhysicalTraining b st))
  = true.
Proof.
  intros Hd Hd' Ht Ht' Hl Hl' Hv Hv' Hi Hi' Hm Hm' Hveh Hins.
  unfold PhysicalTrainingController.createPhysicalTraining.
  rewrite Hd, Ht, Hl, Hv, Hi, Hm.
  rewrite !falsy_str_Some by assumption.
  apply Z.eqb_neq in Hm'. simpl Js.falsy_num. rewrite Hm'. simpl orb.
  rewrite Hveh, Hins.
  destruct (PhysicalTrainingController.getNextSequenceValue "sessionID" st).
  reflexivity.
Qed.

(** C8: every create request that succeeds is answered 201 with the new
    session, which is appended to the collection; its identifier is [PT]
    followed by the incremented counter value padded with zeros to four
    digits, its [currentCount] is 0 and its status is [pending]; the vehicle
    and instructor it names exist.  The digits read back as the counter
    value, and there are exactly four of them while the counter is at most
    9999. *)
Theorem createPhysicalTraining_new_session
        (b : PhysicalTrainingController.CreateBody) (st : Db.Store) :
  Res.success (fst (PhysicalTrainingController.createPhysicalTraining b st))
  = true ->
  let n := next_value "sessionID" st in
  let digits := Js.padStart 4 "0" (Js.String_of n) in
  exists session,
    fst (PhysicalTrainingController.createPhysicalTraining b st)
    = Res.ok 201 "Physical training session created successfully"
             (Some session)
    /\ Db.physicalTrainings
         (snd (PhysicalTrainingController.createPhysicalTraining b st))
       = Db.physicalTrainings st ++ [session]
    /\ PhysicalTraining.sessionID session = ("PT" ++ digits)%string
    /\ PhysicalTraining.currentCount session = 0
    /\ PhysicalTraining.status session = "pending"
    /\ PhysicalTrainingController.maxCount b
       = Some (PhysicalTraining.maxCount session)
    /\ (exists veh ins,
           Db.findOne (Db.by_vehicleID (PhysicalTraining.vehicleID session))
                      (Db.vehicles st) = Some veh
           /\ Db.findOne
                (Db.by_InstructorID (PhysicalTraining.instructorID session))
                (Db.instructors st) = Some ins)
    /\ (exists c,
           Db.findOne (Db.by_name "sessionID")
             (Db.counters
                (snd (PhysicalTrainingController.createPhysicalTraining b st)))
           = Some c
           /\ Counter.value c = n)
    /\ (0 <= n ->
        Js.Number_of digits = Some n
        /\ (4 <= String.length digits)%nat
        /\ (n <= 9999 -> String.length digits = 4%nat)).
Proof.
  intros Hok n digits. revert Hok.
  unfold PhysicalTrainingController.createPhysicalTraining.
  destruct (PhysicalTrainingController.date b) as [d|]; [|discriminate].
  destruct (PhysicalTrainingController.time b) as [t|]; [|discriminate].
  destruct (PhysicalTrainingController.location b) as [l|]; [|discriminate].
  destruct (PhysicalTrainingController.vehicleID b) as [v|]; [|discriminate].
  destruct (PhysicalTrainingController.instructorID b) as [i|]; [|discriminate].
  destruct (PhysicalTrainingController.maxCount b) as [m|]; [|discriminate].
  destruct (_ || _)%bool; [discriminate|].
  destruct (Db.findOne (Db.by_vehicleID v) _) as [veh|] eqn:Hveh;
    [|discriminate].
  destruct (Db.findOne (Db.by_InstructorID i) _) as [ins|] eqn:Hins;
    [|discriminate].
  unfold PhysicalTrainingController.getNextSequenceValue.
  destruct (inc_counter_value "sessionID" st) as [Hval (c & Hc & Hcv)].
  destruct (PhysicalTrainingController.inc_counter "sessionID" (Db.counters st))
    as [counter cs] eqn:Einc.
  simpl in Hval, Hc. simpl. intros _.
  eexists. split; [reflexivity|]. simpl.
  split; [reflexivity|].
  split; [subst digits n; now rewrite Hval|].
  split; [reflexivity|]. split; [reflexivity|]. split; [reflexivity|].
  split; [exists veh, ins; split; assumption|].
  split; [exists c; split; assumption|].
  intros Hn. now apply padded_digits.
Qed.

Lemma createPhysicalTraining_new_session_witness :
  Res.success (fst (PhysicalTrainingController.createPhysicalTraining
                      (Sample.create_body 2) Sample.store0)) = true
  /\ exists session,
      fst (PhysicalTrainingController.createPhysicalTraining
             (Sample.create_body 2) Sample.store0)
      = Res.ok 201 "Physical training session created successfully"
               (Some session)
      /\ PhysicalTraining.sessionID session = "PT0001"
      /\ PhysicalTraining.currentCount session = 0
      /\ PhysicalTraining.status session = "pending".
Proof.
  split; [reflexivity|].
  destruct (createPhysicalTraining_new_session (Sample.create_body 2)
              Sample.store0 eq_refl)
    as (session & Hres & _ & Hid & Hcount & Hstatus & _).
  exists session. repeat split; assumption.
Defined.

(** ** Updating the status of an enrollment *)

(** The PATCH route reaches the handler for every verified token, whatever
    flags its payload carries. *)
Lemma patch_enroll_pts_any_payload (env : Env) (tk : Jwt.Token)
      (p : Jwt.Payload) (id : nat) (v : option string) (st : Db.Store) :
  Jwt.verify tk (Jwt.JWT_SECRET env) (now_ms env) = Some p ->
  Routes.patch_enroll_pts env (Some tk) id v st
  = EnrollPTSController.updateEnrollmentStatus id v st.
Proof.
  intros H. unfold Routes.patch_enroll_pts, Middleware.authenticate.
  now rewrite H.
Qed.

(** The handler sets the status of the row it finds. *)
Lemma updateEnrollmentStatus_sets (id : nat) (v : string) (st : Db.Store)
      (e : EnrollPTS.t) :
  v <> EmptyString ->
  Js.includes ["pending"; "completed"; "absent"] v = true ->
  Db.findOne (Db.by_id id) (Db.enrollments st) = Some e ->
  Res.status (fst (EnrollPTSController.updateEnrollmentStatus id (Some v) st))
    = 200
  /\ exists l1 l2,
      Db.enrollments st = l1 ++ e :: l2
      /\ snd (EnrollPTSController.updateEnrollmentStatus id (Some v) st)
         = Db.with_enrollments (l1 ++ EnrollPTS.set_status v e :: l2) st.
Proof.
  intros Hv Hin He.
  unfold EnrollPTSController.updateEnrollmentStatus.
  rewrite (falsy_str_Some _ Hv), Hin, He. simpl.
  split; [reflexivity|].
  destruct (findOne_split _ _ _ He) as (l1 & l2 & El & Hpe & Hl1).
  exists l1, l2. split; [assumption|].
  now rewrite El, (findOneAndUpdate_skip _ _ l1 l2 e Hl1 Hpe).
Qed.

(** C6 (fails on the code): alice is a student; the token her login issues
    carries neither the admin nor the instructor flag.  Sent with a PATCH
    for enrollment 1 and status [completed], it is answered 200 and the
    stored row becomes [completed]: the route has no role gate and the
    handler checks no role. *)
Theorem patch_enrollment_status_open_to_any_caller :
  exists tk,
    option_map AuthController.token
      (Res.data (fst (AuthController.login Sample.env0 Sample.alice_login
                        Sample.store_open))) = Some tk
    /\ Js.truthy_flag (Jwt.isAdmin (Jwt.claims tk)) = false
    /\ Js.truthy_flag (Jwt.isInstructor (Jwt.claims tk)) = false
    /\ Res.status (fst (Routes.patch_enroll_pts Sample.env1 (Some tk) 1
                          (Some "completed") Sample.store_open)) = 200
    /\ Res.success (fst (Routes.patch_enroll_pts Sample.env1 (Some tk) 1
                           (Some "completed") Sample.store_open)) = true
    /\ Db.enrollments (Sample.store_open) = [Sample.alice_row]
    /\ EnrollPTS.status Sample.alice_row = "pending"
    /\ Db.enrollments (snd (Routes.patch_enroll_pts Sample.env1 (Some tk) 1
                              (Some "completed") Sample.store_open))
       = [EnrollPTS.set_status "completed" Sample.alice_row].
Proof.
  eexists. split; [vm_compute; reflexivity|].
  repeat split; vm_compute; reflexivity.
Qed.

(** ** Tokens *)

(** What [register] signs: the id and email of the stored user, valid for
    24 hours, and none of the role flags. *)
Lemma register_token (env : Env) (b : AuthController.RegisterBody)
      (st : Db.Store) (d : AuthController.AuthData) :
  Res.data (fst (AuthController.register env b st)) = Some d ->
  Jwt.id (Jwt.claims (AuthController.token d))
    = AuthController.r_userID (AuthController.user d)
  /\ Jwt.email (Jwt.claims (AuthController.token d))
     = AuthController.r_email (AuthController.user d)
  /\ Jwt.exp (AuthController.token d) - Jwt.iat (AuthController.token d) = 86400
  /\ Jwt.isStudent (Jwt.claims (AuthController.token d)) = None
  /\ Jwt.isInstructor (Jwt.claims (AuthController.token d)) = None
  /\ Jwt.isAdmin (Jwt.claims (AuthController.token d)) = None.
Proof.
  unfold AuthController.register, Jwt.JWT_EXPIRES_IN.
  destruct (Db.findOne _ _); [discriminate|].
  destruct (AuthController.password b); [|discriminate].
  rewrite sign_24h. simpl. intros [= <-]. simpl.
  repeat split; lia.
Qed.

(** What [login] signs: the same payload as [register]. *)
Lemma login_token (env : Env) (b : AuthController.LoginBody)
      (st : Db.Store) (d : AuthController.AuthData) :
  Res.data (fst (AuthController.login env b st)) = Some d ->
  Jwt.id (Jwt.claims (AuthController.token d))
    = AuthController.r_userID (AuthController.user d)
  /\ Jwt.email (Jwt.claims (AuthController.token d))
     = AuthController.r_email (AuthController.user d)
  /\ Jwt.exp (AuthController.token d) - Jwt.iat (AuthController.token d) = 86400
  /\ Jwt.isStudent (Jwt.claims (AuthController.token d)) = None
  /\ Jwt.isInstructor (Jwt.claims (AuthController.token d)) = None
  /\ Jwt.isAdmin (Jwt.claims (AuthController.token d)) = None.
Proof.
  unfold AuthController.login, Jwt.JWT_EXPIRES_IN.
  destruct (AuthController.l_email b) as [em|]; [|discriminate].
  destruct (AuthController.l_password b) as [pw|]; [|discriminate].
  destruct (_ || _)%bool; [discriminate|].
  destruct (Db.findOne _ _) as [u|]; [|discriminate].
  destruct (bcrypt_compare env pw _); [|discriminate].
  rewrite sign_24h. simpl. intros [= <-]. simpl.
  repeat split; lia.
Qed.

(** What [instructorLogin] signs: id, email, and the instructor flag set. *)
Lemma instructorLogin_token (env : Env) (b : AuthController.LoginBody)
      (st : Db.Store) (d : InstructorController.AuthData) :
  Res.data (fst (InstructorController.instructorLogin env b st)) = Some d ->
  Jwt.id (Jwt.claims (InstructorController.token d))
    = InstructorController.r_InstructorID (InstructorController.instructor d)
  /\ Jwt.email (Jwt.claims (InstructorController.token d))
     = InstructorController.r_email (InstructorController.instructor d)
  /\ Jwt.exp (InstructorController.token d)
     - Jwt.iat (InstructorController.token d) = 86400
  /\ Jwt.isInstructor (Jwt.claims (InstructorController.token d)) = Some true.
Proof.
  unfold InstructorController.instructorLogin.
  destruct (AuthController.l_email b) as [em|]; [|discriminate].
  destruct (AuthController.l_password b) as [pw|]; [|discriminate].
  destruct (_ || _)%bool; [discriminate|].
  destruct (Db.findOne _ _) as [i|]; [|discriminate].
  destruct (bcrypt_compare env pw _); [|discriminate].
  rewrite sign_24h. simpl. intros [= <-]. simpl.
  repeat split; lia.
Qed.

(** A token without the student flag never passes the gate of the enroll
    route. *)
Lemma post_enroll_pts_needs_flag (env : Env) (tk : Jwt.Token)
      (sid : option string) (st : Db.Store) :
  Jwt.isStudent (Jwt.claims tk) = None ->
  Res.success (fst (Routes.post_enroll_pts env (Some tk) sid st)) = false
  /\ snd (Routes.post_enroll_pts env (Some tk) sid st) = st.
Proof.
  intros H. unfold Routes.post_enroll_pts, Middleware.authenticate, Jwt.verify.
  destruct (_ && _)%bool; [|split; reflexivity].
  unfold Middleware.isStudent. rewrite H. split; reflexivity.
Qed.

(** C7 (fails on the code): carol registers as a student (the stored
    document has [isStudent = true]).  The token she is issued holds her id
    and email and is valid for 24 hours, but holds no student, instructor or
    admin flag; presented to the enroll route, whose gate reads the student
    flag from the token, it is refused with 403. *)
Theorem user_token_carries_no_role_flag :
  exists d,
    Res.data (fst (AuthController.register Sample.env0 Sample.register_body
                     Sample.store0)) = Some d
    /\ AuthController.r_isStudent (AuthController.user d) = true
    /\ Jwt.id (Jwt.claims (AuthController.token d)) = "uuid-new"
    /\ Jwt.email (Jwt.claims (AuthController.token d)) = "carol@example.org"
    /\ Jwt.exp (AuthController.token d) - Jwt.iat (AuthController.token d)
       = 86400
    /\ Jwt.isStudent (Jwt.claims (AuthController.token d)) = None
    /\ Jwt.isInstructor (Jwt.claims (AuthController.token d)) = None
    /\ Jwt.isAdmin (Jwt.claims (AuthController.token d)) = None
    /\ fst (Routes.post_enroll_pts Sample.env1 (Some (AuthController.token d))
              (Some "PT0001")
              (snd (AuthController.register Sample.env0 Sample.register_body
                      Sample.store0)))
       = Res.fail 403 "Access denied. Student role required.".
Proof.
  eexists. split; [vm_compute; reflexivity|].
  repeat split; vm_compute; reflexivity.
Qed.

(** ** Registration *)

(** C9: when registration succeeds, exactly one user document is stored;
    its [isStudent] is [true] if the body omits the field and is the
    supplied value otherwise. *)
Theorem register_isStudent_default (env : Env)
        (b : AuthController.RegisterBody) (st : Db.Store) :
  Res.success (fst (AuthController.register env b st)) = true ->
  exists u,
    Db.users (snd (AuthController.register env b st)) = Db.users st ++ [u]
    /\ User.email u = AuthController.email b
    /\ (AuthController.isStudent b = None -> User.isStudent u = true)
    /\ (forall v, AuthController.isStudent b = Some v -> User.isStudent u = v).
Proof.
  unfold AuthController.register, Jwt.JWT_EXPIRES_IN.
  destruct (Db.findOne _ _); [discriminate|].
  destruct (AuthController.password b) as [pw|]; [|discriminate].
  rewrite sign_24h. simpl. intros _.
  eexists. split; [reflexivity|]. simpl.
  split; [reflexivity|]. split.
  - intros ->. reflexivity.
  - intros v ->. reflexivity.
Qed.

Lemma register_isStudent_default_witness :
  Res.success (fst (AuthController.register Sample.env0 Sample.register_body
                      Sample.store0)) = true
  /\ (exists u,
         Db.users (snd (AuthController.register Sample.env0
                          Sample.register_body Sample.store0))
         = Db.users Sample.store0 ++ [u]
         /\ User.isStudent u = true)
  /\ (exists u,
         Db.users (snd (AuthController.register Sample.env0
                          (AuthController.mkRegisterBody
                             None None None (Some "pw") "dan@example.org"
                             None None None (Some false))
                          Sample.store0))
         = Db.users Sample.store0 ++ [u]
         /\ User.isStudent u = false).
Proof.
  split; [reflexivity|]. split.
  - destruct (register_isStudent_default Sample.env0 Sample.register_body
                Sample.store0 eq_refl) as (u & Hu & _ & Hdef & _).
    exists u. split; [exact Hu | exact (Hdef eq_refl)].
  - destruct (register_isStudent_default Sample.env0
                (AuthController.mkRegisterBody
                   None None None (Some "pw") "dan@example.org"
                   None None None (Some false))
                Sample.store0 eq_refl) as (u & Hu & _ & _ & Hgiven).
    exists u. split; [exact Hu | exact (Hgiven false eq_refl)].
Defined.

(** C10: the duplicate check of [register] looks at the email only.  A
    request whose email no stored user has, and that carries a password, is
    answered 201 and its user is stored, also when a stored user already has
    the same username: both documents are then in the collection.  A
    request whose email a stored user has is refused with the message that
    names the username as well. *)
Theorem register_checks_email_only (env : Env)
        (b : AuthController.RegisterBody) (st : Db.Store) :
  (forall pw,
      (forall u, In u (Db.users st) -> User.email u <> AuthController.email b) ->
      AuthController.password b = Some pw ->
      Res.status (fst (AuthController.register env b st)) = 201
      /\ Res.success (fst (AuthController.register env b st)) = true
      /\ exists new,
          Db.users (snd (AuthController.register env b st))
          = Db.users st ++ [new]
          /\ User.username new = AuthController.username b
          /\ User.email new = AuthController.email b
          /\ forall old,
              In old (Db.users st) ->
              User.username old = AuthController.username b ->
              In old (Db.users (snd (AuthController.register env b st)))
              /\ In new (Db.users (snd (AuthController.register env b st)))
              /\ User.username old = User.username new
              /\ old <> new)
  /\ (forall old,
         In old (Db.users st) -> User.email old = AuthController.email b ->
         AuthController.register env b st
         = (Res.fail 400 "User with this email or username already exists", st)).
Proof.
  split.
  - intros pw Hfresh Hpw.
    unfold AuthController.register, Jwt.JWT_EXPIRES_IN.
    rewrite (findOne_absent (Db.by_email (AuthController.email b)) (Db.users st)).
    + rewrite Hpw, sign_24h. simpl.
      split; [reflexivity|]. split; [reflexivity|].
      eexists. split; [reflexivity|]. simpl.
      split; [reflexivity|]. split; [reflexivity|].
      intros old Hold Hname. unfold Db.save.
      split; [apply in_or_app; now left|].
      split; [apply in_or_app; right; now left|].
      split; [exact Hname|].
      intros ->. exact (Hfresh _ Hold eq_refl).
    + intros u Hu. unfold Db.by_email. apply String.eqb_neq. now apply Hfresh.
  - intros old Hold Hemail.
    unfold AuthController.register.
    destruct (Db.findOne (Db.by_email (AuthController.email b)) (Db.users st))
      eqn:E; [reflexivity|].
    pose proof (findOne_None _ _ E old Hold) as Hno.
    unfold Db.by_email in Hno. rewrite Hemail, String.eqb_refl in Hno.
    discriminate.
Qed.

Lemma register_checks_email_only_witness :
  User.username Sample.alice = AuthController.username Sample.register_body
  /\ Res.status (fst (AuthController.register Sample.env0 Sample.register_body
                        Sample.store0)) = 201
  /\ AuthController.register Sample.env0 Sample.same_email_body Sample.store0
     = (Res.fail 400 "User with this email or username already exists",
        Sample.store0).
Proof.
  split; [reflexivity|]. split.
  - destruct (register_checks_email_only Sample.env0 Sample.register_body
                Sample.store0) as [Hfresh _].
    destruct (Hfresh "pw-c") as [Hcode _]; [|reflexivity|exact Hcode].
    intros u [<-|[<-|[]]]; discriminate.
  - destruct (register_checks_email_only Sample.env0 Sample.same_email_body
                Sample.store0) as [_ Hdup].
    apply (Hdup Sample.alice); [left; reflexivity | reflexivity].
Defined.

(** * Further properties of the handlers *)

(** ** More facts on the store primitives *)

Lemma map_findOneAndUpdate {A B : Type} (p : A -> bool) (f : A -> A)
      (g : A -> B) (c : list A) :
  (forall x, g (f x) = g x) ->
  map g (Db.findOneAndUpdate p f c) = map g c.
Proof.
  intros Hg. induction c as [|y r IH]; simpl; [reflexivity|].
  destruct (p y); simpl; [now rewrite Hg | now rewrite IH].
Qed.

Lemma findOne_after_update {A : Type} (p : A -> bool) (f : A -> A)
      (c : list A) (x : A) :
  Db.findOne p c = Some x -> p (f x) = true ->
  Db.findOne p (Db.findOneAndUpdate p f c) = Some (f x).
Proof.
  intros Hx Hfx.
  destruct (findOne_split p c x Hx) as (l1 & l2 & -> & Hpx & Hl1).
  rewrite (findOneAndUpdate_skip p f l1 l2 x Hl1 Hpx).
  now apply findOne_skip.
Qed.

Lemma inc_currentCount_undo (s : PhysicalTraining.t) :
  PhysicalTraining.inc_currentCount (-1)
    (PhysicalTraining.inc_currentCount 1 s) = s.
Proof.
  destruct s. unfold PhysicalTraining.inc_currentCount. simpl.
  f_equal. lia.
Qed.

Lemma store_eta (st : Db.Store) :
  Db.mkStore (Db.users st) (Db.instructors st) (Db.vehicles st)
             (Db.physicalTrainings st) (Db.enrollments st) (Db.counters st)
  = st.
Proof. now destruct st. Qed.

Lemma with_enrollments_same (st : Db.Store) :
  Db.with_enrollments (Db.enrollments st) st = st.
Proof. now destruct st. Qed.

(** ** Enrolling and cancelling *)

(** What a successful enroll request has checked and done. *)
Lemma enroll_effect (env : Env) (user : Jwt.Payload)
      (sid : option string) (st : Db.Store) :
  Res.success (fst (EnrollPTSController.enrollStudent env user sid st)) = true ->
  exists sidv u s p1 p2,
    sid = Some sidv
    /\ Db.findOne (Db.by_userID (Jwt.id user)) (Db.users st) = Some u
    /\ Db.findOne (Db.by_sessionID sidv) (Db.physicalTrainings st) = Some s
    /\ Db.physicalTrainings st = p1 ++ s :: p2
    /\ forallb (fun y => negb (Db.by_sessionID sidv y)) p1 = true
    /\ PhysicalTraining.status s = "pending"
    /\ PhysicalTraining.currentCount s < PhysicalTraining.maxCount s
    /\ Db.findOne (Db.by_user_session (Jwt.id user) sidv) (Db.enrollments st)
       = None
    /\ EnrollPTSController.enrollStudent env user sid st
       = (Res.ok 201 "Successfully enrolled in physical training session"
                 (Some (EnrollPTS.mk (newObjectId env) (Jwt.id user) sidv
                                     "pending" (now_ms env))),
          Db.with_physicalTrainings
            (p1 ++ PhysicalTraining.inc_currentCount 1 s :: p2)
            (Db.with_enrollments
               (Db.enrollments st
                ++ [EnrollPTS.mk (newObjectId env) (Jwt.id user) sidv
                                 "pending" (now_ms env)]) st)).
Proof.
  unfold EnrollPTSController.enrollStudent.
  destruct sid as [sidv|]; [|discriminate].
  destruct (Js.falsy_str (Some sidv)); [discriminate|].
  destruct (Db.findOne (Db.by_userID _) _) as [u|] eqn:Hu; [|discriminate].
  destruct (Db.findOne (Db.by_sessionID sidv) _) as [s|] eqn:Hs; [|discriminate].
  destruct (negb _) eqn:Hp; [discriminate|].
  destruct (_ <=? _) eqn:Hfull; [discriminate|].
  destruct (Db.findOne (Db.by_user_session _ _) _) eqn:Hrow; [discriminate|].
  intros _.
  destruct (findOne_split _ _ _ Hs) as (p1 & p2 & Ep & Hps & Hp1).
  exists sidv, u, s, p1, p2.
  apply negb_false_iff, String.eqb_eq in Hp. apply Z.leb_gt in Hfull.
  repeat split; try assumption.
  simpl. rewrite Ep, (findOneAndUpdate_skip _ _ p1 p2 s Hp1 Hps).
  reflexivity.
Qed.



(** Enrolling and then cancelling the new row gives the store back exactly
    as it was, provided the ObjectId of the new row is not the [_id] of an
    older row. *)
Theorem enroll_then_cancel_restores (env : Env) (user : Jwt.Payload)
        (sid : option string) (st : Db.Store) :
  Res.success (fst (EnrollPTSController.enrollStudent env user sid st)) = true ->
  (forall e, In e (Db.enrollments st) -> EnrollPTS._id e <> newObjectId env) ->
  EnrollPTSController.cancelEnrollment user (newObjectId env)
    (snd (EnrollPTSController.enrollStudent env user sid st))
  = (Res.ok 200 "Enrollment canceled successfully" None, st).
Proof.
  intros Hok Hfresh.
  destruct (enroll_effect env user sid st Hok)
    as (sidv & u & s & p1 & p2 & -> & Hu & Hs & Ep & Hp1 & Hpend & Hlt
        & Hrow & ->).
  destruct (findOne_In _ _ _ Hs) as [_ Hps].
  set (new := EnrollPTS.mk (newObjectId env) (Jwt.id user) sidv "pending"
                           (now_ms env)).
  assert (Hrows : forallb (fun y => negb (Db.by_id (newObjectId env) y))
                          (Db.enrollments st) = true).
  { apply forallb_forall. intros e He. apply negb_true_iff.
    unfold Db.by_id. apply Nat.eqb_neq. now apply Hfresh. }
  assert (Hnew : Db.by_id (newObjectId env) new = true)
    by (unfold Db.by_id; simpl; apply Nat.eqb_refl).
  unfold EnrollPTSController.cancelEnrollment. simpl.
  rewrite (findOne_skip _ (Db.enrollments st) [] new Hrows Hnew).
  simpl. rewrite String.eqb_refl. simpl.
  assert (Hps' : Db.by_sessionID sidv (PhysicalTraining.inc_currentCount 1 s)
                 = true) by exact Hps.
  rewrite (findOne_skip _ p1 p2 _ Hp1 Hps'). simpl. rewrite Hpend. simpl.
  rewrite (findOneAndDelete_skip _ (Db.enrollments st) [] new Hrows Hnew).
  rewrite (findOneAndUpdate_skip _ _ p1 p2 _ Hp1 Hps').
  rewrite inc_currentCount_undo, app_nil_r, <- Ep.
  unfold Db.with_physicalTrainings, Db.with_enrollments. simpl.
  now rewrite store_eta.
Qed.

Lemma enroll_then_cancel_restores_witness :
  Res.success (fst (EnrollPTSController.enrollStudent Sample.env1
                      Sample.bob_token (Some "PT0001") Sample.store_open))
    = true
  /\ EnrollPTSController.cancelEnrollment Sample.bob_token 2
       (snd (EnrollPTSController.enrollStudent Sample.env1 Sample.bob_token
               (Some "PT0001") Sample.store_open))
     = (Res.ok 200 "Enrollment canceled successfully" None, Sample.store_open).
Proof.
  split; [reflexivity|].
  apply (enroll_then_cancel_restores Sample.env1 Sample.bob_token
           (Some "PT0001") Sample.store_open eq_refl).
  intros e [<-|[]]. simpl. discriminate.
Defined.

(** Enrolling succeeds exactly on the sessions that the listing of
    available sessions shows: for a caller whose user document exists and
    who has no row for the session yet, the request for an existing session
    succeeds if and only if that session is in the listing. *)
Theorem enroll_succeeds_iff_listed (env : Env) (user : Jwt.Payload)
        (sid : string) (st : Db.Store) (u : User.t) (s : PhysicalTraining.t)
        (listed : list PhysicalTraining.t) :
  sid <> EmptyString ->
  Db.findOne (Db.by_userID (Jwt.id user)) (Db.users st) = Some u ->
  Db.findOne (Db.by_sessionID sid) (Db.physicalTrainings st) = Some s ->
  Db.findOne (Db.by_user_session (Jwt.id user) sid) (Db.enrollments st) = None ->
  Reply.data (PhysicalTrainingController.getAvailableSessions st) = Some listed ->
  (Res.success (fst (EnrollPTSController.enrollStudent env user (Some sid) st))
   = true <-> In s listed).
Proof.
  intros Hne Hu Hs Hrow Hlist.
  unfold PhysicalTrainingController.getAvailableSessions in Hlist.
  simpl in Hlist. injection Hlist as <-.
  unfold Db.find_all. rewrite filter_In.
  destruct (findOne_In _ _ _ Hs) as [Hin _].
  unfold EnrollPTSController.enrollStudent.
  rewrite (falsy_str_Some _ Hne), Hu, Hs.
  unfold PhysicalTrainingController.available.
  destruct (String.eqb (PhysicalTraining.status s) "pending"); simpl.
  - destruct (Z.leb_spec (PhysicalTraining.maxCount s)
                         (PhysicalTraining.currentCount s)) as [Hle|Hlt].
    + simpl. split; [discriminate|]. intros [_ H].
      apply Z.ltb_lt in H. lia.
    + rewrite Hrow. simpl. split; [|reflexivity]. intros _.
      split; [exact Hin | now apply Z.ltb_lt].
  - split; [discriminate | intros [_ H]; discriminate].
Qed.

Lemma enroll_succeeds_iff_listed_witness :
  In Sample.open_session [Sample.open_session]
  /\ Res.success (fst (EnrollPTSController.enrollStudent Sample.env1
                         Sample.bob_token (Some "PT0001") Sample.store_open))
     = true.
Proof.
  split; [left; reflexivity|].
  apply (enroll_succeeds_iff_listed Sample.env1 Sample.bob_token "PT0001"
           Sample.store_open Sample.bob Sample.open_session
           [Sample.open_session]);
    [discriminate | reflexivity | reflexivity | reflexivity | reflexivity
     | left; reflexivity].
Defined.

(** A cancel request that does not succeed changes nothing; it is answered
    404 (no such row), 403 (the caller is neither the enrolled user nor an
    admin) or 400 (the session is completed). *)
Theorem cancelEnrollment_failure (user : Jwt.Payload) (id : nat)
        (st : Db.Store) :
  Res.success (fst (EnrollPTSController.cancelEnrollment user id st)) = false ->
  snd (EnrollPTSController.cancelEnrollment user id st) = st
  /\ ((Db.findOne (Db.by_id id) (Db.enrollments st) = None
       /\ Res.status (fst (EnrollPTSController.cancelEnrollment user id st))
          = 404)
      \/ (exists e,
             Db.findOne (Db.by_id id) (Db.enrollments st) = Some e
             /\ ((~ may_cancel user e
                  /\ Res.status
                       (fst (EnrollPTSController.cancelEnrollment user id st))
                     = 403)
                 \/ (exists s,
                        Db.findOne (Db.by_sessionID (EnrollPTS.sessionID e))
                                   (Db.physicalTrainings st) = Some s
                        /\ PhysicalTraining.status s = "completed"
                        /\ Res.status
                             (fst (EnrollPTSController.cancelEnrollment
                                     user id st)) = 400)))).
Proof.
  unfold EnrollPTSController.cancelEnrollment.
  destruct (Db.findOne (Db.by_id id) _) as [e|] eqn:He.
  - destruct (_ && _)%bool eqn:Hauth.
    + intros _. split; [reflexivity|]. right. exists e. split; [reflexivity|].
      left. split; [|reflexivity].
      intros Hmay. rewrite (may_cancel_check _ _ Hmay) in Hauth. discriminate.
    + destruct (Db.findOne (Db.by_sessionID _) _) as [s|] eqn:Hs.
      * destruct (String.eqb (PhysicalTraining.status s) "completed") eqn:Hc;
          [|simpl; discriminate].
        intros _. split; [reflexivity|]. right. exists e. split; [reflexivity|].
        right. exists s. apply String.eqb_eq in Hc. auto.
      * simpl. discriminate.
  - intros _. split; [reflexivity|]. left. split; reflexivity.
Qed.

Lemma cancelEnrollment_failure_witness :
  Res.success (fst (EnrollPTSController.cancelEnrollment Sample.bob_token 1
                      Sample.store_open)) = false
  /\ snd (EnrollPTSController.cancelEnrollment Sample.bob_token 1
            Sample.store_open) = Sample.store_open.
Proof.
  split; [reflexivity|].
  exact (proj1 (cancelEnrollment_failure Sample.bob_token 1 Sample.store_open
                  eq_refl)).
Defined.

(** The status update of an enrollment stays within the enrollment rows:
    sessions, and with them every capacity counter, are never touched, and
    the rows keep their ids, users and sessions.  A request that fails
    changes nothing; one that succeeds carries one of the three statuses and
    leaves it on the row the id names. *)
Theorem updateEnrollmentStatus_scope (id : nat) (status : option string)
        (st : Db.Store) :
  snd (EnrollPTSController.updateEnrollmentStatus id status st)
  = Db.with_enrollments
      (Db.enrollments (snd (EnrollPTSController.updateEnrollmentStatus
                              id status st))) st
  /\ map EnrollPTS._id
       (Db.enrollments (snd (EnrollPTSController.updateEnrollmentStatus
                               id status st)))
     = map EnrollPTS._id (Db.enrollments st)
  /\ map EnrollPTS.userID
       (Db.enrollments (snd (EnrollPTSController.updateEnrollmentStatus
                               id status st)))
     = map EnrollPTS.userID (Db.enrollments st)
  /\ map EnrollPTS.sessionID
       (Db.enrollments (snd (EnrollPTSController.updateEnrollmentStatus
                               id status st)))
     = map EnrollPTS.sessionID (Db.enrollments st)
  /\ (Res.success (fst (EnrollPTSController.updateEnrollmentStatus
                          id status st)) = false ->
      snd (EnrollPTSController.updateEnrollmentStatus id status st) = st)
  /\ (Res.success (fst (EnrollPTSController.updateEnrollmentStatus
                          id status st)) = true ->
      exists v e,
        status = Some v
        /\ In v ["pending"; "completed"; "absent"]
        /\ Db.findOne (Db.by_id id) (Db.enrollments st) = Some e
        /\ Db.findOne (Db.by_id id)
             (Db.enrollments
                (snd (EnrollPTSController.updateEnrollmentStatus id status st)))
           = Some (EnrollPTS.set_status v e)).
Proof.
  unfold EnrollPTSController.updateEnrollmentStatus.
  destruct status as [v|];
    [|simpl; rewrite with_enrollments_same; repeat split; auto; discriminate].
  destruct (Js.includes _ v) eqn:Hin;
    [|rewrite orb_true_r; simpl; rewrite with_enrollments_same;
      repeat split; auto; discriminate].
  destruct (Js.falsy_str (Some v)) eqn:Hv;
    [simpl; rewrite with_enrollments_same; repeat split; auto; discriminate|].
  cbv [orb negb].
  destruct (Db.findOne (Db.by_id id) _) as [e|] eqn:He;
    [|simpl; rewrite with_enrollments_same; repeat split; auto; discriminate].
  simpl. repeat split.
  - now apply map_findOneAndUpdate.
  - now apply map_findOneAndUpdate.
  - now apply map_findOneAndUpdate.
  - discriminate.
  - intros _. exists v, e. repeat split.
    + unfold Js.includes in Hin. simpl in Hin.
      repeat (apply orb_prop in Hin as [Hin|Hin];
              [apply String.eqb_eq in Hin; subst; simpl; auto|]).
      discriminate.
    + apply findOne_after_update; [exact He|].
      exact (proj2 (findOne_In _ _ _ He)).
Qed.

(** After a successful enroll request the caller's own listing shows the
    new row, together with the session as it now stands, one enrollment
    higher; the listing has grown by one entry. *)
Theorem enrolled_row_is_listed (env : Env) (user : Jwt.Payload)
        (sid : option string) (st : Db.Store) :
  Res.success (fst (EnrollPTSController.enrollStudent env user sid st)) = true ->
  exists sidv s before after,
    sid = Some sidv
    /\ Db.findOne (Db.by_sessionID sidv) (Db.physicalTrainings st) = Some s
    /\ Reply.data (EnrollPTSController.getEnrollmentsByUser user (Jwt.id user) st)
       = Some before
    /\ Reply.data
         (EnrollPTSController.getEnrollmentsByUser user (Jwt.id user)
            (snd (EnrollPTSController.enrollStudent env user sid st)))
       = Some after
    /\ In (EnrollPTSController.mkWithSession
             (EnrollPTS.mk (newObjectId env) (Jwt.id user) sidv "pending"
                           (now_ms env))
             (Some (PhysicalTraining.inc_currentCount 1 s)))
          after
    /\ List.length after = S (List.length before).
Proof.
  intros Hok.
  destruct (enroll_effect env user sid st Hok)
    as (sidv & u & s & p1 & p2 & -> & Hu & Hs & Ep & Hp1 & Hpend & Hlt
        & Hrow & ->).
  destruct (findOne_In _ _ _ Hs) as [_ Hps].
  exists sidv, s.
  unfold EnrollPTSController.getEnrollmentsByUser.
  rewrite String.eqb_refl. simpl.
  eexists. eexists. split; [reflexivity|]. split; [exact Hs|].
  split; [reflexivity|]. split; [reflexivity|].
  unfold Db.find_all. simpl Db.enrollments.
  set (new := EnrollPTS.mk (newObjectId env) (Jwt.id user) sidv "pending"
                           (now_ms env)).
  assert (Hf : filter (Db.by_row_userID (Jwt.id user))
                      (Db.enrollments st ++ [new])
               = filter (Db.by_row_userID (Jwt.id user)) (Db.enrollments st)
                 ++ [new]).
  { rewrite filter_app. simpl. unfold Db.by_row_userID at 2. simpl.
    now rewrite String.eqb_refl. }
  rewrite Hf, map_app. split.
  - apply in_or_app. right. left.
    unfold EnrollPTSController.with_session. simpl. f_equal.
    now apply findOne_skip.
  - rewrite length_app, !length_map. simpl. lia.
Qed.

Lemma enrolled_row_is_listed_witness :
  Res.success (fst (EnrollPTSController.enrollStudent Sample.env1
                      Sample.bob_token (Some "PT0001") Sample.store_open))
    = true
  /\ exists after,
      Reply.data
        (EnrollPTSController.getEnrollmentsByUser Sample.bob_token "u-bob"
           (snd (EnrollPTSController.enrollStudent Sample.env1
                   Sample.bob_token (Some "PT0001") Sample.store_open)))
      = Some after
      /\ List.length after = 1%nat.
Proof.
  split; [reflexivity|].
  destruct (enrolled_row_is_listed Sample.env1 Sample.bob_token
              (Some "PT0001") Sample.store_open eq_refl)
    as (sidv & s & before & after & _ & _ & Hb & Ha & _ & Hlen).
  exists after. split; [exact Ha|].
  injection Hb as <-. exact Hlen.
Defined.

(** ** Enrollment statistics *)

Lemma obj_get_set {V : Type} (k k' : string) (v : V) (o : list (string * V)) :
  Js.obj_get k (Js.obj_set k' v o)
  = if String.eqb k' k then Some v else Js.obj_get k o.
Proof.
  induction o as [|[k0 v0] r IH]; simpl.
  - destruct (String.eqb k' k); reflexivity.
  - destruct (String.eqb k0 k') eqn:E0; simpl.
    + apply String.eqb_eq in E0. subst k0.
      destruct (String.eqb k' k); reflexivity.
    + destruct (String.eqb k0 k) eqn:E1; [|exact IH].
      apply String.eqb_eq in E1. subst k0.
      apply String.eqb_neq in E0.
      assert (E : String.eqb k' k = false)
        by (apply String.eqb_neq; congruence).
      now rewrite E.
Qed.

(** Assigning a list of entries one after the other: a key that the list
    assigns ends with the value the list gives it, as long as the list gives
    every key one value; any other key keeps what it had. *)
Lemma obj_get_assign (c : string -> Z) (l o : list (string * Z)) (k : string) :
  (forall k' v, In (k', v) l -> v = c k') ->
  Js.obj_get k (fold_left (fun o stat => Js.obj_set (fst stat) (snd stat) o) l o)
  = if in_dec string_dec k (map fst l) then Some (c k) else Js.obj_get k o.
Proof.
  revert o. induction l as [|[k0 v0] l IH]; intros o Hc; simpl.
  - reflexivity.
  - rewrite IH by (intros k' v Hin; apply Hc; now right).
    assert (Hv0 : v0 = c k0) by (apply Hc; now left).
    destruct (in_dec string_dec k (map fst l)) as [Hin|Hnin].
    + destruct (string_dec k0 k); [reflexivity|].
      destruct (in_dec string_dec k (map fst l)); [reflexivity|contradiction].
    + rewrite obj_get_set.
      destruct (string_dec k0 k) as [->|Hne].
      * now rewrite String.eqb_refl, Hv0.
      * apply String.eqb_neq in Hne. rewrite Hne.
        destruct (in_dec string_dec k (map fst l)); [contradiction|reflexivity].
Qed.

Lemma obj_get_In {V : Type} (k : string) (o : list (string * V)) :
  Js.obj_get k o = None <-> ~ In k (map fst o).
Proof.
  induction o as [|[k0 v0] r IH]; simpl.
  - split; auto.
  - destruct (String.eqb k0 k) eqn:E.
    + apply String.eqb_eq in E. split; [discriminate|]. intros H.
      exfalso. apply H. now left.
    + apply String.eqb_neq in E. rewrite IH. tauto.
Qed.

(** The groups of the aggregation: a status has a group exactly when some
    row has it, and the group holds the number of such rows. *)
Lemma group_by_status_get (rows : list EnrollPTS.t) (k : string) :
  Js.obj_get k (EnrollPTSController.group_by_status rows)
  = if Nat.eqb (Api.rows_with_status k rows) 0 then None
    else Some (Z.of_nat (Api.rows_with_status k rows)).
Proof.
  unfold Api.rows_with_status.
  induction rows as [|e r IH]; simpl; [reflexivity|].
  rewrite obj_get_set.
  destruct (string_dec (EnrollPTS.status e) k) as [->|Hne].
  - rewrite String.eqb_refl, IH.
    destruct (count_occ string_dec (map EnrollPTS.status r) k) eqn:E; simpl.
    + reflexivity.
    + f_equal. lia.
  - apply String.eqb_neq in Hne. now rewrite Hne, IH.
Qed.

Lemma obj_set_keys {V : Type} (k k0 : string) (v : V) (o : list (string * V)) :
  In k0 (map fst (Js.obj_set k v o)) -> k0 = k \/ In k0 (map fst o).
Proof.
  induction o as [|[k1 v1] r IH]; simpl.
  - intros [<-|[]]. now left.
  - destruct (String.eqb k1 k); simpl; intros [<-|H]; auto.
    destruct (IH H); auto.
Qed.

Lemma obj_set_NoDup {V : Type} (k : string) (v : V) (o : list (string * V)) :
  NoDup (map fst o) -> NoDup (map fst (Js.obj_set k v o)).
Proof.
  induction o as [|[k1 v1] r IH]; simpl; intros Hnd.
  - constructor; [intros [] | constructor].
  - inversion Hnd as [|? ? Hk1 Hr]; subst.
    destruct (String.eqb k1 k) eqn:E; simpl.
    + now constructor.
    + constructor; [|now apply IH].
      intros Hin. apply obj_set_keys in Hin as [->|Hin]; [|contradiction].
      now rewrite String.eqb_refl in E.
Qed.

Lemma obj_get_entry {V : Type} (k : string) (v : V) (o : list (string * V)) :
  NoDup (map fst o) -> In (k, v) o -> Js.obj_get k o = Some v.
Proof.
  induction o as [|[k1 v1] r IH]; simpl; intros Hnd Hin; [contradiction|].
  inversion Hnd as [|? ? Hk1 Hr]; subst.
  destruct Hin as [[= -> ->]|Hin].
  - now rewrite String.eqb_refl.
  - destruct (String.eqb k1 k) eqn:E; [|now apply IH].
    apply String.eqb_eq in E. subst k1.
    exfalso. apply Hk1. now apply (in_map fst) in Hin.
Qed.

Lemma group_by_status_NoDup (rows : list EnrollPTS.t) :
  NoDup (map fst (EnrollPTSController.group_by_status rows)).
Proof.
  induction rows as [|e r IH]; simpl; [constructor | now apply obj_set_NoDup].
Qed.

(** The statistics give, for each of the three statuses and for every other
    status that occurs on a row, the number of rows that have it; the three
    statuses are present with 0 when no row has them, and a status that no
    row has and that is not one of the three is absent. *)
Theorem getEnrollmentStats_counts (st : Db.Store) (k : string) :
  exists stats,
    EnrollPTSController.getEnrollmentStats st = Reply.one stats
    /\ (In k ["pending"; "completed"; "absent"]
        \/ (0 < Api.rows_with_status k (Db.enrollments st))%nat ->
        Js.obj_get k stats
        = Some (Z.of_nat (Api.rows_with_status k (Db.enrollments st))))
    /\ (~ In k ["pending"; "completed"; "absent"] ->
        Api.rows_with_status k (Db.enrollments st) = 0%nat ->
        Js.obj_get k stats = None).
Proof.
  eexists. split; [reflexivity|].
  unfold EnrollPTSController.format_stats.
  set (rows := Db.enrollments st).
  set (c := fun k => Z.of_nat (Api.rows_with_status k rows)).
  assert (Hc : forall k' v,
             In (k', v) (EnrollPTSController.group_by_status rows) -> v = c k').
  { intros k' v Hin.
    apply obj_get_entry in Hin; [|apply group_by_status_NoDup].
    rewrite group_by_status_get in Hin.
    destruct (Nat.eqb _ 0); [discriminate|]. now injection Hin as <-. }
  rewrite (obj_get_assign c _ _ k Hc).
  pose proof (group_by_status_get rows k) as Hg.
  pose proof (obj_get_In k (EnrollPTSController.group_by_status rows)) as Hkeys.
  destruct (in_dec string_dec k
              (map fst (EnrollPTSController.group_by_status rows)))
    as [Hin|Hnin].
  - split; [reflexivity|].
    intros _ Hzero. rewrite Hzero in Hg. simpl in Hg.
    apply Hkeys in Hg. contradiction.
  - apply Hkeys in Hnin. rewrite Hnin in Hg.
    destruct (Nat.eqb (Api.rows_with_status k rows) 0) eqn:Ez;
      [|discriminate].
    apply Nat.eqb_eq in Ez. split.
    + intros [Hk|Hpos]; [|lia].
      unfold c. rewrite Ez. simpl in Hk.
      destruct Hk as [<-|[<-|[<-|[]]]]; reflexivity.
    + intros Hk _. cbn [Js.obj_get].
      assert (Hp : String.eqb "pending" k = false)
        by (apply String.eqb_neq; intros <-; apply Hk; simpl; auto).
      assert (Hq : String.eqb "completed" k = false)
        by (apply String.eqb_neq; intros <-; apply Hk; simpl; auto).
      assert (Ha : String.eqb "absent" k = false)
        by (apply String.eqb_neq; intros <-; apply Hk; simpl; auto).
      now rewrite Hp, Hq, Ha.
Qed.

(** ** What each writing handler does to the store *)

Lemma create_effect (b : PhysicalTrainingController.CreateBody)
      (st : Db.Store) :
  snd (PhysicalTrainingController.createPhysicalTraining b st) = st
  \/ exists new m cs,
      PhysicalTrainingController.maxCount b = Some m
      /\ snd (PhysicalTrainingController.createPhysicalTraining b st)
         = Db.with_physicalTrainings (Db.physicalTrainings st ++ [new])
                                     (Db.with_counters cs st)
      /\ PhysicalTraining.sessionID new
         = Api.session_id (next_value "sessionID" st)
      /\ PhysicalTraining.currentCount new = 0
      /\ PhysicalTraining.status new = "pending"
      /\ PhysicalTraining.maxCount new = m
      /\ next_value "sessionID"
           (snd (PhysicalTrainingController.createPhysicalTraining b st))
         = next_value "sessionID" st + 1.
Proof.
  unfold PhysicalTrainingController.createPhysicalTraining.
  destruct (PhysicalTrainingController.date b) as [d|]; [|now left].
  destruct (PhysicalTrainingController.time b) as [t|]; [|now left].
  destruct (PhysicalTrainingController.location b) as [l|]; [|now left].
  destruct (PhysicalTrainingController.vehicleID b) as [v|]; [|now left].
  destruct (PhysicalTrainingController.instructorID b) as [i|]; [|now left].
  destruct (PhysicalTrainingController.maxCount b) as [m|]; [|now left].
  destruct (_ || _)%bool; [now left|].
  destruct (Db.findOne (Db.by_vehicleID v) _); [|now left].
  destruct (Db.findOne (Db.by_InstructorID i) _); [|now left].
  right.
  unfold PhysicalTrainingController.getNextSequenceValue.
  destruct (inc_counter_value "sessionID" st) as [Hval (c & Hc & Hcv)].
  destruct (PhysicalTrainingController.inc_counter "sessionID" (Db.counters st))
    as [counter cs] eqn:Einc.
  simpl in Hval, Hc. simpl.
  eexists. exists m, cs. split; [reflexivity|]. split; [reflexivity|].
  simpl. split; [unfold Api.session_id; now rewrite Hval|].
  repeat split.
  unfold next_value at 1. simpl. now rewrite Hc, Hcv.
Qed.

Lemma update_effect (id : string) (b : PhysicalTrainingController.UpdateBody)
      (st : Db.Store) :
  snd (PhysicalTrainingController.updatePhysicalTraining id b st) = st
  \/ (PhysicalTrainingController.status_invalid
        (PhysicalTrainingController.u_status b) = false
      /\ snd (PhysicalTrainingController.updatePhysicalTraining id b st)
         = Db.with_physicalTrainings
             (Db.findOneAndUpdate (Db.by_sessionID id)
                (PhysicalTrainingController.updateData b)
                (Db.physicalTrainings st)) st).
Proof.
  unfold PhysicalTrainingController.updatePhysicalTraining.
  destruct (_ && _)%bool; [now left|].
  destruct (Db.findOne _ _); [|now left].
  destruct (PhysicalTrainingController.vehicle_missing _ _); [now left|].
  destruct (PhysicalTrainingController.instructor_missing _ _); [now left|].
  destruct (PhysicalTrainingController.status_invalid _) eqn:Hs; [now left|].
  destruct (PhysicalTrainingController.count_exceeds _ _); [now left|].
  right. split; reflexivity.
Qed.

Lemma includes_In (l : list string) (v : string) :
  Js.includes l v = true -> In v l.
Proof.
  unfold Js.includes. rewrite existsb_exists.
  intros (x & Hx & Hv). apply String.eqb_eq in Hv. now subst.
Qed.

Lemma session_status_effect (id : string) (status : option string)
      (st : Db.Store) :
  snd (PhysicalTrainingController.updateSessionStatus id status st) = st
  \/ exists v,
      In v ["pending"; "completed"]
      /\ snd (PhysicalTrainingController.updateSessionStatus id status st)
         = Db.with_physicalTrainings
             (Db.findOneAndUpdate (Db.by_sessionID id)
                (PhysicalTraining.set_status v) (Db.physicalTrainings st)) st.
Proof.
  unfold PhysicalTrainingController.updateSessionStatus.
  destruct status as [v|]; [|now left].
  destruct (Js.includes _ v) eqn:Hin; [|rewrite orb_true_r; now left].
  destruct (Js.falsy_str (Some v)); [now left|]. cbv [orb negb].
  destruct (Db.findOne _ _); [|now left].
  right. exists v. split; [now apply includes_In | reflexivity].
Qed.

Lemma delete_effect (id : string) (st : Db.Store) :
  snd (PhysicalTrainingController.deletePhysicalTraining id st) = st
  \/ exists s p1 p2,
      Db.physicalTrainings st = p1 ++ s :: p2
      /\ PhysicalTraining.currentCount s <= 0
      /\ snd (PhysicalTrainingController.deletePhysicalTraining id st)
         = Db.with_physicalTrainings (p1 ++ p2) st.
Proof.
  unfold PhysicalTrainingController.deletePhysicalTraining.
  destruct (Db.findOne _ _) as [s|] eqn:Hs; [|now left].
  destruct (0 <? PhysicalTraining.currentCount s) eqn:Hpos; [now left|].
  right. destruct (findOne_split _ _ _ Hs) as (p1 & p2 & Ep & Hps & Hp1).
  exists s, p1, p2. apply Z.ltb_ge in Hpos. repeat split; try assumption.
  simpl. now rewrite Ep, (findOneAndDelete_skip _ p1 p2 s Hp1 Hps).
Qed.

Lemma enroll_step_effect (env : Env) (user : Jwt.Payload)
      (sid : option string) (st : Db.Store) :
  snd (EnrollPTSController.enrollStudent env user sid st) = st
  \/ exists sidv s p1 p2 new,
      Db.physicalTrainings st = p1 ++ s :: p2
      /\ PhysicalTraining.sessionID s = sidv
      /\ EnrollPTS.sessionID new = sidv
      /\ EnrollPTS.status new = "pending"
      /\ PhysicalTraining.currentCount s < PhysicalTraining.maxCount s
      /\ snd (EnrollPTSController.enrollStudent env user sid st)
         = Db.with_physicalTrainings
             (p1 ++ PhysicalTraining.inc_currentCount 1 s :: p2)
             (Db.with_enrollments (Db.enrollments st ++ [new]) st).
Proof.
  destruct (Res.success (fst (EnrollPTSController.enrollStudent env user sid st)))
    eqn:Hok.
  - right.
    destruct (enroll_effect env user sid st Hok)
      as (sidv & u & s & p1 & p2 & -> & Hu & Hs & Ep & Hp1 & Hpend & Hlt
          & Hrow & ->).
    destruct (findOne_In _ _ _ Hs) as [_ Hps].
    apply String.eqb_eq in Hps.
    exists sidv, s, p1, p2. eexists. repeat split; try eassumption.
    all: reflexivity.
  - left. exact (proj1 (enrollStudent_failure_keeps_store env user sid st Hok)).
Qed.

Lemma cancel_effect (user : Jwt.Payload) (id : nat) (st : Db.Store) :
  snd (EnrollPTSController.cancelEnrollment user id st) = st
  \/ exists e l1 l2,
      Db.enrollments st = l1 ++ e :: l2
      /\ ((exists s p1 p2,
              Db.physicalTrainings st = p1 ++ s :: p2
              /\ PhysicalTraining.sessionID s = EnrollPTS.sessionID e
              /\ snd (EnrollPTSController.cancelEnrollment user id st)
                 = Db.with_physicalTrainings
                     (p1 ++ PhysicalTraining.inc_currentCount (-1) s :: p2)
                     (Db.with_enrollments (l1 ++ l2) st))
          \/ ((forall s, In s (Db.physicalTrainings st) ->
                 PhysicalTraining.sessionID s <> EnrollPTS.sessionID e)
              /\ snd (EnrollPTSController.cancelEnrollment user id st)
                 = Db.with_enrollments (l1 ++ l2) st)).
Proof.
  unfold EnrollPTSController.cancelEnrollment.
  destruct (Db.findOne (Db.by_id id) _) as [e|] eqn:He; [|now left].
  destruct (_ && _)%bool; [now left|].
  destruct (findOne_split _ _ _ He) as (l1 & l2 & El & Hpe & Hl1).
  destruct (Db.findOne (Db.by_sessionID _) _) as [s|] eqn:Hs.
  - destruct (String.eqb (PhysicalTraining.status s) "completed"); [now left|].
    right. exists e, l1, l2. split; [assumption|]. left.
    destruct (findOne_split _ _ _ Hs) as (p1 & p2 & Ep & Hps & Hp1).
    exists s, p1, p2. split; [assumption|].
    split; [now apply String.eqb_eq in Hps|].
    simpl. rewrite El, (findOneAndDelete_skip _ l1 l2 e Hl1 Hpe).
    now rewrite Ep, (findOneAndUpdate_skip _ _ p1 p2 s Hp1 Hps).
  - right. exists e, l1, l2. split; [assumption|]. right. split.
    + intros s Hin. pose proof (findOne_None _ _ Hs s Hin) as Hno.
      now apply String.eqb_neq in Hno.
    + simpl. now rewrite El, (findOneAndDelete_skip _ l1 l2 e Hl1 Hpe).
Qed.

Lemma enrollment_status_effect (id : nat) (status : option string)
      (st : Db.Store) :
  snd (EnrollPTSController.updateEnrollmentStatus id status st) = st
  \/ exists v,
      In v ["pending"; "completed"; "absent"]
      /\ snd (EnrollPTSController.updateEnrollmentStatus id status st)
         = Db.with_enrollments
             (Db.findOneAndUpdate (Db.by_id id) (EnrollPTS.set_status v)
                (Db.enrollments st)) st.
Proof.
  unfold EnrollPTSController.updateEnrollmentStatus.
  destruct status as [v|]; [|now left].
  destruct (Js.includes _ v) eqn:Hin; [|rewrite orb_true_r; now left].
  destruct (Js.falsy_str (Some v)); [now left|]. cbv [orb negb].
  destruct (Db.findOne _ _); [|now left].
  right. exists v. split; [now apply includes_In | reflexivity].
Qed.

(** A property kept by every step is kept by every run. *)
Lemma run_keeps (I : Db.Store -> Prop) (ok : Api.request -> bool) :
  (forall r st, ok r = true -> I st -> I (Api.step r st)) ->
  forall rs st, forallb ok rs = true -> I st -> I (Api.run rs st).
Proof.
  intros Hstep rs. unfold Api.run.
  induction rs as [|r rs IH]; simpl; intros st Hok Hst; [exact Hst|].
  apply andb_prop in Hok as [Hr Hrs].
  apply IH; [exact Hrs|]. now apply Hstep.
Qed.

(** ** Session identifiers stay unique *)

(** Distinct counter values give distinct identifiers. *)
Lemma session_id_inj (k1 k2 : Z) :
  0 <= k1 -> 0 <= k2 -> Api.session_id k1 = Api.session_id k2 -> k1 = k2.
Proof.
  intros H1 H2 H. unfold Api.session_id in H. simpl in H.
  injection H as H.
  destruct (padded_digits k1 H1) as [N1 _].
  destruct (padded_digits k2 H2) as [N2 _].
  rewrite H, N2 in N1. now injection N1.
Qed.

Lemma minted_mono (n n' : Z) (id : string) :
  n <= n' -> Api.minted n id -> Api.minted n' id.
Proof. intros Hle (k & Hk & ->). exists k. split; [lia | reflexivity]. Qed.

Lemma NoDup_snoc {A : Type} (l : list A) (x : A) :
  NoDup l -> ~ In x l -> NoDup (l ++ [x]).
Proof.
  induction l as [|y r IH]; simpl; intros Hnd Hx.
  - constructor; [intros [] | constructor].
  - inversion Hnd as [|? ? Hy Hr]; subst. constructor.
    + intros Hin. apply in_app_or in Hin as [Hin|[<-|[]]]; [contradiction|].
      apply Hx. now left.
    + apply IH; [assumption|]. intros Hin. apply Hx. now right.
Qed.

Lemma ids_wf_same_ids (st st' : Db.Store) :
  Db.counters st' = Db.counters st ->
  map PhysicalTraining.sessionID (Db.physicalTrainings st')
  = map PhysicalTraining.sessionID (Db.physicalTrainings st) ->
  map EnrollPTS.sessionID (Db.enrollments st')
  = map EnrollPTS.sessionID (Db.enrollments st) ->
  Api.ids_wf st -> Api.ids_wf st'.
Proof.
  intros Hc Hs He (n & Hn & Hnext & Hses & Hrows & Hnd).
  exists n. unfold next_value in *. rewrite Hc, Hs, He. auto.
Qed.

Lemma ids_wf_step (r : Api.request) (st : Db.Store) :
  Api.ids_wf st -> Api.ids_wf (Api.step r st).
Proof.
  intros Hwf. destruct r as [[b|id b|id v|env user sid|user id]|id|id v]; simpl.
  - (* create *)
    destruct (create_effect b st)
      as [->|(new & m & cs & Hm & Hst & Hid & Hcc & Hstat & Hmax & Hnext)];
      [exact Hwf|].
    destruct Hwf as (n & Hn & Hnv & Hses & Hrows & Hnd).
    exists (n + 1). rewrite Hnext, Hst. simpl.
    split; [lia|]. split; [lia|].
    assert (Hnew : Api.minted (n + 1) (PhysicalTraining.sessionID new)).
    { exists (n + 1). split; [lia|]. now rewrite Hid, Hnv. }
    rewrite map_app. simpl. split; [|split].
    + apply Forall_app. split.
      * eapply Forall_impl; [|exact Hses]. intros a. apply minted_mono. lia.
      * constructor; [exact Hnew | constructor].
    + eapply Forall_impl; [|exact Hrows]. intros a. apply minted_mono. lia.
    + apply NoDup_snoc; [exact Hnd|]. intros Hin.
      rewrite Forall_forall in Hses.
      destruct (Hses _ Hin) as (k & Hk & Ek).
      rewrite Hid, Hnv in Ek. apply session_id_inj in Ek; lia.
  - (* update *)
    destruct (update_effect id b st) as [->|[_ ->]]; [exact Hwf|].
    apply (ids_wf_same_ids st); simpl; try reflexivity; [|exact Hwf].
    now apply map_findOneAndUpdate.
  - (* session status *)
    destruct (session_status_effect id v st) as [->|(w & _ & ->)]; [exact Hwf|].
    apply (ids_wf_same_ids st); simpl; try reflexivity; [|exact Hwf].
    now apply map_findOneAndUpdate.
  - (* enroll *)
    destruct (enroll_step_effect env user sid st)
      as [->|(sidv & s & p1 & p2 & new & Ep & Hs & Hnew & _ & _ & ->)];
      [exact Hwf|].
    destruct Hwf as (n & Hn & Hnv & Hses & Hrows & Hnd).
    exists n. simpl. rewrite Ep in Hses, Hnd.
    rewrite map_app in *. simpl in *.
    repeat split; try assumption.
    rewrite map_app. apply Forall_app. split; [exact Hrows|].
    simpl. constructor; [|constructor].
    rewrite Hnew, <- Hs.
    apply Forall_app in Hses as [_ Hses]. now inversion Hses.
  - (* cancel *)
    destruct (cancel_effect user id st)
      as [->|(e & l1 & l2 & El & [(s & p1 & p2 & Ep & Hs & ->)|[_ ->]])];
      [exact Hwf| |];
      destruct Hwf as (n & Hn & Hnv & Hses & Hrows & Hnd);
      exists n; simpl; rewrite El in Hrows;
      rewrite map_app in Hrows; simpl in Hrows;
      apply Forall_app in Hrows as [Hr1 Hr2];
      inversion Hr2 as [|? ? _ Hr3]; subst.
    + rewrite Ep in Hses, Hnd. rewrite map_app in *. simpl in *.
      repeat split; try assumption.
      rewrite map_app. apply Forall_app. now split.
    + rewrite map_app. repeat split; try assumption.
      apply Forall_app. now split.
  - (* delete *)
    destruct (delete_effect id st) as [->|(s & p1 & p2 & Ep & _ & ->)];
      [exact Hwf|].
    destruct Hwf as (n & Hn & Hnv & Hses & Hrows & Hnd).
    exists n. simpl. rewrite Ep in Hses, Hnd.
    rewrite map_app in *. simpl in *.
    apply Forall_app in Hses as [Hs1 Hs2].
    inversion Hs2 as [|? ? _ Hs3]; subst.
    repeat split; try assumption.
    + apply Forall_app. now split.
    + now apply NoDup_remove_1 in Hnd.
  - (* enrollment status *)
    destruct (enrollment_status_effect id v st) as [->|(w & _ & ->)];
      [exact Hwf|].
    apply (ids_wf_same_ids st); simpl; try reflexivity; [|exact Hwf].
    now apply map_findOneAndUpdate.
Qed.

Lemma fresh_ids_wf (st : Db.Store) : Api.fresh st -> Api.ids_wf st.
Proof.
  intros (Hs & He & Hn).
  exists (next_value "sessionID" st - 1).
  rewrite Hs, He. simpl.
  repeat split; try lia; constructor.
Qed.

(** In every store that requests lead to from a store without sessions,
    the sessions carry pairwise distinct identifiers: the identifiers come
    from successive counter values and no request changes one. *)
Theorem session_ids_unique (rs : list Api.request) (init : Db.Store) :
  Api.fresh init ->
  NoDup (map PhysicalTraining.sessionID
             (Db.physicalTrainings (Api.run rs init)))
  /\ forall e, In e (Db.enrollments (Api.run rs init)) ->
      exists n, 1 <= n < next_value "sessionID" (Api.run rs init)
                /\ EnrollPTS.sessionID e = Api.session_id n.
Proof.
  intros Hfresh.
  assert (Hwf : Api.ids_wf (Api.run rs init)).
  { apply (run_keeps Api.ids_wf (fun _ => true)).
    - intros r st _. apply ids_wf_step.
    - now apply forallb_forall.
    - now apply fresh_ids_wf. }
  destruct Hwf as (n & Hn & Hnv & _ & Hrows & Hnd).
  split; [exact Hnd|].
  intros e He. rewrite Forall_forall in Hrows.
  destruct (Hrows (EnrollPTS.sessionID e) (in_map _ _ _ He)) as (k & Hk & Ek).
  exists k. split; [lia | exact Ek].
Qed.

Lemma session_ids_unique_witness :
  Api.fresh Sample.store0
  /\ NoDup (map PhysicalTraining.sessionID
                (Db.physicalTrainings
                   (Api.run Scenario.two_sessions Sample.store0))).
Proof.
  assert (Hf : Api.fresh Sample.store0).
  { repeat split. unfold next_value. simpl. lia. }
  split; [exact Hf|].
  exact (proj1 (session_ids_unique _ Sample.store0 Hf)).
Defined.

(** ** The counter of a session and the rows that name it *)

Lemma rows_of_app (sid : string) (a b : list EnrollPTS.t) :
  Api.rows_of sid (a ++ b) = (Api.rows_of sid a + Api.rows_of sid b)%nat.
Proof. unfold Api.rows_of. now rewrite map_app, count_occ_app. Qed.

Lemma rows_of_one (sid : string) (e : EnrollPTS.t) :
  Api.rows_of sid [e]
  = if string_dec (EnrollPTS.sessionID e) sid then 1%nat else 0%nat.
Proof.
  unfold Api.rows_of. simpl.
  destruct (string_dec (EnrollPTS.sessionID e) sid); reflexivity.
Qed.

Lemma rows_of_remove (sid : string) (l1 l2 : list EnrollPTS.t)
      (e : EnrollPTS.t) :
  Api.rows_of sid (l1 ++ e :: l2)
  = (Api.rows_of sid (l1 ++ l2)
     + if string_dec (EnrollPTS.sessionID e) sid then 1 else 0)%nat.
Proof.
  change (e :: l2) with ([e] ++ l2).
  rewrite !rows_of_app, rows_of_one. lia.
Qed.

Lemma In_findOneAndUpdate {A : Type} (p : A -> bool) (f : A -> A)
      (c : list A) (y : A) :
  In y (Db.findOneAndUpdate p f c) -> In y c \/ exists x, In x c /\ y = f x.
Proof.
  induction c as [|x r IH]; simpl; [tauto|].
  destruct (p x); simpl.
  - intros [<-|H]; [right; exists x; auto | auto].
  - intros [<-|H]; [auto|]. destruct (IH H) as [H'|(z & Hz & ->)]; [auto|].
    right. exists z. auto.
Qed.

Lemma other_ids_differ (p1 p2 : list PhysicalTraining.t)
      (s y : PhysicalTraining.t) :
  NoDup (map PhysicalTraining.sessionID (p1 ++ s :: p2)) ->
  In y (p1 ++ p2) ->
  PhysicalTraining.sessionID y <> PhysicalTraining.sessionID s.
Proof.
  rewrite map_app. simpl. intros Hnd Hy Heq.
  apply NoDup_remove_2 in Hnd. apply Hnd.
  rewrite <- map_app, <- Heq. now apply in_map.
Qed.

Lemma In_middle {A : Type} (l1 l2 : list A) (x y : A) :
  In y (l1 ++ x :: l2) -> y = x \/ In y (l1 ++ l2).
Proof.
  intros H. apply in_app_or in H as [H|[<-|H]]; [right|left|right];
    try reflexivity; apply in_or_app; auto.
Qed.

Lemma ledger_step (r : Api.request) (st : Db.Store) :
  Api.writes_currentCount r = false ->
  Api.ids_wf st -> Api.ledger_consistent st ->
  Api.ledger_consistent (Api.step r st).
Proof.
  intros Hr Hwf HL.
  destruct r as [[b|id b|id v|env user sid|user id]|id|id v]; simpl.
  - (* create *)
    destruct (create_effect b st)
      as [->|(new & m & cs & Hm & Hst & Hid & Hcc & Hstat & Hmax & Hnext)];
      [exact HL|].
    rewrite Hst. intros y Hy. simpl in *.
    apply in_app_or in Hy as [Hy|[<-|[]]]; [now apply HL|].
    destruct Hwf as (n & Hn & Hnv & _ & Hrows & _).
    rewrite Hcc. unfold Api.rows_of.
    rewrite (proj1 (count_occ_not_In string_dec _ _)); [reflexivity|].
    intros Hin. rewrite Forall_forall in Hrows.
    destruct (Hrows _ Hin) as (k & Hk & Ek).
    rewrite Hid, Hnv in Ek. apply session_id_inj in Ek; lia.
  - (* update *)
    simpl in Hr. apply negb_false_iff in Hr.
    destruct (PhysicalTrainingController.u_currentCount b) eqn:Hcur;
      [discriminate|].
    destruct (update_effect id b st) as [->|[_ ->]]; [exact HL|].
    intros y Hy. simpl in *.
    apply In_findOneAndUpdate in Hy as [Hy|(x & Hx & ->)]; [now apply HL|].
    unfold PhysicalTrainingController.updateData. simpl.
    rewrite Hcur. simpl. now apply HL.
  - (* session status *)
    destruct (session_status_effect id v st) as [->|(w & _ & ->)]; [exact HL|].
    intros y Hy. simpl in *.
    apply In_findOneAndUpdate in Hy as [Hy|(x & Hx & ->)]; [now apply HL|].
    simpl. now apply HL.
  - (* enroll *)
    destruct (enroll_step_effect env user sid st)
      as [->|(sidv & s & p1 & p2 & new & Ep & Hs & Hnew & _ & _ & ->)];
      [exact HL|].
    destruct Hwf as (n & _ & _ & _ & _ & Hnd). rewrite Ep in Hnd.
    intros y Hy. simpl in *. rewrite rows_of_app, rows_of_one.
    apply In_middle in Hy as [->|Hy].
    + simpl. rewrite Hnew, Hs.
      destruct (string_dec sidv sidv); [|contradiction].
      rewrite (HL s) by (rewrite Ep; apply in_elt). rewrite Hs. lia.
    + pose proof (other_ids_differ _ _ _ _ Hnd Hy) as Hne.
      rewrite Hnew, <- Hs.
      destruct (string_dec _ _) as [E|_]; [now symmetry in E|].
      rewrite Nat.add_0_r. apply HL. rewrite Ep.
      apply in_app_or in Hy as [Hy|Hy]; apply in_or_app; simpl; auto.
  - (* cancel *)
    destruct (cancel_effect user id st)
      as [->|(e & l1 & l2 & El & [(s & p1 & p2 & Ep & Hs & ->)|[Hno ->]])];
      [exact HL| |].
    + destruct Hwf as (n & _ & _ & _ & _ & Hnd). rewrite Ep in Hnd.
      intros y Hy. simpl in *.
      apply In_middle in Hy as [->|Hy].
      * simpl. rewrite (HL s) by (rewrite Ep; apply in_elt).
        rewrite El, rows_of_remove, Hs.
        destruct (string_dec _ _); [lia|contradiction].
      * pose proof (other_ids_differ _ _ _ _ Hnd Hy) as Hne.
        rewrite (HL y)
          by (rewrite Ep; apply in_app_or in Hy as [Hy|Hy];
              apply in_or_app; simpl; auto).
        rewrite El, rows_of_remove, <- Hs.
        destruct (string_dec _ _) as [E|_]; [now symmetry in E|].
        now rewrite Nat.add_0_r.
    + intros y Hy. simpl in *.
      rewrite (HL y Hy), El, rows_of_remove.
      destruct (string_dec _ _) as [E|_];
        [exfalso; now apply (Hno y Hy)|].
      now rewrite Nat.add_0_r.
  - (* delete *)
    destruct (delete_effect id st) as [->|(s & p1 & p2 & Ep & _ & ->)];
      [exact HL|].
    intros y Hy. simpl in *. apply HL. rewrite Ep.
    apply in_app_or in Hy as [Hy|Hy]; apply in_or_app; simpl; auto.
  - (* enrollment status *)
    destruct (enrollment_status_effect id v st) as [->|(w & _ & ->)];
      [exact HL|].
    intros y Hy. simpl in *. unfold Api.rows_of.
    rewrite (map_findOneAndUpdate _ _ EnrollPTS.sessionID)
      by reflexivity.
    now apply HL.
Qed.

Lemma run_ledger_consistent (rs : list Api.request) (init : Db.Store) :
  Api.fresh init ->
  forallb (fun r => negb (Api.writes_currentCount r)) rs = true ->
  Api.ids_wf (Api.run rs init) /\ Api.ledger_consistent (Api.run rs init).
Proof.
  intros Hfresh Hrs.
  apply (run_keeps (fun st => Api.ids_wf st /\ Api.ledger_consistent st)
                   (fun r => negb (Api.writes_currentCount r))).
  - intros r st Hr [Hwf HL]. apply negb_true_iff in Hr.
    split; [now apply ids_wf_step | now apply ledger_step].
  - exact Hrs.
  - split; [now apply fresh_ids_wf|].
    destruct Hfresh as (Hs & _). intros s Hin. rewrite Hs in Hin.
    contradiction.
Qed.

(** As long as no request overwrites [currentCount] through the session
    update, every session's [currentCount] is the number of enrollment rows
    that name the session, in every store that requests lead to from a
    store without sessions and enrollments. *)
Theorem currentCount_counts_rows (rs : list Api.request) (init : Db.Store) :
  Api.fresh init ->
  forallb (fun r => negb (Api.writes_currentCount r)) rs = true ->
  forall s, In s (Db.physicalTrainings (Api.run rs init)) ->
    PhysicalTraining.currentCount s
    = Z.of_nat (Api.rows_of (PhysicalTraining.sessionID s)
                            (Db.enrollments (Api.run rs init))).
Proof.
  intros Hfresh Hrs.
  exact (proj2 (run_ledger_consistent rs init Hfresh Hrs)).
Qed.

Lemma currentCount_counts_rows_witness :
  Api.fresh Sample.store0
  /\ forall s,
      In s (Db.physicalTrainings
              (Api.run Scenario.one_seat_taken Sample.store0)) ->
      PhysicalTraining.currentCount s = 1.
Proof.
  assert (Hf : Api.fresh Sample.store0).
  { repeat split. unfold next_value. simpl. lia. }
  split; [exact Hf|].
  intros s Hs.
  rewrite (currentCount_counts_rows Scenario.one_seat_taken Sample.store0 Hf
             eq_refl s Hs).
  destruct Hs as [<-|[]]. reflexivity.
Defined.

(** ** The capacity bound, where it does hold *)

Lemma upper_bound_step (r : Api.request) (st : Db.Store) :
  Api.writes_currentCount r = false -> Api.writes_maxCount r = false ->
  Api.upper_bound st -> Api.upper_bound (Api.step r st).
Proof.
  unfold Api.upper_bound. intros Hc Hm HU.
  destruct r as [[b|id b|id v|env user sid|user id]|id|id v]; simpl.
  - destruct (create_effect b st)
      as [->|(new & m & cs & Hmax & Hst & Hid & Hcc & Hstat & Hnm & Hnext)];
      [exact HU|].
    rewrite Hst. simpl. apply Forall_app. split; [exact HU|].
    constructor; [|constructor].
    simpl in Hm. rewrite Hmax in Hm. apply Z.ltb_ge in Hm. lia.
  - simpl in Hc, Hm. apply negb_false_iff in Hc, Hm.
    destruct (PhysicalTrainingController.u_currentCount b) eqn:Hcur;
      [discriminate|].
    destruct (PhysicalTrainingController.u_maxCount b) eqn:Hmax;
      [discriminate|].
    destruct (update_effect id b st) as [->|[_ ->]]; [exact HU|].
    simpl. apply findOneAndUpdate_Forall; [exact HU|].
    intros x Hx. destruct (findOne_In _ _ _ Hx) as [Hin _].
    rewrite Forall_forall in HU.
    unfold PhysicalTrainingController.updateData. simpl.
    rewrite Hcur, Hmax. simpl. now apply HU.
  - destruct (session_status_effect id v st) as [->|(w & _ & ->)]; [exact HU|].
    simpl. apply findOneAndUpdate_Forall; [exact HU|].
    intros x Hx. destruct (findOne_In _ _ _ Hx) as [Hin _].
    rewrite Forall_forall in HU. simpl. now apply HU.
  - destruct (enroll_step_effect env user sid st)
      as [->|(sidv & s & p1 & p2 & new & Ep & Hs & Hnew & _ & Hlt & ->)];
      [exact HU|].
    simpl. rewrite Ep in HU. apply Forall_app in HU as [H1 H2].
    inversion H2 as [|? ? _ H3]; subst.
    apply Forall_app. split; [exact H1|]. constructor; [simpl; lia | exact H3].
  - destruct (cancel_effect user id st)
      as [->|(e & l1 & l2 & El & [(s & p1 & p2 & Ep & Hs & ->)|[_ ->]])];
      [exact HU| |exact HU].
    simpl. rewrite Ep in HU. apply Forall_app in HU as [H1 H2].
    inversion H2 as [|? ? Hs2 H3]; subst.
    apply Forall_app. split; [exact H1|]. constructor; [simpl; lia | exact H3].
  - destruct (delete_effect id st) as [->|(s & p1 & p2 & Ep & _ & ->)];
      [exact HU|].
    simpl. rewrite Ep in HU. apply Forall_app in HU as [H1 H2].
    inversion H2 as [|? ? _ H3]; subst. apply Forall_app. now split.
  - destruct (enrollment_status_effect id v st) as [->|(w & _ & ->)];
      exact HU.
Qed.

(** The bound [0 <= currentCount <= maxCount] holds for every session in
    every store that requests lead to from a store without sessions and
    enrollments, as long as no session update carries [currentCount] or
    [maxCount] and no session is created with a negative [maxCount]. *)
Theorem capacity_kept_without_overwrites (rs : list Api.request)
        (init : Db.Store) :
  Api.fresh init ->
  forallb (fun r => negb (Api.writes_currentCount r)
                    && negb (Api.writes_maxCount r))%bool rs = true ->
  Trace.capacity_invariant (Api.run rs init).
Proof.
  intros Hfresh Hrs.
  assert (H : (Api.ids_wf (Api.run rs init)
               /\ Api.ledger_consistent (Api.run rs init))
              /\ Api.upper_bound (Api.run rs init)).
  { apply (run_keeps
             (fun st => (Api.ids_wf st /\ Api.ledger_consistent st)
                        /\ Api.upper_bound st)
             (fun r => negb (Api.writes_currentCount r)
                       && negb (Api.writes_maxCount r))%bool).
    - intros r st Hr [[Hwf HL] HU].
      apply andb_prop in Hr as [Hc Hm]. apply negb_true_iff in Hc, Hm.
      split; [split|];
        [now apply ids_wf_step | now apply ledger_step
         | now apply upper_bound_step].
    - exact Hrs.
    - destruct Hfresh as (Hs & He & Hn). split; [split|].
      + apply fresh_ids_wf. now repeat split.
      + intros s Hin. rewrite Hs in Hin. contradiction.
      + unfold Api.upper_bound. rewrite Hs. constructor. }
  destruct H as [[_ HL] HU].
  unfold Trace.capacity_invariant, Trace.capacity_ok.
  unfold Api.upper_bound in HU. rewrite Forall_forall in *.
  intros s Hs. split; [|now apply HU].
  rewrite (HL s Hs). lia.
Qed.

Lemma capacity_kept_without_overwrites_witness :
  Api.fresh Sample.store0
  /\ Trace.capacity_invariant (Api.run Scenario.one_seat_taken Sample.store0).
Proof.
  assert (Hf : Api.fresh Sample.store0).
  { repeat split. unfold next_value. simpl. lia. }
  split; [exact Hf|].
  exact (capacity_kept_without_overwrites Scenario.one_seat_taken
           Sample.store0 Hf eq_refl).
Defined.

(** ** Statuses stay valid *)

Lemma pick_status_valid (o : option string) (s : PhysicalTraining.t) :
  PhysicalTrainingController.status_invalid o = false ->
  Api.session_status_valid s ->
  PhysicalTrainingController.pick_str o (PhysicalTraining.status s) = "pending"
  \/ PhysicalTrainingController.pick_str o (PhysicalTraining.status s)
     = "completed".
Proof.
  intros Hinv Hs. unfold PhysicalTrainingController.pick_str.
  destruct o as [v|]; [|exact Hs].
  unfold PhysicalTrainingController.status_invalid in Hinv.
  destruct (Js.falsy_str (Some v)); [exact Hs|].
  destruct (Js.includes ["pending"; "completed"] v) eqn:Hin;
    [|discriminate].
  apply includes_In in Hin. simpl in Hin.
  destruct Hin as [<-|[<-|[]]]; auto.
Qed.

Lemma statuses_step (r : Api.request) (st : Db.Store) :
  Api.statuses_valid st -> Api.statuses_valid (Api.step r st).
Proof.
  unfold Api.statuses_valid. intros [HS HR].
  destruct r as [[b|id b|id v|env user sid|user id]|id|id v]; simpl.
  - destruct (create_effect b st)
      as [->|(new & m & cs & Hmax & Hst & Hid & Hcc & Hstat & Hnm & Hnext)];
      [now split|].
    rewrite Hst. simpl. split; [|exact HR].
    apply Forall_app. split; [exact HS|].
    constructor; [now left | constructor].
  - destruct (update_effect id b st) as [->|[Hinv ->]]; [now split|].
    simpl. split; [|exact HR].
    apply findOneAndUpdate_Forall; [exact HS|].
    intros x Hx. destruct (findOne_In _ _ _ Hx) as [Hin _].
    rewrite Forall_forall in HS.
    apply (pick_status_valid _ x Hinv). now apply HS.
  - destruct (session_status_effect id v st) as [->|(w & Hw & ->)];
      [now split|].
    simpl. split; [|exact HR].
    apply findOneAndUpdate_Forall; [exact HS|].
    intros x _. unfold Api.session_status_valid. simpl.
    simpl in Hw. destruct Hw as [<-|[<-|[]]]; auto.
  - destruct (enroll_step_effect env user sid st)
      as [->|(sidv & s & p1 & p2 & new & Ep & Hs & Hnew & Hpend & _ & ->)];
      [now split|].
    simpl. rewrite Ep in HS. apply Forall_app in HS as [H1 H2].
    inversion H2 as [|? ? Hs2 H3]; subst. split.
    + apply Forall_app. split; [exact H1|]. constructor; [exact Hs2 | exact H3].
    + apply Forall_app. split; [exact HR|].
      constructor; [now left | constructor].
  - destruct (cancel_effect user id st)
      as [->|(e & l1 & l2 & El & [(s & p1 & p2 & Ep & Hs & ->)|[_ ->]])];
      [now split| |];
      simpl; rewrite El in HR; apply Forall_app in HR as [R1 R2];
      inversion R2 as [|? ? _ R3]; subst.
    + rewrite Ep in HS. apply Forall_app in HS as [H1 H2].
      inversion H2 as [|? ? Hs2 H3]; subst. split.
      * apply Forall_app. split; [exact H1|].
        constructor; [exact Hs2 | exact H3].
      * apply Forall_app. now split.
    + split; [exact HS|]. apply Forall_app. now split.
  - destruct (delete_effect id st) as [->|(s & p1 & p2 & Ep & _ & ->)];
      [now split|].
    simpl. split; [|exact HR].
    rewrite Ep in HS. apply Forall_app in HS as [H1 H2].
    inversion H2 as [|? ? _ H3]; subst. apply Forall_app. now split.
  - destruct (enrollment_status_effect id v st) as [->|(w & Hw & ->)];
      [now split|].
    simpl. split; [exact HS|].
    apply findOneAndUpdate_Forall; [exact HR|].
    intros x _. unfold Api.row_status_valid. simpl.
    simpl in Hw. destruct Hw as [<-|[<-|[<-|[]]]]; auto.
Qed.

(** No request leaves a status outside the accepted values: if every
    session is pending or completed and every row pending, completed or
    absent, the same holds after any sequence of requests. *)
Theorem statuses_stay_valid (rs : list Api.request) (st : Db.Store) :
  Api.statuses_valid st -> Api.statuses_valid (Api.run rs st).
Proof.
  intros H.
  apply (run_keeps Api.statuses_valid (fun _ => true)).
  - intros r s _. apply statuses_step.
  - now apply forallb_forall.
  - exact H.
Qed.

Lemma statuses_stay_valid_witness :
  Api.statuses_valid Sample.store0
  /\ Api.statuses_valid (Api.run Scenario.one_seat_taken Sample.store0).
Proof.
  assert (H0 : Api.statuses_valid Sample.store0)
    by (split; constructor).
  split; [exact H0|].
  exact (statuses_stay_valid Scenario.one_seat_taken Sample.store0 H0).
Defined.

Lemma rows_of_listing (sid : string) (rows : list EnrollPTS.t) :
  List.length (Db.find_all (Db.by_row_sessionID sid) rows) = Api.rows_of sid rows.
Proof.
  unfold Db.find_all, Api.rows_of, Db.by_row_sessionID.
  induction rows as [|e r IH]; simpl; [reflexivity|].
  destruct (string_dec (EnrollPTS.sessionID e) sid) as [->|Hne].
  - rewrite String.eqb_refl. simpl. now rewrite IH.
  - apply String.eqb_neq in Hne. now rewrite Hne.
Qed.

(** Under the same condition, the listing of the enrollments of a session
    has as many entries as the session's [currentCount] says. *)
Theorem session_listing_matches_count (rs : list Api.request)
        (init : Db.Store) (s : PhysicalTraining.t) :
  Api.fresh init ->
  forallb (fun r => negb (Api.writes_currentCount r)) rs = true ->
  In s (Db.physicalTrainings (Api.run rs init)) ->
  exists listed,
    EnrollPTSController.getEnrollmentsBySession
      (PhysicalTraining.sessionID s) (Api.run rs init)
    = Reply.many listed
    /\ Z.of_nat (List.length listed) = PhysicalTraining.currentCount s.
Proof.
  intros Hfresh Hrs Hs.
  destruct (run_ledger_consistent rs init Hfresh Hrs) as [_ HL].
  eexists. split; [reflexivity|].
  rewrite length_map, rows_of_listing. symmetry. now apply HL.
Qed.

Lemma session_listing_matches_count_witness :
  Api.fresh Sample.store0
  /\ exists s listed,
      In s (Db.physicalTrainings
              (Api.run Scenario.one_seat_taken Sample.store0))
      /\ EnrollPTSController.getEnrollmentsBySession
           (PhysicalTraining.sessionID s)
           (Api.run Scenario.one_seat_taken Sample.store0)
         = Reply.many listed
      /\ Z.of_nat (List.length listed) = PhysicalTraining.currentCount s.
Proof.
  assert (Hf : Api.fresh Sample.store0).
  { repeat split. unfold next_value. simpl. lia. }
  split; [exact Hf|].
  eexists.
  destruct (session_listing_matches_count Scenario.one_seat_taken
              Sample.store0 _ Hf eq_refl (or_introl eq_refl))
    as (listed & Hl & Hn).
  exists listed. split; [left; reflexivity|]. split; assumption.
Defined.

(** ** Accounts *)

Lemma findOne_first_new {A : Type} (p : A -> bool) (c : list A) (x : A) :
  Db.findOne p c = None -> p x = true -> Db.findOne p (Db.save x c) = Some x.
Proof.
  intros Hc Hx. unfold Db.save.
  apply findOne_skip; [now apply findOne_None_forallb | exact Hx].
Qed.

(** What a successful registration has checked and stored. *)
Lemma register_effect (env : Env) (b : AuthController.RegisterBody)
      (st : Db.Store) :
  Res.success (fst (AuthController.register env b st)) = true ->
  exists pw,
    AuthController.password b = Some pw
    /\ Db.findOne (Db.by_email (AuthController.email b)) (Db.users st) = None
    /\ snd (AuthController.register env b st)
       = Db.with_users
           (Db.save (AuthController.newUser env b
                       (bcrypt_hash env pw (bcrypt_genSalt env 10)))
                    (Db.users st)) st.
Proof.
  unfold AuthController.register, Jwt.JWT_EXPIRES_IN.
  destruct (Db.findOne _ _) eqn:Hu; [discriminate|].
  destruct (AuthController.password b) as [pw|]; [|discriminate].
  rewrite sign_24h. simpl. intros _. exists pw. auto.
Qed.

(** Registering again with an email that a registration has just taken is
    refused with 400, whatever else the second request carries, and stores
    nothing. *)
Theorem register_twice_rejected (env env' : Env)
        (b b' : AuthController.RegisterBody) (st : Db.Store) :
  Res.success (fst (AuthController.register env b st)) = true ->
  AuthController.email b' = AuthController.email b ->
  AuthController.register env' b' (snd (AuthController.register env b st))
  = (Res.fail 400 "User with this email or username already exists",
     snd (AuthController.register env b st)).
Proof.
  intros Hok Hem.
  destruct (register_effect env b st Hok) as (pw & Hpw & Hnone & ->).
  unfold AuthController.register at 1. simpl. rewrite Hem.
  rewrite (findOne_first_new _ _ _ Hnone); [reflexivity|].
  unfold Db.by_email. simpl. apply String.eqb_refl.
Qed.

Lemma register_twice_rejected_witness :
  Res.success (fst (AuthController.register Sample.env0 Sample.register_body
                      Sample.store0)) = true
  /\ Res.status
       (fst (AuthController.register Sample.env1 Sample.register_body
               (snd (AuthController.register Sample.env0 Sample.register_body
                       Sample.store0)))) = 400.
Proof.
  split; [reflexivity|].
  now rewrite (register_twice_rejected Sample.env0 Sample.env1
                 Sample.register_body Sample.register_body Sample.store0
                 eq_refl eq_refl).
Defined.

(** Registration keeps the emails of the stored users pairwise distinct. *)
Theorem register_keeps_emails_unique (env : Env)
        (b : AuthController.RegisterBody) (st : Db.Store) :
  NoDup (map User.email (Db.users st)) ->
  NoDup (map User.email (Db.users (snd (AuthController.register env b st)))).
Proof.
  intros Hnd.
  destruct (Res.success (fst (AuthController.register env b st))) eqn:Hok.
  - destruct (register_effect env b st Hok) as (pw & Hpw & Hnone & ->).
    simpl. unfold Db.save. rewrite map_app. simpl.
    apply NoDup_snoc; [exact Hnd|].
    intros Hin. apply in_map_iff in Hin as (u & Hu & Hin).
    pose proof (findOne_None _ _ Hnone u Hin) as Hno.
    unfold Db.by_email in Hno. rewrite Hu, String.eqb_refl in Hno.
    discriminate.
  - revert Hok. unfold AuthController.register, Jwt.JWT_EXPIRES_IN.
    destruct (Db.findOne _ _); [intros _; exact Hnd|].
    destruct (AuthController.password b); [|intros _; exact Hnd].
    rewrite sign_24h. simpl. discriminate.
Qed.

Lemma register_keeps_emails_unique_witness :
  NoDup (map User.email (Db.users Sample.store0))
  /\ NoDup (map User.email
                (Db.users (snd (AuthController.register Sample.env0
                                  Sample.register_body Sample.store0)))).
Proof.
  assert (H0 : NoDup (map User.email (Db.users Sample.store0))).
  { simpl. repeat constructor; simpl; intuition discriminate. }
  split; [exact H0|].
  exact (register_keeps_emails_unique Sample.env0 Sample.register_body
           Sample.store0 H0).
Defined.

(** Registration and login fit together: after a successful registration
    with a non-empty email and password, a login with the same email and
    password is answered 200 with the user just stored and a token that
    names it, provided bcrypt accepts the password against the hash it
    produced. *)
Theorem login_after_register (env env' : Env)
        (b : AuthController.RegisterBody) (st : Db.Store) (pw : string) :
  Res.success (fst (AuthController.register env b st)) = true ->
  AuthController.password b = Some pw ->
  pw <> EmptyString ->
  AuthController.email b <> EmptyString ->
  bcrypt_compare env' pw (bcrypt_hash env pw (bcrypt_genSalt env 10)) = true ->
  exists tk,
    AuthController.login env'
      (AuthController.mkLoginBody (Some (AuthController.email b)) (Some pw))
      (snd (AuthController.register env b st))
    = (Res.ok 200 "Login successful"
         (Some (AuthController.mkAuthData
                  (AuthController.userResponse
                     (AuthController.newUser env b
                        (bcrypt_hash env pw (bcrypt_genSalt env 10))))
                  tk)),
       snd (AuthController.register env b st))
    /\ Jwt.id (Jwt.claims tk) = uuidv4 env
    /\ Jwt.email (Jwt.claims tk) = AuthController.email b.
Proof.
  intros Hok Hpw Hne Hem Hcmp.
  destruct (register_effect env b st Hok) as (pw' & Hpw' & Hnone & ->).
  rewrite Hpw in Hpw'. injection Hpw' as <-.
  unfold AuthController.login, Jwt.JWT_EXPIRES_IN.
  cbn [AuthController.l_email AuthController.l_password].
  rewrite (falsy_str_Some _ Hem), (falsy_str_Some _ Hne).
  cbn [orb Db.users Db.with_users].
  rewrite (findOne_first_new _ _ _ Hnone)
    by (unfold Db.by_email; simpl; apply String.eqb_refl).
  simpl User.password. rewrite Hcmp, sign_24h.
  eexists. split; [reflexivity|]. split; reflexivity.
Qed.

Lemma login_after_register_witness :
  Res.success (fst (AuthController.register Sample.env0 Sample.register_body
                      Sample.store0)) = true
  /\ Res.status
       (fst (AuthController.login Sample.env1
               (AuthController.mkLoginBody (Some "carol@example.org")
                                           (Some "pw-c"))
               (snd (AuthController.register Sample.env0 Sample.register_body
                       Sample.store0)))) = 200.
Proof.
  split; [reflexivity|].
  destruct (login_after_register Sample.env0 Sample.env1 Sample.register_body
              Sample.store0 "pw-c" eq_refl eq_refl)
    as (tk & Hlogin & _); [discriminate | discriminate | reflexivity |].
  exact (f_equal (fun r => Res.status (fst r)) Hlogin).
Defined.

(** Login writes nothing, and it answers an unknown email and a wrong
    password alike: 401 with the same message. *)
Theorem login_failure_uniform (env : Env) (b : AuthController.LoginBody)
        (st : Db.Store) :
  snd (AuthController.login env b st) = st
  /\ forall em pw,
      AuthController.l_email b = Some em -> em <> EmptyString ->
      AuthController.l_password b = Some pw -> pw <> EmptyString ->
      (Db.findOne (Db.by_email em) (Db.users st) = None
       \/ exists u, Db.findOne (Db.by_email em) (Db.users st) = Some u
                    /\ bcrypt_compare env pw (User.password u) = false) ->
      fst (AuthController.login env b st) = Res.fail 401 "Invalid credentials".
Proof.
  unfold AuthController.login, Jwt.JWT_EXPIRES_IN. split.
  - destruct (AuthController.l_email b) as [em|]; [|reflexivity].
    destruct (AuthController.l_password b) as [pw|]; [|reflexivity].
    destruct (_ || _)%bool; [reflexivity|].
    destruct (Db.findOne _ _) as [u|]; [|reflexivity].
    destruct (bcrypt_compare env pw _); [|reflexivity].
    now rewrite sign_24h.
  - intros em pw -> Hem -> Hpw Hwhy.
    rewrite (falsy_str_Some _ Hem), (falsy_str_Some _ Hpw). simpl orb. cbv iota.
    destruct Hwhy as [->|(u & -> & ->)]; reflexivity.
Qed.

(** The token that [login] issues, in full. *)
Lemma login_issues (env : Env) (b : AuthController.LoginBody) (st : Db.Store)
      (d : AuthController.AuthData) :
  Res.data (fst (AuthController.login env b st)) = Some d ->
  AuthController.token d
  = Jwt.mkToken (Jwt.claims (AuthController.token d)) (now_ms env / 1000)
                (now_ms env / 1000 + 86400) (Jwt.JWT_SECRET env).
Proof.
  unfold AuthController.login, Jwt.JWT_EXPIRES_IN.
  destruct (AuthController.l_email b) as [em|]; [|discriminate].
  destruct (AuthController.l_password b) as [pw|]; [|discriminate].
  destruct (_ || _)%bool; [discriminate|].
  destruct (Db.findOne _ _) as [u|]; [|discriminate].
  destruct (bcrypt_compare env pw _); [|discriminate].
  rewrite sign_24h. simpl. now intros [= <-].
Qed.

(** A token issued by [login] opens the routes behind [authenticate] for
    24 hours and not longer: under the same secret, a request that carries
    it reaches the handler, with the payload that was signed, exactly while
    the clock (in whole seconds) is less than 86400 seconds past the
    issue; afterwards it is answered 403 and nothing runs. *)
Theorem login_token_window (env env' : Env) (b : AuthController.LoginBody)
        (st st' : Db.Store) (d : AuthController.AuthData) (A : Type)
        (next : Jwt.Payload -> Handler A) :
  Res.data (fst (AuthController.login env b st)) = Some d ->
  Jwt.JWT_SECRET env' = Jwt.JWT_SECRET env ->
  Middleware.authenticate env' (Some (AuthController.token d)) next st'
  = if now_ms env' / 1000 <? now_ms env / 1000 + 86400
    then next (Jwt.claims (AuthController.token d)) st'
    else (Res.fail 403 "Invalid or expired token. Please login again.", st').
Proof.
  intros Hd Hsec. rewrite (login_issues env b st d Hd).
  unfold Middleware.authenticate, Jwt.verify. simpl.
  rewrite Hsec, String.eqb_refl. simpl.
  destruct (_ <? _); reflexivity.
Qed.

Lemma login_token_window_witness :
  exists d,
    Res.data (fst (AuthController.login Sample.env0 Sample.alice_login
                     Sample.store_open)) = Some d
    /\ Routes.delete_enroll_pts Sample.env1 (Some (AuthController.token d)) 1
         Sample.store_open
       = EnrollPTSController.cancelEnrollment
           (Jwt.claims (AuthController.token d)) 1 Sample.store_open.
Proof.
  eexists. split; [reflexivity|].
  unfold Routes.delete_enroll_pts.
  now rewrite (login_token_window Sample.env0 Sample.env1 Sample.alice_login
                 Sample.store_open Sample.store_open _ _ _ eq_refl eq_refl).
Defined.

(** The route that deletes a session is closed to every request whose token
    lacks the admin flag: it is answered 401 or 403 and the store is left as
    it was. *)
Theorem delete_session_route_needs_admin (env : Env)
        (token : option Jwt.Token) (id : string) (st : Db.Store) :
  (forall tk, token = Some tk -> Jwt.isAdmin (Jwt.claims tk) <> Some true) ->
  snd (Routes.delete_physical_training env token id st) = st
  /\ (Res.status (fst (Routes.delete_physical_training env token id st)) = 401
      \/ Res.status (fst (Routes.delete_physical_training env token id st))
         = 403).
Proof.
  intros Hno. unfold Routes.delete_physical_training, Middleware.authenticate.
  destruct token as [tk|]; [|simpl; auto].
  specialize (Hno tk eq_refl).
  unfold Jwt.verify. destruct (_ && _)%bool; [|simpl; auto].
  unfold Middleware.isAdmin.
  destruct (Jwt.isAdmin (Jwt.claims tk)) as [[|]|]; simpl; auto.
  now contradiction Hno.
Qed.

Lemma delete_session_route_needs_admin_witness :
  exists d,
    Res.data (fst (AuthController.login Sample.env0 Sample.alice_login
                     Sample.store_empty_session)) = Some d
    /\ snd (Routes.delete_physical_training Sample.env1
              (Some (AuthController.token d)) "PT0001"
              Sample.store_empty_session)
       = Sample.store_empty_session.
Proof.
  eexists. split; [reflexivity|].
  apply (delete_session_route_needs_admin Sample.env1 _ "PT0001"
           Sample.store_empty_session).
  intros tk [= <-]. discriminate.
Defined.

(** The user that [/me] shows right after a registration is the one the
    registration answered with, provided the new [userID] was not in use. *)
Theorem me_after_register (env : Env) (b : AuthController.RegisterBody)
        (st : Db.Store) (d : AuthController.AuthData) :
  Res.data (fst (AuthController.register env b st)) = Some d ->
  (forall u, In u (Db.users st) -> User.userID u <> uuidv4 env) ->
  AuthController.getCurrentUser (Jwt.claims (AuthController.token d))
    (snd (AuthController.register env b st))
  = Reply.one (AuthController.user d).
Proof.
  unfold AuthController.register, Jwt.JWT_EXPIRES_IN.
  destruct (Db.findOne _ _) eqn:Hem; [discriminate|].
  destruct (AuthController.password b) as [pw|]; [|discriminate].
  rewrite sign_24h. simpl. intros [= <-] Hfresh.
  unfold AuthController.getCurrentUser. simpl.
  rewrite findOne_first_new; [reflexivity| |].
  - apply findOne_absent. intros u Hu. unfold Db.by_userID.
    apply String.eqb_neq. now apply Hfresh.
  - unfold Db.by_userID. simpl. apply String.eqb_refl.
Qed.

Lemma me_after_register_witness :
  exists d,
    Res.data (fst (AuthController.register Sample.env0 Sample.register_body
                     Sample.store0)) = Some d
    /\ AuthController.getCurrentUser (Jwt.claims (AuthController.token d))
         (snd (AuthController.register Sample.env0 Sample.register_body
                 Sample.store0))
       = Reply.one (AuthController.user d).
Proof.
  eexists. split; [reflexivity|].
  apply (me_after_register Sample.env0 Sample.register_body Sample.store0 _
           eq_refl).
  intros u [<-|[<-|[]]]; discriminate.
Defined.

(** ** Natural keys stay unique *)

Lemma NoDup_insert {A : Type} (m1 m2 : list A) (a : A) :
  NoDup (m1 ++ m2) -> ~ In a (m1 ++ m2) -> NoDup (m1 ++ a :: m2).
Proof.
  induction m1 as [|y r IH]; simpl; intros Hnd Ha.
  - now constructor.
  - inversion Hnd as [|? ? Hy Hr]; subst. constructor.
    + intros Hin. apply in_app_or in Hin as [Hin|[<-|Hin]].
      * apply Hy, in_or_app. now left.
      * apply Ha. now left.
      * apply Hy, in_or_app. now right.
    + apply IH; [assumption|]. intros Hin. apply Ha. now right.
Qed.

(** Replacing one document keeps a key unique when the new document has
    the old key or a key that no other document has. *)
Lemma replace_NoDup {A B : Type} (g : A -> B) (l1 l2 : list A) (x x' : A) :
  NoDup (map g (l1 ++ x :: l2)) ->
  g x' = g x \/ ~ In (g x') (map g (l1 ++ l2)) ->
  NoDup (map g (l1 ++ x' :: l2)).
Proof.
  rewrite !map_app. simpl. intros Hnd [->|Hnew]; [exact Hnd|].
  apply NoDup_insert; [now apply NoDup_remove_1 in Hnd | exact Hnew].
Qed.

Lemma not_in_rest {A B : Type} (g : A -> B) (l1 l2 : list A) (x : A) (k : B) :
  ~ In k (map g (l1 ++ x :: l2)) -> ~ In k (map g (l1 ++ l2)).
Proof.
  rewrite !map_app. simpl. intros H Hin. apply H.
  apply in_app_or in Hin as [Hin|Hin]; apply in_or_app; simpl; auto.
Qed.

(** Vehicle plate numbers stay pairwise distinct under create, update and
    delete. *)
Theorem vehicle_numbers_stay_unique (env : Env) (id : string)
        (b : VehicleController.Body) (st : Db.Store) :
  NoDup (map Vehicle.vehicleNO (Db.vehicles st)) ->
  NoDup (map Vehicle.vehicleNO
             (Db.vehicles (snd (VehicleController.createVehicle env b st))))
  /\ NoDup (map Vehicle.vehicleNO
                (Db.vehicles (snd (VehicleController.updateVehicle id b st))))
  /\ NoDup (map Vehicle.vehicleNO
                (Db.vehicles (snd (VehicleController.deleteVehicle id st)))).
Proof.
  intros Hnd. split; [|split].
  - unfold VehicleController.createVehicle.
    destruct (VehicleController.vehicleNO b) as [no|]; [|exact Hnd].
    destruct (VehicleController.vehicleType b); [|exact Hnd].
    destruct (VehicleController.transmissionType b); [|exact Hnd].
    destruct (VehicleController.fuelType b); [|exact Hnd].
    destruct (VehicleController.availability b); [|exact Hnd].
    destruct (VehicleController.studentCnt b); [|exact Hnd].
    destruct (_ || _)%bool; [exact Hnd|].
    destruct (Db.findOne (Db.by_vehicleNO no) _) eqn:Hno; [exact Hnd|].
    simpl. unfold Db.save. rewrite map_app. simpl.
    apply NoDup_snoc; [exact Hnd|].
    intros Hin. apply in_map_iff in Hin as (v & Hv & Hin).
    pose proof (findOne_None _ _ Hno v Hin) as H.
    unfold Db.by_vehicleNO in H. rewrite Hv, String.eqb_refl in H.
    discriminate.
  - unfold VehicleController.updateVehicle.
    destruct (_ && _)%bool; [exact Hnd|].
    destruct (Db.findOne (Db.by_vehicleID id) _) as [v|] eqn:Hv; [|exact Hnd].
    destruct (VehicleController.number_in_use b v st) eqn:Huse; [exact Hnd|].
    simpl.
    destruct (findOne_split _ _ _ Hv) as (l1 & l2 & El & Hpv & Hl1).
    rewrite El, (findOneAndUpdate_skip _ _ l1 l2 v Hl1 Hpv).
    rewrite El in Hnd. apply (replace_NoDup _ l1 l2 v); [exact Hnd|].
    unfold VehicleController.updateData, VehicleController.number_in_use in *.
    cbn [Vehicle.vehicleNO].
    destruct (VehicleController.vehicleNO b) as [x|]; [|now left].
    destruct (Js.falsy_str (Some x)); [now left|].
    destruct (String.eqb x (Vehicle.vehicleNO v)) eqn:Esame.
    + left. now apply String.eqb_eq in Esame.
    + right.
      destruct (Db.findOne (Db.by_vehicleNO x) (Db.vehicles st)) eqn:Hx;
        [discriminate|].
      apply (not_in_rest _ l1 l2 v). rewrite <- El.
      intros Hin. apply in_map_iff in Hin as (y & Hy & Hin).
      pose proof (findOne_None _ _ Hx y Hin) as H.
      unfold Db.by_vehicleNO in H. rewrite Hy, String.eqb_refl in H.
      discriminate.
  - unfold VehicleController.deleteVehicle.
    destruct (Db.findOne (Db.by_vehicleID id) _) as [v|] eqn:Hv; [|exact Hnd].
    simpl.
    destruct (findOne_split _ _ _ Hv) as (l1 & l2 & El & Hpv & Hl1).
    rewrite El, (findOneAndDelete_skip _ l1 l2 v Hl1 Hpv).
    rewrite El in Hnd. rewrite map_app in *. simpl in Hnd.
    now apply NoDup_remove_1 in Hnd.
Qed.

Lemma vehicle_numbers_stay_unique_witness :
  NoDup (map Vehicle.vehicleNO (Db.vehicles Sample.store0))
  /\ NoDup (map Vehicle.vehicleNO
                (Db.vehicles
                   (snd (VehicleController.updateVehicle "v-1"
                           (VehicleController.mkBody (Some "CAB-9999") None
                              None None None None)
                           Sample.store0)))).
Proof.
  assert (H0 : NoDup (map Vehicle.vehicleNO (Db.vehicles Sample.store0))).
  { simpl. repeat constructor. simpl. tauto. }
  split; [exact H0|].
  exact (proj1 (proj2 (vehicle_numbers_stay_unique Sample.env0 "v-1" _
                         Sample.store0 H0))).
Defined.

(** Instructor emails stay pairwise distinct under create, update and
    delete. *)
Theorem instructor_emails_stay_unique (env : Env) (id : string)
        (b : InstructorController.CreateBody) (st : Db.Store) :
  NoDup (map Instructor.email (Db.instructors st)) ->
  NoDup (map Instructor.email
             (Db.instructors
                (snd (InstructorController.createInstructor env b st))))
  /\ NoDup (map Instructor.email
                (Db.instructors
                   (snd (InstructorController.updateInstructor env id b st))))
  /\ NoDup (map Instructor.email
                (Db.instructors
                   (snd (InstructorController.deleteInstructor id st)))).
Proof.
  intros Hnd. split; [|split].
  - unfold InstructorController.createInstructor.
    destruct (InstructorController.InstructorName b); [|exact Hnd].
    destruct (InstructorController.email b) as [em|]; [|exact Hnd].
    destruct (InstructorController.InstructorLocation b); [|exact Hnd].
    destruct (InstructorController.InstructorExperience b); [|exact Hnd].
    destruct (InstructorController.password b); [|exact Hnd].
    destruct (_ || _)%bool; [exact Hnd|].
    destruct (Db.findOne (Db.by_instructor_email em) _) eqn:Hno; [exact Hnd|].
    simpl. unfold Db.save. rewrite map_app. simpl.
    apply NoDup_snoc; [exact Hnd|].
    intros Hin. apply in_map_iff in Hin as (v & Hv & Hin).
    pose proof (findOne_None _ _ Hno v Hin) as H.
    unfold Db.by_instructor_email in H. rewrite Hv, String.eqb_refl in H.
    discriminate.
  - unfold InstructorController.updateInstructor.
    destruct (_ && _)%bool; [exact Hnd|].
    destruct (Db.findOne (Db.by_InstructorID id) _) as [v|] eqn:Hv;
      [|exact Hnd].
    destruct (InstructorController.email_in_use b v st) eqn:Huse; [exact Hnd|].
    simpl.
    destruct (findOne_split _ _ _ Hv) as (l1 & l2 & El & Hpv & Hl1).
    rewrite El, (findOneAndUpdate_skip _ _ l1 l2 v Hl1 Hpv).
    rewrite El in Hnd. apply (replace_NoDup _ l1 l2 v); [exact Hnd|].
    unfold InstructorController.updateData,
      InstructorController.email_in_use in *.
    cbn [Instructor.email].
    destruct (InstructorController.email b) as [x|]; [|now left].
    destruct (Js.falsy_str (Some x)); [now left|].
    destruct (String.eqb x (Instructor.email v)) eqn:Esame.
    + left. now apply String.eqb_eq in Esame.
    + right.
      destruct (Db.findOne (Db.by_instructor_email x) (Db.instructors st))
        eqn:Hx; [discriminate|].
      apply (not_in_rest _ l1 l2 v). rewrite <- El.
      intros Hin. apply in_map_iff in Hin as (y & Hy & Hin).
      pose proof (findOne_None _ _ Hx y Hin) as H.
      unfold Db.by_instructor_email in H. rewrite Hy, String.eqb_refl in H.
      discriminate.
  - unfold InstructorController.deleteInstructor.
    destruct (Db.findOne (Db.by_InstructorID id) _) as [v|] eqn:Hv;
      [|exact Hnd].
    simpl.
    destruct (findOne_split _ _ _ Hv) as (l1 & l2 & El & Hpv & Hl1).
    rewrite El, (findOneAndDelete_skip _ l1 l2 v Hl1 Hpv).
    rewrite El in Hnd. rewrite map_app in *. simpl in Hnd.
    now apply NoDup_remove_1 in Hnd.
Qed.

Lemma instructor_emails_stay_unique_witness :
  NoDup (map Instructor.email (Db.instructors Sample.store0))
  /\ NoDup (map Instructor.email
                (Db.instructors
                   (snd (InstructorController.createInstructor Sample.env0
                           (InstructorController.mkCreateBody (Some "Uma")
                              (Some "uma@example.org") (Some "Galle") (Some 3)
                              (Some "pw-u"))
                           Sample.store0)))).
Proof.
  assert (H0 : NoDup (map Instructor.email (Db.instructors Sample.store0))).
  { simpl. repeat constructor. simpl. tauto. }
  split; [exact H0|].
  exact (proj1 (instructor_emails_stay_unique Sample.env0 "i-1" _
                  Sample.store0 H0)).
Defined.

Lemma others_differ {A B : Type} (g : A -> B) (l1 l2 : list A) (x y : A) :
  NoDup (map g (l1 ++ x :: l2)) -> In y (l1 ++ l2) -> g y <> g x.
Proof.
  rewrite map_app. simpl. intros Hnd Hy Heq.
  apply NoDup_remove_2 in Hnd. apply Hnd.
  rewrite <- map_app, <- Heq. now apply in_map.
Qed.

(** Updating a profile never changes a user's id or password, and it keeps
    the emails of the stored users pairwise distinct, provided the user ids
    are distinct. *)
Theorem updateUser_keeps_emails_unique (caller : Jwt.Payload)
        (b : AuthController.UpdateBody) (st : Db.Store) :
  NoDup (map User.userID (Db.users st)) ->
  NoDup (map User.email (Db.users st)) ->
  NoDup (map User.email
             (Db.users (snd (AuthController.updateUser caller b st))))
  /\ map User.userID (Db.users (snd (AuthController.updateUser caller b st)))
     = map User.userID (Db.users st)
  /\ map User.password (Db.users (snd (AuthController.updateUser caller b st)))
     = map User.password (Db.users st).
Proof.
  intros Hids Hnd. unfold AuthController.updateUser.
  destruct (_ && _)%bool; [auto|].
  destruct (negb (Js.falsy_str (AuthController.u_username b)
                  && Js.falsy_str (AuthController.u_email b))
            && negb (Js.is_undefined
                       (Db.findOne
                          (AuthController.taken_by_other (Jwt.id caller) b)
                          (Db.users st))))%bool eqn:Hchk; [auto|].
  destruct (Db.findOne (Db.by_userID (Jwt.id caller)) _) as [u|] eqn:Hu;
    [|auto].
  simpl. split; [|split; now apply map_findOneAndUpdate].
  destruct (findOne_split _ _ _ Hu) as (l1 & l2 & El & Hpu & Hl1).
  rewrite El, (findOneAndUpdate_skip _ _ l1 l2 u Hl1 Hpu).
  rewrite El in Hnd, Hids. apply (replace_NoDup _ l1 l2 u); [exact Hnd|].
  unfold AuthController.updateData. cbn [User.email].
  unfold AuthController.spread_req.
  destruct (AuthController.u_email b) as [v|] eqn:Hv; [|now left].
  destruct (Js.falsy_str (Some v)) eqn:Hfv; [now left|].
  right. rewrite andb_false_r in Hchk. simpl in Hchk.
  apply negb_false_iff in Hchk.
  destruct (Db.findOne (AuthController.taken_by_other (Jwt.id caller) b)
                       (Db.users st)) eqn:Hnone; [discriminate|].
  intros Hin. apply in_map_iff in Hin as (y & Hy & Hin).
  assert (Hyin : In y (Db.users st)).
  { rewrite El. apply in_app_or in Hin as [H|H]; apply in_or_app; simpl; auto. }
  pose proof (findOne_None _ _ Hnone y Hyin) as Hno.
  pose proof (others_differ User.userID l1 l2 u y Hids Hin) as Hne.
  unfold Db.by_userID in Hpu. apply String.eqb_eq in Hpu.
  unfold AuthController.taken_by_other in Hno.
  rewrite Hv, Hfv in Hno. unfold Db.by_email in Hno.
  rewrite Hy, String.eqb_refl in Hno.
  rewrite <- Hpu in Hno. apply String.eqb_neq in Hne. rewrite Hne in Hno.
  simpl in Hno. rewrite orb_true_r in Hno. discriminate.
Qed.

Lemma updateUser_keeps_emails_unique_witness :
  NoDup (map User.email (Db.users Sample.store0))
  /\ NoDup (map User.email
                (Db.users
                   (snd (AuthController.updateUser Sample.alice_token
                           (AuthController.mkUpdateBody None None None
                              (Some "alice@new.example.org") None None None)
                           Sample.store0)))).
Proof.
  assert (H0 : NoDup (map User.email (Db.users Sample.store0))).
  { simpl. repeat constructor; simpl; intuition discriminate. }
  assert (H1 : NoDup (map User.userID (Db.users Sample.store0))).
  { simpl. repeat constructor; simpl; intuition discriminate. }
  split; [exact H0|].
  exact (proj1 (updateUser_keeps_emails_unique Sample.alice_token _
                  Sample.store0 H1 H0)).
Defined.

(** ** Instructors *)

Lemma createInstructor_effect (env : Env)
      (b : InstructorController.CreateBody) (st : Db.Store) :
  Res.success (fst (InstructorController.createInstructor env b st)) = true ->
  exists n em l x pw,
    InstructorController.email b = Some em /\ em <> EmptyString
    /\ InstructorController.password b = Some pw /\ pw <> EmptyString
    /\ Db.findOne (Db.by_instructor_email em) (Db.instructors st) = None
    /\ snd (InstructorController.createInstructor env b st)
       = Db.with_instructors
           (Db.save (Instructor.mk (uuidv4 env) n em l x
                       (bcrypt_hash env pw (bcrypt_genSalt env 10)) true)
                    (Db.instructors st)) st.
Proof.
  unfold InstructorController.createInstructor.
  destruct (InstructorController.InstructorName b) as [n|]; [|discriminate].
  destruct (InstructorController.email b) as [em|]; [|discriminate].
  destruct (InstructorController.InstructorLocation b) as [l|]; [|discriminate].
  destruct (InstructorController.InstructorExperience b) as [x|];
    [|discriminate].
  destruct (InstructorController.password b) as [pw|]; [|discriminate].
  destruct (Js.falsy_str (Some em)) eqn:Hem;
    [rewrite orb_true_r; simpl; discriminate|].
  destruct (Js.falsy_str (Some pw)) eqn:Hpw;
    [rewrite orb_true_r; simpl; discriminate|].
  destruct (_ || _)%bool; [discriminate|].
  destruct (Db.findOne _ _) eqn:Hnone; [discriminate|].
  intros _. exists n, em, l, x, pw.
  simpl in Hem, Hpw. apply String.eqb_neq in Hem, Hpw.
  repeat split; auto.
Qed.

(** An instructor that has just been created can log in with the password
    of the create request (provided bcrypt accepts it against the hash it
    produced); the token names the new instructor and carries the
    instructor flag, so that for the next 24 hours it passes the gate of the
    route that sets the status of a session. *)
Theorem instructor_login_after_create (env env' : Env)
        (b : InstructorController.CreateBody) (st : Db.Store) (pw : string) :
  Res.success (fst (InstructorController.createInstructor env b st)) = true ->
  InstructorController.password b = Some pw ->
  bcrypt_compare env' pw (bcrypt_hash env pw (bcrypt_genSalt env 10)) = true ->
  exists d,
    InstructorController.instructorLogin env'
      (AuthController.mkLoginBody (InstructorController.email b) (Some pw))
      (snd (InstructorController.createInstructor env b st))
    = (Res.ok 200 "Login successful" (Some d),
       snd (InstructorController.createInstructor env b st))
    /\ Jwt.id (Jwt.claims (InstructorController.token d)) = uuidv4 env
    /\ Jwt.isInstructor (Jwt.claims (InstructorController.token d)) = Some true
    /\ forall env'' sid status st'',
        Jwt.JWT_SECRET env'' = Jwt.JWT_SECRET env' ->
        now_ms env'' / 1000 < now_ms env' / 1000 + 86400 ->
        Routes.patch_physical_training_status env''
          (Some (InstructorController.token d)) sid status st''
        = PhysicalTrainingController.updateSessionStatus sid status st''.
Proof.
  intros Hok Hpw Hcmp.
  destruct (createInstructor_effect env b st Hok)
    as (n & em & l & x & pw' & Hem & Hne & Hpw' & Hpne & Hnone & ->).
  rewrite Hpw in Hpw'. injection Hpw' as <-.
  unfold InstructorController.instructorLogin.
  cbn [AuthController.l_email AuthController.l_password].
  rewrite Hem, (falsy_str_Some _ Hne), (falsy_str_Some _ Hpne).
  cbn [orb Db.instructors Db.with_instructors].
  rewrite (findOne_first_new _ _ _ Hnone)
    by (unfold Db.by_instructor_email; simpl; apply String.eqb_refl).
  cbn [Instructor.password]. rewrite Hcmp, sign_24h.
  eexists. split; [reflexivity|]. split; [reflexivity|].
  split; [reflexivity|].
  intros env'' sid status st'' Hsec Hnow.
  unfold Routes.patch_physical_training_status, Middleware.authenticate,
    Jwt.verify.
  cbn [InstructorController.token Jwt.key Jwt.exp Jwt.claims].
  rewrite Hsec, String.eqb_refl. apply Z.ltb_lt in Hnow. rewrite Hnow.
  reflexivity.
Qed.

Lemma instructor_login_after_create_witness :
  Res.success
    (fst (InstructorController.createInstructor Sample.env0
            (InstructorController.mkCreateBody (Some "Uma")
               (Some "uma@example.org") (Some "Galle") (Some 3) (Some "pw-u"))
            Sample.store0)) = true
  /\ exists d,
      Res.data
        (fst (InstructorController.instructorLogin Sample.env1
                (AuthController.mkLoginBody (Some "uma@example.org")
                                            (Some "pw-u"))
                (snd (InstructorController.createInstructor Sample.env0
                        (InstructorController.mkCreateBody (Some "Uma")
                           (Some "uma@example.org") (Some "Galle") (Some 3)
                           (Some "pw-u"))
                        Sample.store0)))) = Some d
      /\ Jwt.isInstructor (Jwt.claims (InstructorController.token d))
         = Some true.
Proof.
  split; [reflexivity|].
  destruct (instructor_login_after_create Sample.env0 Sample.env1
              (InstructorController.mkCreateBody (Some "Uma")
                 (Some "uma@example.org") (Some "Galle") (Some 3)
                 (Some "pw-u"))
              Sample.store0 "pw-u" eq_refl eq_refl eq_refl)
    as (d & Hlogin & _ & Hflag & _).
  exists d. split; [|exact Hflag].
  exact (f_equal (fun r => Res.data (fst r)) Hlogin).
Defined.

(** ** Zero where a value is required *)

(** The create handlers test required numbers for truth, so a zero counts
    as missing: a session cannot be created with capacity 0 and an
    instructor cannot be created with 0 years of experience, whatever the
    other fields are; both requests are answered 400 and store nothing. *)
Theorem zero_counts_as_missing (env : Env)
        (sb : PhysicalTrainingController.CreateBody)
        (ib : InstructorController.CreateBody) (st : Db.Store) :
  (PhysicalTrainingController.maxCount sb = Some 0 ->
   PhysicalTrainingController.createPhysicalTraining sb st
   = (Res.fail 400 "All required fields must be provided", st))
  /\ (InstructorController.InstructorExperience ib = Some 0 ->
      InstructorController.createInstructor env ib st
      = (Res.fail 400 "All fields are required", st)).
Proof.
  split.
  - intros Hz. unfold PhysicalTrainingController.createPhysicalTraining.
    rewrite Hz.
    destruct (PhysicalTrainingController.date sb); [|reflexivity].
    destruct (PhysicalTrainingController.time sb); [|reflexivity].
    destruct (PhysicalTrainingController.location sb); [|reflexivity].
    destruct (PhysicalTrainingController.vehicleID sb); [|reflexivity].
    destruct (PhysicalTrainingController.instructorID sb); [|reflexivity].
    change (Js.falsy_num (Some 0)) with true. now rewrite orb_true_r.
  - intros Hz. unfold InstructorController.createInstructor.
    rewrite Hz.
    destruct (InstructorController.InstructorName ib); [|reflexivity].
    destruct (InstructorController.email ib); [|reflexivity].
    destruct (InstructorController.InstructorLocation ib); [|reflexivity].
    destruct (InstructorController.password ib); [|reflexivity].
    change (Js.falsy_num (Some 0)) with true. now rewrite orb_true_r.
Qed.

Lemma zero_counts_as_missing_witness :
  PhysicalTrainingController.createPhysicalTraining (Sample.create_body 0)
    Sample.store0
  = (Res.fail 400 "All required fields must be provided", Sample.store0).
Proof.
  exact (proj1 (zero_counts_as_missing Sample.env0 (Sample.create_body 0)
                  (InstructorController.mkCreateBody None None None None None)
                  Sample.store0) eq_refl).
Defined.

(** ** Updating a session *)

(** A session update never adds, removes or renames a session and touches
    no other collection; when it is refused (400 or 404) the store is left
    exactly as it was. *)
Theorem updatePhysicalTraining_scope (id : string)
        (b : PhysicalTrainingController.UpdateBody) (st : Db.Store) :
  snd (PhysicalTrainingController.updatePhysicalTraining id b st)
  = Db.with_physicalTrainings
      (Db.physicalTrainings
         (snd (PhysicalTrainingController.updatePhysicalTraining id b st))) st
  /\ map PhysicalTraining.sessionID
       (Db.physicalTrainings
          (snd (PhysicalTrainingController.updatePhysicalTraining id b st)))
     = map PhysicalTraining.sessionID (Db.physicalTrainings st)
  /\ (Res.success
        (fst (PhysicalTrainingController.updatePhysicalTraining id b st))
      = false ->
      snd (PhysicalTrainingController.updatePhysicalTraining id b st) = st
      /\ (Res.status
            (fst (PhysicalTrainingController.updatePhysicalTraining id b st))
          = 400
          \/ Res.status
               (fst (PhysicalTrainingController.updatePhysicalTraining id b st))
             = 404)).
Proof.
  assert (Hsame : st = Db.with_physicalTrainings (Db.physicalTrainings st) st)
    by now destruct st.
  unfold PhysicalTrainingController.updatePhysicalTraining.
  destruct (_ && _)%bool; [simpl; auto|].
  destruct (Db.findOne _ _); [|simpl; auto].
  destruct (PhysicalTrainingController.vehicle_missing _ _); [simpl; auto|].
  destruct (PhysicalTrainingController.instructor_missing _ _); [simpl; auto|].
  destruct (PhysicalTrainingController.status_invalid _); [simpl; auto|].
  destruct (PhysicalTrainingController.count_exceeds _ _); [simpl; auto|].
  simpl. split; [reflexivity|]. split; [|discriminate].
  now apply map_findOneAndUpdate.
Qed.

Lemma updateEnrollmentStatus_scope_witness :
  Res.success (fst (EnrollPTSController.updateEnrollmentStatus 1
                      (Some "absent") Sample.store_open)) = true
  /\ Db.findOne (Db.by_id 1)
       (Db.enrollments
          (snd (EnrollPTSController.updateEnrollmentStatus 1 (Some "absent")
                  Sample.store_open)))
     = Some (EnrollPTS.set_status "absent" Sample.alice_row).
Proof.
  split; [reflexivity|].
  destruct (updateEnrollmentStatus_scope 1 (Some "absent") Sample.store_open)
    as (_ & _ & _ & _ & _ & Hok).
  destruct (Hok eq_refl) as (v & e & Hv & _ & He & Hnew).
  injection Hv as <-. injection He as <-. exact Hnew.
Defined.

Lemma getEnrollmentStats_counts_witness :
  exists stats,
    EnrollPTSController.getEnrollmentStats Sample.store_open = Reply.one stats
    /\ Js.obj_get "pending" stats = Some 1
    /\ Js.obj_get "absent" stats = Some 0.
Proof.
  destruct (getEnrollmentStats_counts Sample.store_open "pending")
    as (stats & Hs & Hp & _).
  destruct (getEnrollmentStats_counts Sample.store_open "absent")
    as (stats' & Hs' & Ha & _).
  exists stats. split; [exact Hs|]. split.
  - apply Hp. left. simpl. auto.
  - rewrite Hs in Hs'. injection Hs' as <-. apply Ha. left. simpl. auto.
Defined.

Lemma login_failure_uniform_witness :
  fst (AuthController.login Sample.env0
         (AuthController.mkLoginBody (Some "alice@example.org") (Some "wrong"))
         Sample.store0)
  = Res.fail 401 "Invalid credentials"
  /\ fst (AuthController.login Sample.env0
            (AuthController.mkLoginBody (Some "nobody@example.org")
                                        (Some "wrong"))
            Sample.store0)
     = Res.fail 401 "Invalid credentials".
Proof.
  split.
  - apply (proj2 (login_failure_uniform Sample.env0 _ Sample.store0)
             "alice@example.org" "wrong");
      [reflexivity | discriminate | reflexivity | discriminate|].
    right. exists Sample.alice. split; reflexivity.
  - apply (proj2 (login_failure_uniform Sample.env0 _ Sample.store0)
             "nobody@example.org" "wrong");
      [reflexivity | discriminate | reflexivity | discriminate|].
    left. reflexivity.
Defined.

Lemma updatePhysicalTraining_scope_witness :
  Res.success
    (fst (PhysicalTrainingController.updatePhysicalTraining "PT9999"
            (Sample.only_maxCount 1) Sample.store_open)) = false
  /\ snd (PhysicalTrainingController.updatePhysicalTraining "PT9999"
            (Sample.only_maxCount 1) Sample.store_open) = Sample.store_open.
Proof.
  split; [reflexivity|].
  destruct (updatePhysicalTraining_scope "PT9999" (Sample.only_maxCount 1)
              Sample.store_open) as (_ & _ & Hfail).
  exact (proj1 (Hfail eq_refl)).
Defined.
